(** * Holy-Repair crawler: the schedule parser, the normalizer and the
      repair orchestrator of [src/crawler/holy_repair.py]

    The Python functions are embedded as Rocq functions over Python's own
    data: a [str] is its sequence of code points, a [dict] is its list of
    items in insertion order, [None] is [option]'s [None], and an exception
    caught by a [try] is an [option] inside the function that catches it.
    Objects that the source updates in place through two names (the
    entries of Strategy A) live in a store and are named by their position
    in it.

    What Python itself contributes is embedded as CPython 3.11 has it:
    the white space of [strip] and [\s], the decimal digits of [\d] and
    [int] (Unicode 14), the syntax [int] accepts, the format [02d].  Two
    things stay outside: [str.lower], which the flat parser takes as a
    parameter, and the browser (Playwright), so that what a handler meets
    for a record is an input of the orchestrator's step.  A record of a
    batch has strings under the keys the orchestrator reads. *)

From Stdlib Require Import Ascii String DecimalString.
From Stdlib Require Import List NArith ZArith Bool Lia.
Import ListNotations.

Set Implicit Arguments.

(* ================================================================== *)
(** * Python strings *)
(* ================================================================== *)

Module PyStr.

(** A Python [str]: its code points, in order. *)
Definition pystr : Type := list N.

(** ** Source literals

    The literals of the source are written here as UTF-8 text and decoded
    to code points once, when a constant is defined. *)

Fixpoint bytes_of (s : String.string) : list N :=
  match s with
  | String.EmptyString => []
  | String.String c r => N_of_ascii c :: bytes_of r
  end.

Fixpoint utf8_decode (bs : list N) : pystr :=
  match bs with
  | [] => []
  | b0 :: r0 =>
    if (b0 <? 128)%N then b0 :: utf8_decode r0
    else
      match r0 with
      | [] => []
      | b1 :: r1 =>
        if (b0 <? 224)%N
        then ((b0 - 192) * 64 + (b1 - 128))%N :: utf8_decode r1
        else
          match r1 with
          | [] => []
          | b2 :: r2 =>
            if (b0 <? 240)%N
            then ((b0 - 224) * 4096 + (b1 - 128) * 64 + (b2 - 128))%N
                   :: utf8_decode r2
            else
              match r2 with
              | [] => []
              | b3 :: r3 =>
                ((b0 - 240) * 262144 + (b1 - 128) * 4096
                 + (b2 - 128) * 64 + (b3 - 128))%N :: utf8_decode r3
              end
          end
      end
  end.

Definition lit (s : String.string) : pystr := utf8_decode (bytes_of s).
Arguments lit s%_string_scope.

(** ** Comparison, [startswith], [in] *)

Fixpoint eqb (a b : pystr) : bool :=
  match a, b with
  | [], [] => true
  | x :: a', y :: b' => (x =? y)%N && eqb a' b'
  | _, _ => false
  end.

(** [s.startswith(p)] *)
Fixpoint startswith (s p : pystr) : bool :=
  match p with
  | [] => true
  | c :: p' =>
    match s with
    | [] => false
    | d :: s' => (c =? d)%N && startswith s' p'
    end
  end.

(** [sub in s] *)
Fixpoint contains (sub s : pystr) : bool :=
  startswith s sub
  || match s with
     | [] => false
     | _ :: s' => contains sub s'
     end.

(** [c in s] for a one-character set written as a string, and
    membership of a string in a list of strings. *)
Definition mem_char (c : N) (cs : pystr) : bool :=
  existsb (fun d => (c =? d)%N) cs.

Definition mem_str (x : pystr) (l : list pystr) : bool :=
  existsb (eqb x) l.

(** Truth value of a string: non-empty. *)
Definition nonempty (s : pystr) : bool :=
  match s with [] => false | _ :: _ => true end.

(** ** [replace]

    [s.replace(old, new)] for a non-empty [old] (every call site passes a
    non-empty literal): occurrences are found left to right and do not
    overlap.  [skip] counts the characters of the current occurrence that
    are still to be dropped. *)
Fixpoint replace_from (old new : pystr) (skip : nat) (s : pystr) : pystr :=
  match s with
  | [] => []
  | c :: rest =>
    match skip with
    | S k => replace_from old new k rest
    | O =>
      if startswith s old
      then new ++ replace_from old new (length old - 1) rest
      else c :: replace_from old new 0 rest
    end
  end.

Definition replace (s old new : pystr) : pystr := replace_from old new 0 s.

(** ** [split] on a one-character separator *)
Fixpoint split (sep : N) (s : pystr) : list pystr :=
  match s with
  | [] => [[]]
  | c :: rest =>
    if (c =? sep)%N then [] :: split sep rest
    else
      match split sep rest with
      | [] => [[c]]
      | w :: ws => (c :: w) :: ws
      end
  end.

(** ** [strip] *)
Fixpoint lstrip_by (p : N -> bool) (s : pystr) : pystr :=
  match s with
  | [] => []
  | c :: rest => if p c then lstrip_by p rest else s
  end.

Definition strip_by (p : N -> bool) (s : pystr) : pystr :=
  rev (lstrip_by p (rev (lstrip_by p s))).

(** [s.strip(chars)] *)
Definition strip_chars (chars s : pystr) : pystr :=
  strip_by (fun c => mem_char c chars) s.

(** [l.index(x)]: [None] stands for the [ValueError]. *)
Fixpoint index (x : pystr) (l : list pystr) : option nat :=
  match l with
  | [] => None
  | y :: l' =>
    if eqb y x then Some 0
    else match index x l' with
         | Some i => Some (S i)
         | None => None
         end
  end.

(** [l[i:j]] for non-negative [i] and [j]. *)
Definition slice {A} (l : list A) (i j : nat) : list A :=
  firstn (j - i) (skipn i l).

End PyStr.

Import PyStr.

(* ================================================================== *)
(** * The character classes Python consults *)
(* ================================================================== *)

Module Unicode.

(** [str.isspace] on one character, which is also what [str.strip()]
    removes and what [\s] matches in a [str] pattern. *)
Definition is_space (c : N) : bool :=
  ((9 <=? c) && (c <=? 13) || (28 <=? c) && (c <=? 32)
   || (c =? 133) || (c =? 160) || (c =? 5760)
   || (8192 <=? c) && (c <=? 8202)
   || (c =? 8232) || (c =? 8233) || (c =? 8239) || (c =? 8287)
   || (c =? 12288))%N.

(** The code point of digit zero of every decimal-digit range (general
    category Nd, Unicode 14): the nine code points after each are the
    digits one to nine of the same script. *)
Definition decimal_zeros : list N :=
  [48; 1632; 1776; 1984; 2406; 2534; 2662; 2790; 2918; 3046; 3174; 3302;
   3430; 3558; 3664; 3792; 3872; 4160; 4240; 6112; 6160; 6470; 6608; 6784;
   6800; 6992; 7088; 7232; 7248; 42528; 43216; 43264; 43472; 43504; 43600;
   44016; 65296; 66720; 68912; 69734; 69872; 69942; 70096; 70384; 70736;
   70864; 71248; 71360; 71472; 71904; 72016; 72784; 73040; 73120; 92768;
   92864; 93008; 120782; 120792; 120802; 120812; 120822; 123200; 123632;
   125264; 130032]%N.

(** The decimal value of a character, if it is a decimal digit: what
    [int] reads, and the characters [\d] matches in a [str] pattern. *)
Fixpoint digit_in (zeros : list N) (c : N) : option N :=
  match zeros with
  | [] => None
  | z :: zs =>
    if ((z <=? c) && (c <? z + 10))%N then Some (c - z)%N
    else digit_in zs c
  end.

Definition digit_value (c : N) : option N := digit_in decimal_zeros c.

Definition is_digit (c : N) : bool :=
  match digit_value c with Some _ => true | None => false end.

End Unicode.

Import Unicode.

(* ================================================================== *)
(** * [int(str)] and the format [{n:02d}] *)
(* ================================================================== *)

Module PyInt.

(** [int(s)] on a string, base ten, as CPython 3.11 reads it.  First the
    string is brought to ASCII: a character below 127 stays, any other
    white space becomes a blank, any other decimal digit its ASCII digit,
    and anything else is an error. *)
Fixpoint to_ascii (s : pystr) : option pystr :=
  match s with
  | [] => Some []
  | c :: rest =>
    let c' :=
      if (c <? 127)%N then Some c
      else if is_space c then Some 32%N
      else match digit_value c with
           | Some d => Some (48 + d)%N
           | None => None
           end in
    match c', to_ascii rest with
    | Some x, Some r => Some (x :: r)
    | _, _ => None
    end
  end.

(** C's [isspace] in the C locale. *)
Definition c_isspace (c : N) : bool :=
  ((9 <=? c) && (c <=? 13) || (c =? 32))%N.

Definition ascii_digit (c : N) : bool := ((48 <=? c) && (c <=? 57))%N.

Definition underscore : N := 95%N.

(** The longest prefix of digits and underscores, and what follows it. *)
Fixpoint digit_run (s : pystr) : pystr * pystr :=
  match s with
  | [] => ([], [])
  | c :: rest =>
    if ascii_digit c || (c =? underscore)%N
    then let (run, tl) := digit_run rest in (c :: run, tl)
    else ([], s)
  end.

(** A run is well formed when every underscore stands between two
    digits.  [prev] says whether the previous character was a digit. *)
Fixpoint run_ok (prev : bool) (run : pystr) : bool :=
  match run with
  | [] => prev
  | c :: rest =>
    if (c =? underscore)%N then prev && run_ok false rest
    else run_ok true rest
  end.

Definition run_digits (run : pystr) : pystr := filter ascii_digit run.

Definition run_value (run : pystr) : N :=
  fold_left (fun acc c => (acc * 10 + (c - 48))%N) (run_digits run) 0%N.

(** [sys.int_info.default_max_str_digits] *)
Definition int_max_str_digits : nat := 4300.

Definition magnitude (s : pystr) : option N :=
  let (run, tl) := digit_run s in
  if run_ok false run
     && (length (run_digits run) <=? int_max_str_digits)%nat
     && negb (nonempty (lstrip_by c_isspace tl))
  then Some (run_value run)
  else None.

(** [None] stands for the [ValueError]. *)
Definition int (s : pystr) : option Z :=
  match to_ascii s with
  | None => None
  | Some a =>
    match lstrip_by c_isspace a with
    | 45%N :: body =>
      match magnitude body with
      | Some n => Some (- Z.of_N n)%Z
      | None => None
      end
    | 43%N :: body =>
      match magnitude body with
      | Some n => Some (Z.of_N n)
      | None => None
      end
    | body =>
      match magnitude body with
      | Some n => Some (Z.of_N n)
      | None => None
      end
    end
  end.

(** The decimal digits of a natural number, as code points. *)
Fixpoint uint_codes (d : Decimal.uint) : pystr :=
  match d with
  | Decimal.Nil => []
  | Decimal.D0 r => 48%N :: uint_codes r
  | Decimal.D1 r => 49%N :: uint_codes r
  | Decimal.D2 r => 50%N :: uint_codes r
  | Decimal.D3 r => 51%N :: uint_codes r
  | Decimal.D4 r => 52%N :: uint_codes r
  | Decimal.D5 r => 53%N :: uint_codes r
  | Decimal.D6 r => 54%N :: uint_codes r
  | Decimal.D7 r => 55%N :: uint_codes r
  | Decimal.D8 r => 56%N :: uint_codes r
  | Decimal.D9 r => 57%N :: uint_codes r
  end.

Definition decimal (n : N) : pystr := uint_codes (N.to_uint n).

(** [f"{n:02d}"]: the sign, then the digits, padded with zeros on the
    left of the digits up to a total width of two. *)
Definition format_02d (n : Z) : pystr :=
  if (n <? 0)%Z then 45%N :: decimal (Z.abs_N n)
  else
    let ds := decimal (Z.abs_N n) in
    if (length ds <? 2)%nat then 48%N :: ds else ds.

End PyInt.

(* ================================================================== *)
(** * The literals of the source *)
(* ================================================================== *)

Module Lit.

Definition am : pystr := Eval vm_compute in lit "오전".
Definition pm : pystr := Eval vm_compute in lit "오후".
Definition daily : pystr := Eval vm_compute in lit "매일".

Definition mon : pystr := Eval vm_compute in lit "월".
Definition tue : pystr := Eval vm_compute in lit "화".
Definition wed : pystr := Eval vm_compute in lit "수".
Definition thu : pystr := Eval vm_compute in lit "목".
Definition fri : pystr := Eval vm_compute in lit "금".
Definition sat : pystr := Eval vm_compute in lit "토".
Definition il : pystr := Eval vm_compute in lit "일".
Definition juil : pystr := Eval vm_compute in lit "주일".

Definition sunday_mass : pystr := Eval vm_compute in lit "주일미사".
Definition weekday_mass : pystr := Eval vm_compute in lit "평일미사".
Definition saturday_mass : pystr := Eval vm_compute in lit "토요미사".
Definition other_mass : pystr := Eval vm_compute in lit "기타".

Definition colon : N := 58%N.
Definition hyphen : N := 45%N.
Definition newline : N := 10%N.
Definition blank : N := 32%N.
Definition bar : N := 124%N.
Definition lparen : N := 40%N.
Definition rparen : N := 41%N.

End Lit.

(* ================================================================== *)
(** * UTILITY: normalize_time, expand_days *)
(* ================================================================== *)

(** The body of the [try] of [normalize_time] up to the two integers:
    [hour, minute = map(int, time_str.split(':'))].  [None] stands for
    the exception ([int] failing, or not exactly two fields). *)
Definition split_hour_minute (time_str : pystr) : option (Z * Z) :=
  match split Lit.colon time_str with
  | [h; m] =>
    match PyInt.int h with
    | None => None
    | Some hour =>
      match PyInt.int m with
      | None => None
      | Some minute => Some (hour, minute)
      end
    end
  | _ => None
  end.

(** [ampm] is [None] or a string; [not ampm] holds for [None] and for the
    empty string. *)
Definition normalize_time (time_str : pystr) (ampm : option pystr) : pystr :=
  match ampm with
  | None => time_str
  | Some [] => time_str
  | Some ap =>
    match split_hour_minute time_str with
    | None => time_str
    | Some (hour, minute) =>
      let hour :=
        if eqb ap Lit.pm && (hour <? 12)%Z then (hour + 12)%Z
        else if eqb ap Lit.am && (hour =? 12)%Z then 0%Z
        else hour in
      PyInt.format_02d hour ++ [Lit.colon] ++ PyInt.format_02d minute
    end
  end.

Definition weekdays : list pystr :=
  [Lit.mon; Lit.tue; Lit.wed; Lit.thu; Lit.fri; Lit.sat; Lit.il; Lit.juil].

(** The body of the [try] of [expand_days]; [None] stands for the
    exception (not exactly two fields, or a field that is not in
    [weekdays]). *)
Definition expand_range (day_expression : pystr) : option (list pystr) :=
  match split Lit.hyphen day_expression with
  | [start; end_] =>
    let start := if eqb start Lit.il then Lit.juil else start in
    let end_ := if eqb end_ Lit.il then Lit.juil else end_ in
    match index start weekdays with
    | None => None
    | Some s_idx =>
      match index end_ weekdays with
      | None => None
      | Some e_idx => Some (slice weekdays s_idx (e_idx + 1))
      end
    end
  | _ => None
  end.

Definition expand_days (day_expression : pystr) : list pystr :=
  if contains Lit.daily day_expression
  then [Lit.mon; Lit.tue; Lit.wed; Lit.thu; Lit.fri; Lit.sat; Lit.juil]
  else if contains [Lit.hyphen] day_expression
  then match expand_range day_expression with
       | Some days => days
       | None => [day_expression]
       end
  else [day_expression].

(* ================================================================== *)
(** * The regular expressions of the parser *)
(* ================================================================== *)

Module Re.

(** Each pattern of the source is embedded as the function that tries it
    at the head of the remaining text and returns what it captured and
    how many characters the whole match took.  No match is empty. *)

(** The longest prefix whose characters satisfy [p], and the rest. *)
Fixpoint span (p : N -> bool) (s : pystr) : pystr * pystr :=
  match s with
  | [] => ([], [])
  | c :: rest =>
    if p c then let (a, b) := span p rest in (c :: a, b) else ([], s)
  end.

(** [re.finditer] and [re.findall]: the leftmost match, then on from its
    end.  [skip] counts the characters of the last match still to be
    passed over. *)
Fixpoint scan {A} (m : pystr -> option (A * nat)) (skip : nat) (s : pystr)
  : list A :=
  match s with
  | [] => []
  | _ :: rest =>
    match skip with
    | S k => scan m k rest
    | O =>
      match m s with
      | Some (a, len) => a :: scan m (len - 1) rest
      | None => scan m 0 rest
      end
    end
  end.

Definition findall {A} (m : pystr -> option (A * nat)) (s : pystr) : list A :=
  scan m 0 s.

(** [re.sub(r'(P)', r'\n\1', s)]: a line break in front of every match
    of [P], the matched text kept. *)
Fixpoint break_before (m : pystr -> option nat) (skip : nat) (s : pystr)
  : pystr :=
  match s with
  | [] => []
  | c :: rest =>
    match skip with
    | S k => c :: break_before m k rest
    | O =>
      match m s with
      | Some len => Lit.newline :: c :: break_before m (len - 1) rest
      | None => c :: break_before m 0 rest
      end
    end
  end.

(** [\d{1,2}:\d{2}]: two digits are tried first, then one.  (The two
    forms exclude each other, so nothing after the time can make the
    matcher come back to choose the other.) *)
Definition time_at (s : pystr) : option (pystr * nat) :=
  match s with
  | d1 :: d2 :: c :: d3 :: d4 :: _ =>
    if is_digit d1 && is_digit d2 && (c =? Lit.colon)%N
       && is_digit d3 && is_digit d4
    then Some ([d1; d2; c; d3; d4], 5)
    else
      if is_digit d1 && (d2 =? Lit.colon)%N && is_digit c && is_digit d3
      then Some ([d1; d2; c; d3], 4)
      else None
  | d1 :: c :: d3 :: d4 :: _ =>
    if is_digit d1 && (c =? Lit.colon)%N && is_digit d3 && is_digit d4
    then Some ([d1; c; d3; d4], 4)
    else None
  | _ => None
  end.

(** [\(([^)]+)\)]: the text between the parentheses, and the length of
    the match with them. *)
Definition paren_at (s : pystr) : option (pystr * nat) :=
  match s with
  | c :: rest =>
    if (c =? Lit.lparen)%N then
      match span (fun x => negb (x =? Lit.rparen)%N) rest with
      | ((_ :: _) as inner, _ :: _) => Some (inner, length inner + 2)
      | _ => None
      end
    else None
  | [] => None
  end.

(** The character class [[월화수목금토일주일]]. *)
Definition day_chars : pystr := Eval vm_compute in lit "월화수목금토일주일".

Definition day_char (c : N) : bool := mem_char c day_chars.

(** [[월화수목금토일주일]-[월화수목금토일주일]] *)
Definition day_range_at (s : pystr) : option (pystr * nat) :=
  match s with
  | a :: h :: b :: _ =>
    if day_char a && (h =? Lit.hyphen)%N && day_char b
    then Some ([a; h; b], 3)
    else None
  | _ => None
  end.

Definition yo : pystr := Eval vm_compute in lit "요".
Definition eun : pystr := Eval vm_compute in lit "은".
Definition neun : pystr := Eval vm_compute in lit "는".

(** [[월화수목금토일주일](?!요|은|는)] *)
Definition day_at (s : pystr) : option (pystr * nat) :=
  match s with
  | a :: rest =>
    if day_char a
       && negb (startswith rest yo || startswith rest eun
                || startswith rest neun)
    then Some ([a], 1)
    else None
  | [] => None
  end.

(** [(오전|오후)] *)
Definition ampm_at (s : pystr) : option (pystr * nat) :=
  if startswith s Lit.am then Some (Lit.am, 2)
  else if startswith s Lit.pm then Some (Lit.pm, 2)
  else None.

(** The groups of [token_pattern]; exactly one is set in a match. *)
Inductive token : Type :=
| TAmpm (ampm : pystr)
| TDayRange (day_range : pystr)
| TDay (day : pystr)
| TTime (time_str : pystr)
| TDesc (desc : pystr).

Definition tagged {A B} (f : A -> B) (r : option (A * nat)) : option (B * nat) :=
  match r with
  | Some (a, n) => Some (f a, n)
  | None => None
  end.

Definition or_else {A} (a b : option A) : option A :=
  match a with Some _ => a | None => b end.

(** [token_pattern]: the alternatives in the order of the source.  The
    fifth group holds the parentheses too. *)
Definition token_at (s : pystr) : option (token * nat) :=
  or_else (tagged TAmpm (ampm_at s))
 (or_else (tagged TDayRange (day_range_at s))
 (or_else (tagged TDay (day_at s))
 (or_else (tagged TTime (time_at s))
          (tagged (fun inner => TDesc (Lit.lparen :: inner ++ [Lit.rparen]))
                  (paren_at s))))).

(** [pattern1 = (\d{1,2}:\d{2})\s*\(([^)]+)\)] *)
Definition timed_desc_at (s : pystr) : option ((pystr * pystr) * nat) :=
  match time_at s with
  | None => None
  | Some (time_str, n) =>
    let after := skipn n s in
    let tl := lstrip_by is_space after in
    match paren_at tl with
    | None => None
    | Some (desc, k) =>
      Some ((time_str, desc), n + (length after - length tl) + k)
    end
  end.

Definition saturday_word : pystr := Eval vm_compute in lit "토요일".

(** [토요일\s*-] and [주일\s*-] *)
Definition dash_after (word : pystr) (s : pystr) : option nat :=
  if startswith s word then
    let after := skipn (length word) s in
    match lstrip_by is_space after with
    | c :: tl =>
      if (c =? Lit.hyphen)%N then Some (length s - length tl) else None
    | [] => None
    end
  else None.

End Re.

(* ================================================================== *)
(** * Schedules and results *)
(* ================================================================== *)

(** The four categories of a result: the keys ["주일미사"], ["평일미사"],
    ["토요미사"] and ["기타"], in the order the source creates them. *)
Inductive category : Type := Sunday | Weekday | Saturday | Other.

Definition categories : list category := [Sunday; Weekday; Saturday; Other].

Definition category_key (c : category) : pystr :=
  match c with
  | Sunday => Lit.sunday_mass
  | Weekday => Lit.weekday_mass
  | Saturday => Lit.saturday_mass
  | Other => Lit.other_mass
  end.

Definition category_eqb (a b : category) : bool :=
  match a, b with
  | Sunday, Sunday | Weekday, Weekday | Saturday, Saturday | Other, Other => true
  | _, _ => false
  end.

(** A schedule entry as a result holds it: [{"시간": time, "설명": desc}]. *)
Record Entry : Type := { time : pystr; desc : pystr }.

(** The value of a key of a result or of a handler's return value. *)
Inductive value : Type :=
| VStr (s : pystr)
| VEntries (l : list Entry)
| VBool (b : bool).

(** A [dict] with string keys: its items in insertion order. *)
Definition pydict : Type := list (pystr * value).

Definition truthy (v : value) : bool :=
  match v with
  | VStr s => nonempty s
  | VEntries l => match l with [] => false | _ :: _ => true end
  | VBool b => b
  end.

Fixpoint dict_get (d : pydict) (k : pystr) : option value :=
  match d with
  | [] => None
  | (k', v) :: d' => if eqb k' k then Some v else dict_get d' k
  end.

(** [d[k] = v] *)
Fixpoint dict_set (d : pydict) (k : pystr) (v : value) : pydict :=
  match d with
  | [] => [(k, v)]
  | (k', v') :: d' =>
    if eqb k' k then (k', v) :: d' else (k', v') :: dict_set d' k v
  end.

Definition raw_text_key : pystr := Eval vm_compute in lit "raw_text".
Definition search_term_key : pystr := Eval vm_compute in lit "search_term".
Definition parsing_failed_key : pystr := Eval vm_compute in lit "parsing_failed".

(** The four lists of a result under construction. *)
Record Buckets (A : Type) : Type :=
  { sunday : list A; weekday : list A; saturday : list A; other : list A }.

Definition no_buckets {A} : Buckets A :=
  {| sunday := []; weekday := []; saturday := []; other := [] |}.

Definition bucket {A} (b : Buckets A) (c : category) : list A :=
  match c with
  | Sunday => sunday b
  | Weekday => weekday b
  | Saturday => saturday b
  | Other => other b
  end.

(** [result[c].append(x)] *)
Definition bucket_append {A} (b : Buckets A) (c : category) (x : A) : Buckets A :=
  match c with
  | Sunday => {| sunday := sunday b ++ [x]; weekday := weekday b;
                 saturday := saturday b; other := other b |}
  | Weekday => {| sunday := sunday b; weekday := weekday b ++ [x];
                  saturday := saturday b; other := other b |}
  | Saturday => {| sunday := sunday b; weekday := weekday b;
                   saturday := saturday b ++ [x]; other := other b |}
  | Other => {| sunday := sunday b; weekday := weekday b;
                saturday := saturday b; other := other b ++ [x] |}
  end.

(** The key by which both strategies recognise a repeated entry:
    [f"{e['시간']}|{e['설명']}"]. *)
Definition entry_key (t d : pystr) : pystr := t ++ [Lit.bar] ++ d.

(* ================================================================== *)
(** * Strategy A: _parse_daegu_style *)
(* ================================================================== *)

Module Daegu.

(** An entry while the lines are read: it still has its ["요일"]. *)
Record DayEntry : Type := { d_time : pystr; d_desc : pystr; d_day : pystr }.

(** The state of the loop over the lines.  The entries are objects: the
    lists of [result] and [last_added_entries] hold references to them
    (positions in [objects]), so that a description attached through
    [last_added_entries] is seen through [result]. *)
Record State : Type :=
  { objects : list DayEntry;
    result : Buckets nat;
    current_section : category;
    current_ampm : option pystr;
    current_days : list pystr;
    last_added_entries : list nat }.

Definition initial : State :=
  {| objects := []; result := no_buckets; current_section := Other;
     current_ampm := None; current_days := []; last_added_entries := [] |}.

(** [entry["설명"]] updated in place. *)
Fixpoint set_desc (objs : list DayEntry) (i : nat) (f : pystr -> pystr)
  : list DayEntry :=
  match objs, i with
  | [], _ => []
  | e :: rest, O =>
    {| d_time := d_time e; d_desc := f (d_desc e); d_day := d_day e |} :: rest
  | e :: rest, S j => e :: set_desc rest j f
  end.

(** One turn of [for d in days_to_apply]. *)
Definition add_entry (final_time : pystr) (acc : State * list nat) (d : pystr)
  : State * list nat :=
  let (st, new_entries) := acc in
  let category := current_section st in
  let category :=
    if eqb d Lit.sat && category_eqb (current_section st) Sunday
    then Saturday else category in
  let category :=
    if category_eqb category Weekday && eqb d Lit.juil
    then Sunday else category in
  let entry := {| d_time := final_time; d_desc := []; d_day := d |} in
  let ref := length (objects st) in
  ({| objects := objects st ++ [entry];
      result := bucket_append (result st) category ref;
      current_section := current_section st;
      current_ampm := current_ampm st;
      current_days := current_days st;
      last_added_entries := last_added_entries st |},
   new_entries ++ [ref]).

(** The body of [for match in matches]. *)
Definition on_token (st : State) (tok : Re.token) : State :=
  match tok with
  | Re.TAmpm ampm =>
    {| objects := objects st; result := result st;
       current_section := current_section st;
       current_ampm := Some ampm;
       current_days := current_days st;
       last_added_entries := last_added_entries st |}
  | Re.TDayRange day_range =>
    {| objects := objects st; result := result st;
       current_section := current_section st;
       current_ampm := current_ampm st;
       current_days := expand_days day_range;
       last_added_entries := last_added_entries st |}
  | Re.TDay day =>
    {| objects := objects st; result := result st;
       current_section := current_section st;
       current_ampm := current_ampm st;
       current_days := [day];
       last_added_entries := last_added_entries st |}
  | Re.TTime time_str =>
    let final_time := normalize_time time_str (current_ampm st) in
    let days_to_apply :=
      match current_days st with
      | [] =>
        match current_section st with
        | Sunday => [Lit.juil]
        | _ => []
        end
      | days => days
      end in
    let (st', new_entries) :=
      fold_left (add_entry final_time) days_to_apply (st, []) in
    {| objects := objects st'; result := result st';
       current_section := current_section st';
       current_ampm := current_ampm st';
       current_days := current_days st';
       last_added_entries := new_entries |}
  | Re.TDesc desc =>
    let clean_desc := strip_chars [Lit.lparen; Lit.rparen] desc in
    let attach (old : pystr) : pystr :=
      if nonempty old then old ++ [Lit.blank] ++ clean_desc else clean_desc in
    {| objects :=
         fold_left (fun objs ref => set_desc objs ref attach)
                   (last_added_entries st) (objects st);
       result := result st;
       current_section := current_section st;
       current_ampm := current_ampm st;
       current_days := current_days st;
       last_added_entries := last_added_entries st |}
  end.

Definition sunday_marker : pystr := Eval vm_compute in lit "[주일미사]".
Definition weekday_marker : pystr := Eval vm_compute in lit "[평일미사]".
Definition sunday_word : pystr := Eval vm_compute in lit "일요일".

Definition enter (st : State) (c : category) : State :=
  {| objects := objects st; result := result st; current_section := c;
     current_ampm := current_ampm st; current_days := current_days st;
     last_added_entries := last_added_entries st |}.

(** The body of [for line in lines]. *)
Definition on_line (st : State) (line : pystr) : State :=
  let line := strip_by is_space line in
  if negb (nonempty line) then st
  else if contains sunday_marker line then enter st Sunday
  else if contains weekday_marker line then enter st Weekday
  else
    let st :=
      {| objects := objects st; result := result st;
         current_section := current_section st;
         current_ampm := None; current_days := [];
         last_added_entries := [] |} in
    let clean_line :=
      replace (replace line Re.saturday_word Lit.sat) sunday_word Lit.juil in
    fold_left on_token (Re.findall Re.token_at clean_line) st.

(** The line breaks put in before the lines are split. *)
Definition normalize (text : pystr) : pystr :=
  let normalized := text in
  let normalized :=
    replace normalized sunday_marker
            ([Lit.newline] ++ sunday_marker ++ [Lit.newline]) in
  let normalized :=
    replace normalized weekday_marker
            ([Lit.newline] ++ weekday_marker ++ [Lit.newline]) in
  let normalized :=
    Re.break_before (Re.dash_after Re.saturday_word) 0 normalized in
  Re.break_before (Re.dash_after Lit.juil) 0 normalized.

Definition read_lines (text : pystr) : State :=
  fold_left on_line (split Lit.newline (normalize text)) initial.

Definition filter_keywords : list pystr :=
  Eval vm_compute in [lit "후원회"; lit "교리"; lit "교정사목"].

(** The inner loop of the tidying pass, [for e in entries], with [seen]
    the keys met so far in this category. *)
Fixpoint clean (cat : category) (seen : list pystr) (entries : list DayEntry)
  : list Entry :=
  match entries with
  | [] => []
  | e :: rest =>
    if existsb (fun kw => contains kw (d_desc e)) filter_keywords
    then clean cat seen rest
    else
      let desc :=
        if category_eqb cat Weekday && negb (contains (d_day e) (d_desc e))
        then strip_by is_space (d_day e ++ [Lit.blank] ++ d_desc e)
        else d_desc e in
      let key := entry_key (d_time e) desc in
      if mem_str key seen then clean cat seen rest
      else {| time := d_time e; desc := desc |} :: clean cat (key :: seen) rest
  end.

Definition deref (objs : list DayEntry) (refs : list nat) : list DayEntry :=
  flat_map (fun r => match nth_error objs r with
                     | Some e => [e]
                     | None => []
                     end) refs.

(** [clean_entries] of one category. *)
Definition clean_entries (st : State) (cat : category) : list Entry :=
  clean cat [] (deref (objects st) (bucket (result st) cat)).

(** The items of [final_result] after ["raw_text"]: a category is set
    only [if clean_entries]. *)
Definition category_items (st : State) : pydict :=
  flat_map (fun cat =>
              match clean_entries st cat with
              | [] => []
              | l => [(category_key cat, VEntries l)]
              end) categories.

End Daegu.

Definition _parse_daegu_style (text : pystr) : pydict :=
  (raw_text_key, VStr (firstn 500 text))
    :: Daegu.category_items (Daegu.read_lines text).

(* ================================================================== *)
(** * Strategy B and parse_mass_times_from_text *)
(* ================================================================== *)

(** [dedup seen items]: the loop that keeps the first entry of every key
    [f"{item['시간']}|{item['설명']}"]. *)
Fixpoint dedup (seen : list pystr) (items : list Entry) : list Entry :=
  match items with
  | [] => []
  | item :: rest =>
    let key := entry_key (time item) (desc item) in
    if mem_str key seen then dedup seen rest
    else item :: dedup (key :: seen) rest
  end.

Module Flat.

Definition sunday_words : list pystr :=
  Eval vm_compute in
    [lit "주일"; lit "일요일"; lit "교중"; lit "청년"; lit "청소년"].
Definition saturday_words : list pystr :=
  Eval vm_compute in [lit "토요"; lit "토"; lit "특전"].
Definition weekday_words : list pystr :=
  Eval vm_compute in
    [lit "평일"; lit "월"; lit "화"; lit "수"; lit "목"; lit "금"].

(** [days] of pattern 2, in the order of the source. *)
Definition days : list pystr :=
  [Lit.mon; Lit.tue; Lit.wed; Lit.thu; Lit.fri; Lit.sat; Lit.juil; Lit.il].

Definition yoil : pystr := Eval vm_compute in lit "요일".
Definition yoil_blank : pystr := Eval vm_compute in lit "요일 ".
Definition blank_mass : pystr := Eval vm_compute in lit " 미사".

End Flat.

Section FlatFormat.

(** [str.lower].  Python lowers by the Unicode case tables, which are not
    reproduced here: the parser is defined, and its properties proved,
    for whatever function stands for it. *)
Variable lower : pystr -> pystr.

Definition _classify_mass (result_dict : Buckets Entry) (entry : Entry)
           (keyword_source : pystr) : Buckets Entry :=
  let k := lower keyword_source in
  if existsb (fun w => contains w k) Flat.sunday_words
  then bucket_append result_dict Sunday entry
  else if existsb (fun w => contains w k) Flat.saturday_words
  then bucket_append result_dict Saturday entry
  else if existsb (fun w => contains w k) Flat.weekday_words
  then bucket_append result_dict Weekday entry
  else bucket_append result_dict Other entry.

(** Pattern 1: a time and a description in parentheses. *)
Definition classify_timed (result : Buckets Entry) (m : pystr * pystr)
  : Buckets Entry :=
  let (time_str, desc) := m in
  _classify_mass result {| time := time_str; desc := desc |} desc.

(** Pattern 2: the body of [for line in lines]. *)
Definition classify_line (result : Buckets Entry) (line : pystr)
  : Buckets Entry :=
  let line := strip_by is_space line in
  if negb (nonempty line) then result
  else if existsb (fun d => startswith line d) Flat.days
          || existsb (fun d => startswith line (d ++ Flat.yoil)) Flat.days
  then
    match Re.findall Re.time_at line with
    | [] => result
    | times =>
      let day_found :=
        match find (fun d => startswith line d) Flat.days with
        | Some d => d
        | None => []
        end in
      fold_left
        (fun result t =>
           let desc := day_found ++ Flat.yoil_blank ++ t ++ Flat.blank_mass in
           _classify_mass result {| time := t; desc := desc |} day_found)
        times result
    end
  else result.

(** The four lists when both passes are done. *)
Definition classified (text : pystr) : Buckets Entry :=
  let result :=
    fold_left classify_timed (Re.findall Re.timed_desc_at text) no_buckets in
  fold_left classify_line (split Lit.newline text) result.

(** [result] when the duplicates are gone: the four categories, then
    ["raw_text"], in insertion order. *)
Definition deduplicated (text : pystr) : pydict :=
  map (fun cat => (category_key cat,
                   VEntries (dedup [] (bucket (classified text) cat))))
      categories
  ++ [(raw_text_key, VStr (firstn 500 text))].

(** [{k: v for k, v in result.items() if v}] *)
Definition drop_empty (d : pydict) : pydict :=
  filter (fun kv => truthy (snd kv)) d.

Definition parse_flat (text : pystr) : option pydict :=
  let result := drop_empty (deduplicated text) in
  if (1 <? length result)%nat then Some result else None.

Definition parse_mass_times_from_text (text : pystr) : option pydict :=
  if contains Daegu.sunday_marker text || contains Daegu.weekday_marker text
  then Some (_parse_daegu_style text)
  else parse_flat text.

End FlatFormat.

(** Lower-casing of the ASCII letters only: Python's [lower] on any string
    whose cased characters are all ASCII. *)
Definition ascii_lower (s : pystr) : pystr :=
  map (fun c => if ((65 <=? c) && (c <=? 90))%N then (c + 32)%N else c) s.

(* ================================================================== *)
(** * RepairCrawler: inference of the diocese, dispatch, bookkeeping *)
(* ================================================================== *)

Module Place.

Definition seoul : pystr := Eval vm_compute in lit "서울".
Definition daegu : pystr := Eval vm_compute in lit "대구".
Definition gwangju : pystr := Eval vm_compute in lit "광주".
Definition jeju : pystr := Eval vm_compute in lit "제주".
Definition daejeon : pystr := Eval vm_compute in lit "대전".
Definition sejong : pystr := Eval vm_compute in lit "세종".
Definition chungnam : pystr := Eval vm_compute in lit "충남".
Definition chungcheongnamdo : pystr := Eval vm_compute in lit "충청남도".
Definition busan : pystr := Eval vm_compute in lit "부산".
Definition incheon : pystr := Eval vm_compute in lit "인천".
Definition jeonbuk : pystr := Eval vm_compute in lit "전북".
Definition jeollabukdo : pystr := Eval vm_compute in lit "전라북도".
Definition chungbuk : pystr := Eval vm_compute in lit "충북".
Definition chungcheongbukdo : pystr := Eval vm_compute in lit "충청북도".
Definition gangwon : pystr := Eval vm_compute in lit "강원".
Definition gangwondo : pystr := Eval vm_compute in lit "강원도".
Definition wonju : pystr := Eval vm_compute in lit "원주".
Definition gyeonggi : pystr := Eval vm_compute in lit "경기".
Definition suwon : pystr := Eval vm_compute in lit "수원".

Definition suwon_cities : list pystr :=
  Eval vm_compute in
    [lit "수원"; lit "성남"; lit "용인"; lit "안양"; lit "안산"; lit "화성";
     lit "평택"].
Definition uijeongbu_cities : list pystr :=
  Eval vm_compute in
    [lit "고양"; lit "의정부"; lit "파주"; lit "남양주"; lit "구리"].
Definition incheon_cities : list pystr :=
  Eval vm_compute in [lit "부천"; lit "김포"].

End Place.

Module Diocese.

Definition seoul : pystr := Eval vm_compute in lit "서울대교구".
Definition daegu : pystr := Eval vm_compute in lit "대구대교구".
Definition gwangju : pystr := Eval vm_compute in lit "광주대교구".
Definition jeju : pystr := Eval vm_compute in lit "제주교구".
Definition daejeon : pystr := Eval vm_compute in lit "대전교구".
Definition busan : pystr := Eval vm_compute in lit "부산교구".
Definition incheon : pystr := Eval vm_compute in lit "인천교구".
Definition jeonju : pystr := Eval vm_compute in lit "전주교구".
Definition cheongju : pystr := Eval vm_compute in lit "청주교구".
Definition wonju : pystr := Eval vm_compute in lit "원주교구".
Definition chuncheon : pystr := Eval vm_compute in lit "춘천교구".
Definition suwon : pystr := Eval vm_compute in lit "수원교구".
Definition uijeongbu : pystr := Eval vm_compute in lit "의정부교구".

End Diocese.

(** [any(c in address for c in cities)] *)
Definition any_in (cities : list pystr) (address : pystr) : bool :=
  existsb (fun c => contains c address) cities.

Definition infer_diocese (address : pystr) : pystr :=
  if negb (nonempty address) then []
  else if contains Place.seoul address then Diocese.seoul
  else if contains Place.daegu address then Diocese.daegu
  else if contains Place.gwangju address then Diocese.gwangju
  else if contains Place.jeju address then Diocese.jeju
  else if contains Place.daejeon address || contains Place.sejong address
          || contains Place.chungnam address
          || contains Place.chungcheongnamdo address
  then Diocese.daejeon
  else if contains Place.busan address then Diocese.busan
  else if contains Place.incheon address then Diocese.incheon
  else if contains Place.jeonbuk address || contains Place.jeollabukdo address
  then Diocese.jeonju
  else if contains Place.chungbuk address
          || contains Place.chungcheongbukdo address
  then Diocese.cheongju
  else if contains Place.gangwon address || contains Place.gangwondo address
  then if contains Place.wonju address then Diocese.wonju
       else Diocese.chuncheon
  else if contains Place.gyeonggi address
  then if any_in Place.suwon_cities address then Diocese.suwon
       else if any_in Place.uijeongbu_cities address then Diocese.uijeongbu
       else if any_in Place.incheon_cities address then Diocese.incheon
       else Diocese.suwon
  else [].

(** The handlers of the class, as the dispatcher names them. *)
Inductive handler : Type :=
| handle_seoul | handle_daegu | handle_suwon | handle_incheon | handle_busan.

Definition catholic_word : pystr := Eval vm_compute in lit "천주교".

(** [None] is Python's [None]: no handler. *)
Definition get_handler (diocese : pystr) : option handler :=
  let normalized :=
    strip_by is_space (replace (replace diocese catholic_word []) [Lit.blank] []) in
  if contains Place.seoul normalized then Some handle_seoul
  else if contains Place.daegu normalized then Some handle_daegu
  else if contains Place.suwon normalized then Some handle_suwon
  else if contains Place.incheon normalized then Some handle_incheon
  else if contains Place.busan normalized then Some handle_busan
  else None.

(** A record of a batch.  The fields the orchestrator reads are strings
    ([post.get(key, '')], so that a missing key reads as the empty
    string); the three keys it writes are absent until it writes them. *)
Record Post : Type :=
  { church_name : pystr;
    diocese : pystr;
    address : pystr;
    repaired_mass_times : option pydict;
    repair_source : option pystr;
    repair_timestamp : option pystr }.

Record Stats : Type := { total : nat; success : nat; failed : nat }.

(** [self.stats] as [__init__] leaves it. *)
Definition initial_stats : Stats := {| total := 0; success := 0; failed := 0 |}.

(** What the [try] of the loop body meets: an exception that
    [except Exception] catches, from opening the page, from the handler
    or from closing the page, or the value the handler returned ([None]
    or a dict). *)
Inductive outcome : Type :=
| Raised
| Returned (result_data : option pydict).

(** [self.stats] and the two lists of [process_single_file]. *)
Record Run : Type :=
  { stats : Stats; repaired_posts : list Post; failed_posts : list Post }.

Definition church_word : pystr := Eval vm_compute in lit "성당".
Definition search_results_word : pystr := Eval vm_compute in lit "검색결과".
Definition repair_source_name : pystr :=
  Eval vm_compute in lit "holy_repair_crawler".

(** The diocese a record is dispatched on. *)
Definition resolve_diocese (post : Post) : pystr :=
  if negb (nonempty (diocese post)) then infer_diocese (address post)
  else diocese post.

(** [result_data and len(result_data) > 1] *)
Definition valid_data (result_data : option pydict) : bool :=
  match result_data with
  | None => false
  | Some d => match d with [] => false | _ :: _ => (1 <? length d)%nat end
  end.

Definition count_failed (run : Run) (post : Post) : Run :=
  {| stats := {| total := total (stats run); success := success (stats run);
                 failed := failed (stats run) + 1 |};
     repaired_posts := repaired_posts run;
     failed_posts := failed_posts run ++ [post] |}.

Section Orchestrator.

(** The browser: what the [try] meets for the record at position [idx],
    given the handler, the name searched for and the record. *)
Variable browse : nat -> handler -> pystr -> Post -> outcome.

(** [datetime.now().isoformat()] when the record at [idx] succeeds. *)
Variable now : nat -> pystr.

(** The body of [for idx, post in enumerate(posts_to_process)]. *)
Definition process_post (run : Run) (idx : nat) (post : Post) : Run :=
  let name := strip_by is_space (replace (church_name post) church_word []) in
  let dio := resolve_diocese post in
  if negb (nonempty name) || negb (nonempty dio) then run
  else
    match get_handler dio with
    | None =>
      {| stats := stats run; repaired_posts := repaired_posts run;
         failed_posts := failed_posts run ++ [post] |}
    | Some handler =>
      let run :=
        {| stats := {| total := total (stats run) + 1;
                       success := success (stats run);
                       failed := failed (stats run) |};
           repaired_posts := repaired_posts run;
           failed_posts := failed_posts run |} in
      match browse idx handler name post with
      | Raised => count_failed run post
      | Returned result_data =>
        if valid_data result_data then
          let post :=
            {| church_name := church_name post;
               diocese := diocese post;
               address := address post;
               repaired_mass_times := result_data;
               repair_source := Some repair_source_name;
               repair_timestamp := Some (now idx) |} in
          {| stats := {| total := total (stats run);
                         success := success (stats run) + 1;
                         failed := failed (stats run) |};
             repaired_posts := repaired_posts run ++ [post];
             failed_posts := failed_posts run |}
        else count_failed run post
      end
    end.

Fixpoint process_posts (run : Run) (idx : nat) (posts : list Post) : Run :=
  match posts with
  | [] => run
  | post :: rest => process_posts (process_post run idx post) (S idx) rest
  end.

(** [posts[:limit] if limit else posts] *)
Definition posts_to_process (posts : list Post) (limit : option Z)
  : list Post :=
  match limit with
  | None => posts
  | Some l =>
    if (l =? 0)%Z then posts
    else if (0 <? l)%Z then firstn (Z.to_nat l) posts
    else firstn (length posts - Z.to_nat (- l)) posts
  end.

(** [process_single_file] once the batch is loaded: the statistics
    carried on, the two lists, and the batch written to the output
    directory, if one is written. *)
Definition process_single_file (st : Stats) (posts : list Post)
           (limit : option Z) : Run * option (list Post) :=
  let run :=
    process_posts {| stats := st; repaired_posts := []; failed_posts := [] |}
                  0 (posts_to_process posts limit) in
  (run, match repaired_posts run with
        | [] => None
        | saved => Some saved
        end).

End Orchestrator.

(** ** What the handlers return once they hold the text of the page *)

Section Handlers.

Variable lower : pystr -> pystr.

(** [handle_seoul] once it holds [text_content], the text of the page of
    results: [None] when neither the name nor ["검색결과"] is on the page,
    else the parsed schedule with the search term, or the fallback that
    keeps the text. *)
Definition seoul_result (text_content church_name : pystr) : option pydict :=
  if negb (contains church_name text_content)
     && negb (contains search_results_word text_content)
  then None
  else
    match parse_mass_times_from_text lower text_content with
    | Some ((_ :: _) as result) =>
      Some (dict_set result search_term_key (VStr church_name))
    | _ =>
      Some [(raw_text_key, VStr (firstn 1000 text_content));
            (search_term_key, VStr church_name);
            (parsing_failed_key, VBool true)]
    end.

(** The last [return] of [handle_incheon], reached when the section of
    the page was not found or not parsed. *)
Definition incheon_fallback (body_text church_name : pystr) : pydict :=
  [(raw_text_key, VStr (firstn 1000 body_text));
   (search_term_key, VStr church_name)].

End Handlers.

(* ================================================================== *)
(** * More of the crawler *)
(* ================================================================== *)

(** ** get_chosung and the index of handle_busan *)

(** The nineteen leading consonants, in the order of the Hangul block. *)
Definition CHOSUNG : list pystr :=
  Eval vm_compute in
    [lit "ㄱ"; lit "ㄲ"; lit "ㄴ"; lit "ㄷ"; lit "ㄸ"; lit "ㄹ"; lit "ㅁ";
     lit "ㅂ"; lit "ㅃ"; lit "ㅅ"; lit "ㅆ"; lit "ㅇ"; lit "ㅈ"; lit "ㅉ";
     lit "ㅊ"; lit "ㅋ"; lit "ㅌ"; lit "ㅍ"; lit "ㅎ"].

(** [code // 588] for the first character, when [code = ord(char) - 44032]
    is between 0 and 11171; [None] when the text is empty or the
    character is outside the block. *)
Definition chosung_class (text : pystr) : option nat :=
  match text with
  | [] => None
  | char :: _ =>
    let code := (Z.of_N char - 44032)%Z in
    if (code <? 0)%Z || (11171 <? code)%Z then None
    else Some (Z.to_nat (code / 588))
  end.

(** [None] is Python's [None].  ([CHOSUNG[code // 588]] is a list lookup;
    that it never goes past the end of the list is proved below.) *)
Definition get_chosung (text : pystr) : option pystr :=
  match chosung_class text with
  | None => None
  | Some i => nth_error CHOSUNG i
  end.

(** [mapping] of [handle_busan]: the fourteen tabs of the site. *)
Definition busan_mapping : list (pystr * nat) :=
  Eval vm_compute in
    [(lit "ㄱ", 0); (lit "ㄲ", 0); (lit "ㄴ", 1); (lit "ㄷ", 2); (lit "ㄸ", 2);
     (lit "ㄹ", 3); (lit "ㅁ", 4); (lit "ㅂ", 5); (lit "ㅃ", 5); (lit "ㅅ", 6);
     (lit "ㅆ", 6); (lit "ㅇ", 7); (lit "ㅈ", 8); (lit "ㅉ", 8); (lit "ㅊ", 9);
     (lit "ㅋ", 10); (lit "ㅌ", 11); (lit "ㅍ", 12); (lit "ㅎ", 13)].

(** [mapping.get(chosung)] *)
Fixpoint mapping_get (m : list (pystr * nat)) (k : option pystr) : option nat :=
  match k, m with
  | Some c, (c', i) :: m' => if eqb c' c then Some i else mapping_get m' k
  | _, _ => None
  end.

(** [idx] of [handle_busan]: the tab to click for a church; with [None]
    the handler gives up and returns [None]. *)
Definition busan_index (church_name : pystr) : option nat :=
  let target_name := strip_by is_space (replace church_name church_word []) in
  mapping_get busan_mapping (get_chosung target_name).

(** ** [split] on a separator of several characters *)

(** [s.split(sep)] for a non-empty [sep]; [skip] counts the characters
    of the separator just found that are still to be passed over. *)
Fixpoint split_from (sep : pystr) (skip : nat) (s : pystr) : list pystr :=
  match s with
  | [] => [[]]
  | c :: rest =>
    match skip with
    | S k => split_from sep k rest
    | O =>
      if startswith s sep then [] :: split_from sep (length sep - 1) rest
      else
        match split_from sep 0 rest with
        | [] => [[c]]
        | w :: ws => (c :: w) :: ws
        end
    end
  end.

Definition split_str (s sep : pystr) : list pystr := split_from sep 0 s.

(** ** handle_incheon once it holds the text of the page *)

Definition mass_guide : pystr := Eval vm_compute in lit "미사안내".

Definition terminators : list pystr :=
  Eval vm_compute in [lit "비고"; lit "본당 소식"; lit "수도회"; lit "관할구역"].

(** One turn of [for terminator in ...]. *)
Definition cut_at (target_text terminator : pystr) : pystr :=
  if contains terminator target_text
  then match split_str target_text terminator with
       | first :: _ => first
       | [] => []
       end
  else target_text.

(** [target_text] as it is handed to the parser: what follows the first
    ["미사안내"], up to the next one and cut at the headings that end
    the section.  [None] when the page has no ["미사안내"]. *)
Definition incheon_target (body_text : pystr) : option pystr :=
  if contains mass_guide body_text then
    match split_str body_text mass_guide with
    | _ :: target_text :: _ => Some (fold_left cut_at terminators target_text)
    | _ => None
    end
  else None.

Section Incheon.

Variable lower : pystr -> pystr.

(** [handle_incheon] from [body_text = await page.inner_text("body")]
    to its last [return]. *)
Definition incheon_result (body_text church_name : pystr) : pydict :=
  match incheon_target body_text with
  | Some target_text =>
    match parse_mass_times_from_text lower target_text with
    | Some ((_ :: _) as result) =>
      dict_set result search_term_key (VStr church_name)
    | _ => incheon_fallback body_text church_name
    end
  | None => incheon_fallback body_text church_name
  end.

End Incheon.

(** ** process_files *)

Section Files.

(** The browser and the clock, for the record at a position of the file
    at a position. *)
Variable browse_in : nat -> nat -> handler -> pystr -> Post -> outcome.
Variable now_in : nat -> nat -> pystr.

(** One turn of [for file_path in files].  A file is what [json.load]
    gives for it, or [None] when reading it raises: then
    [process_single_file] returns at once.  The state is the statistics
    and the batches written so far, last first. *)
Definition process_file (limit : option Z)
           (acc : Stats * list (list Post) * nat) (file : option (list Post))
  : Stats * list (list Post) * nat :=
  let '(st, written, n) := acc in
  match file with
  | None => (st, written, S n)
  | Some posts =>
    let (run, saved) :=
      process_single_file (browse_in n) (now_in n) st posts limit in
    (stats run,
     match saved with Some batch => batch :: written | None => written end,
     S n)
  end.

(** [process_files]: the batches that failed before, then the new ones.
    With no file at all nothing is done. *)
Definition process_files (st : Stats)
           (failed_batches fresh_batches : list (option (list Post)))
           (limit : option Z) : Stats * list (list Post) :=
  let files := failed_batches ++ fresh_batches in
  let '(st', written, _) := fold_left (process_file limit) files (st, [], 0) in
  (st', written).

End Files.

(* ================================================================== *)
(** * The vocabulary of the statements *)
(* ================================================================== *)

(** [a-b] *)
Definition range_expr (a b : pystr) : pystr := a ++ [Lit.hyphen] ++ b.

(** The cycle of the seven days, Monday first and Sunday last. *)
Definition cycle : list pystr :=
  [Lit.mon; Lit.tue; Lit.wed; Lit.thu; Lit.fri; Lit.sat; Lit.juil].

(** The place of a day symbol in the cycle; Sunday is written ["일"] or
    ["주일"]. *)
Definition cycle_pos (d : pystr) : option nat :=
  index (if eqb d Lit.il then Lit.juil else d) cycle.

(** A number below one hundred in two digits. *)
Definition two_digits (n : Z) : pystr :=
  [Z.to_N (48 + n / 10); Z.to_N (48 + n mod 10)].

(** [HH:MM] *)
Definition hhmm (hour minute : Z) : pystr :=
  two_digits hour ++ [Lit.colon] ++ two_digits minute.

(** [H:MM], the hour as it is written without a leading zero. *)
Definition clock (hour minute : Z) : pystr :=
  PyInt.decimal (Z.to_N hour) ++ [Lit.colon] ++ two_digits minute.

(** The string is read as this hour and this minute. *)
Definition reads_as (time_str : pystr) (hour minute : Z) : bool :=
  match split_hour_minute time_str with
  | Some (h, m) => (h =? hour)%Z && (m =? minute)%Z
  | None => false
  end.

(** A parser-failure marker: a dict with the raw text, and no key besides
    ["raw_text"], ["search_term"] and ["parsing_failed"]. *)
Definition failure_marker (d : pydict) : bool :=
  match dict_get d raw_text_key with
  | Some (VStr _) => true
  | _ => false
  end
  && forallb (fun kv => mem_str (fst kv)
                          [raw_text_key; search_term_key; parsing_failed_key])
             d.

(** A record as a batch file holds it, before any repair. *)
Definition fresh_post (name dio addr : pystr) : Post :=
  {| church_name := name; diocese := dio; address := addr;
     repaired_mass_times := None; repair_source := None;
     repair_timestamp := None |}.

Definition fresh_run : Run :=
  {| stats := initial_stats; repaired_posts := []; failed_posts := [] |}.





(** [total = success + failed] *)
Definition balanced (s : Stats) : Prop := total s = success s + failed s.

(** No counter went down. *)
Definition stats_le (a b : Stats) : Prop :=
  total a <= total b /\ success a <= success b /\ failed a <= failed b.

(** The name the handlers search for. *)
Definition search_name (post : Post) : pystr :=
  strip_by is_space (replace (church_name post) church_word []).

(** The text has one of the two section markers. *)
Definition has_marker (text : pystr) : bool :=
  contains Daegu.sunday_marker text || contains Daegu.weekday_marker text.

(** How many of the four categories Strategy B leaves non-empty, once
    the entries are classified and the duplicates are gone. *)
Definition nonempty_categories (lower : pystr -> pystr) (text : pystr) : nat :=
  length (filter (fun cat =>
                    truthy (VEntries (dedup [] (bucket (classified lower text) cat))))
                 categories).

(** The pair by which entries are told apart. *)
Definition pair_of (e : Entry) : pystr * pystr := (time e, desc e).

Definition key_of (e : Entry) : pystr := entry_key (time e) (desc e).

(** Every list of entries of the dict is non-empty and holds no pair of
    time and description twice. *)
Definition well_formed (d : pydict) : Prop :=
  forall k l, In (k, VEntries l) d -> l <> [] /\ NoDup (map pair_of l).

(** ** The inputs of the examples *)

Definition stub_now (_ : nat) : pystr :=
  Eval vm_compute in lit "2024-05-01T09:00:00".

Definition no_schedule_page : pystr :=
  Eval vm_compute in lit "검색결과 1건 명동성당 미사 시간 안내가 없습니다".

(** A browser in which every handler is [handle_seoul] on a page without
    a schedule. *)
Definition seoul_without_schedule (_ : nat) (_ : handler) (name : pystr)
           (_ : Post) : outcome :=
  Returned (seoul_result ascii_lower no_schedule_page name).

(** A browser in which no handler finds anything. *)
Definition nothing_found (_ : nat) (_ : handler) (_ : pystr) (_ : Post)
  : outcome :=
  Returned None.

Definition myeongdong : Post :=
  fresh_post (lit "명동성당") (lit "서울대교구") [].

Definition nameless : Post := fresh_post (lit "성당") (lit "서울대교구") [].

Definition jungnimdong : Post :=
  fresh_post (lit "죽림동성당") [] (lit "강원도 춘천시 약사고개길 21").

(** ** The vocabulary of the further properties *)

(** The code point of the syllable with leading consonant [l], vowel [v]
    and final [t]. *)
Definition syllable (l v t : nat) : N :=
  (44032 + (N.of_nat l * 21 + N.of_nat v) * 28 + N.of_nat t)%N.

(** The first character is a Hangul syllable. *)
Definition hangul_first (text : pystr) : bool :=
  match text with
  | [] => false
  | c :: _ => ((44032 <=? c) && (c <=? 55203))%N
  end.

(** The hour a meridiem turns an hour into. *)
Definition pm_hour (hour : Z) : Z := if (hour <? 12)%Z then (hour + 12)%Z else hour.
Definition am_hour (hour : Z) : Z := if (hour =? 12)%Z then 0%Z else hour.

(** The category a line of pattern 2 goes to, by the day found at its
    start. *)
Definition day_category (d : pystr) : category :=
  if mem_str d [Lit.mon; Lit.tue; Lit.wed; Lit.thu; Lit.fri] then Weekday
  else if eqb d Lit.sat then Saturday
  else if eqb d Lit.juil then Sunday
  else Other.

(** The entry pattern 2 makes of a time on a line of day [d]. *)
Definition line_entry (d t : pystr) : Entry :=
  {| time := t; desc := d ++ Flat.yoil_blank ++ t ++ Flat.blank_mass |}.

(** How many entries the four lists hold. *)
Definition entry_count {A} (b : Buckets A) : nat :=
  length (sunday b) + length (weekday b) + length (saturday b)
  + length (other b).

(** The times pattern 2 reads on a line: all of them when the line
    starts with a day, none otherwise. *)
Definition day_line_times (line : pystr) : list pystr :=
  let line := strip_by is_space line in
  if existsb (fun d => startswith line d) Flat.days
  then Re.findall Re.time_at line
  else [].

(** The dioceses [infer_diocese] can give, each with the handler
    [get_handler] has for it. *)
Definition dispatch_table : list (pystr * option handler) :=
  [(Diocese.seoul, Some handle_seoul);
   (Diocese.daegu, Some handle_daegu);
   (Diocese.gwangju, None);
   (Diocese.jeju, None);
   (Diocese.daejeon, None);
   (Diocese.busan, Some handle_busan);
   (Diocese.incheon, Some handle_incheon);
   (Diocese.jeonju, None);
   (Diocese.cheongju, None);
   (Diocese.wonju, None);
   (Diocese.chuncheon, None);
   (Diocese.suwon, Some handle_suwon);
   (Diocese.uijeongbu, None);
   ([], None)].

(** [r] is the record [p] after a repair: the fields read are those of
    [p], the data is what the orchestrator takes for valid, and the
    source and the time of the repair are set. *)
Definition repaired_from (p r : Post) : Prop :=
  church_name r = church_name p
  /\ diocese r = diocese p
  /\ address r = address p
  /\ valid_data (repaired_mass_times r) = true
  /\ repair_source r = Some repair_source_name
  /\ repair_timestamp r <> None.

(** What a run has more than the run it continues: the records [rs]
    repaired and the records [fs] failed, out of the records [posts]. *)
Definition extends_by (posts : list Post) (run run' : Run)
           (rs fs : list Post) : Prop :=
  repaired_posts run' = repaired_posts run ++ rs
  /\ failed_posts run' = failed_posts run ++ fs
  /\ success (stats run') = success (stats run) + length rs
  /\ failed (stats run') <= failed (stats run) + length fs
  /\ total (stats run') <= total (stats run) + length posts
  /\ length rs + length fs <= length posts
  /\ incl fs posts
  /\ Forall (fun r => exists p, In p posts /\ repaired_from p r) rs.

(** The records of the files that could be read. *)
Definition records_read (files : list (option (list Post))) : nat :=
  list_sum (map (fun f => match f with
                          | Some posts => length posts
                          | None => 0
                          end) files).

(** No keyword of the filter of Strategy A occurs in the string. *)
Definition keyword_free (d : pystr) : bool :=
  forallb (fun kw => negb (contains kw d)) Daegu.filter_keywords.

(** The days a token can set are free of keywords. *)
Definition token_days_free (tok : Re.token) : Prop :=
  match tok with
  | Re.TDayRange r => Forall (fun d => keyword_free d = true) (expand_days r)
  | Re.TDay d => keyword_free d = true
  | _ => True
  end.

(** The days in force and the days of the entries made so far are free
    of keywords. *)
Definition days_free (st : Daegu.State) : Prop :=
  Forall (fun d => keyword_free d = true) (Daegu.current_days st)
  /\ Forall (fun e => keyword_free (Daegu.d_day e) = true) (Daegu.objects st).

(** No character of the string is a decimal digit. *)
Definition digit_free (s : pystr) : Prop :=
  Forall (fun c => is_digit c = false) s.

(** Nothing has been added to the result yet. *)
Definition nothing_added (st : Daegu.State) : Prop :=
  Daegu.objects st = [] /\ Daegu.result st = no_buckets.

(** The days a time token is applied to in a state. *)
Definition days_to_apply (st : Daegu.State) : list pystr :=
  match Daegu.current_days st with
  | [] => match Daegu.current_section st with
          | Sunday => [Lit.juil]
          | _ => []
          end
  | days => days
  end.

(** [desc.strip('()')] *)
Definition clean_desc (desc : pystr) : pystr :=
  strip_chars [Lit.lparen; Lit.rparen] desc.

(** Pattern 1 finds nothing: no time of the text is followed by a
    description in parentheses. *)
Definition no_timed_desc (text : pystr) : bool :=
  match Re.findall Re.timed_desc_at text with
  | [] => true
  | _ :: _ => false
  end.

(** Pattern 2 finds nothing: no line of the text that starts with a day
    name holds a time. *)
Definition no_day_line_time (text : pystr) : bool :=
  forallb (fun line => match day_line_times line with
                       | [] => true
                       | _ :: _ => false
                       end)
          (split Lit.newline text).

(** No line of the text starts with a day name. *)
Definition no_day_line (text : pystr) : bool :=
  forallb (fun line =>
             negb (existsb (fun d => startswith (strip_by is_space line) d)
                           Flat.days))
          (split Lit.newline text).

(* ================================================================== *)
(** * Properties *)
(* ================================================================== *)

(** ** Strings *)

Lemma eqb_eq (a b : pystr) : eqb a b = true <-> a = b.
Proof.
  revert b; induction a as [|x a IH]; intros [|y b]; simpl;
    try (split; [discriminate | discriminate]); try tauto.
  rewrite andb_true_iff, N.eqb_eq, IH.
  split; [intros [-> ->]; reflexivity | intros H; inversion H; auto].
Qed.

Lemma eqb_refl (a : pystr) : eqb a a = true.
Proof. apply eqb_eq; reflexivity. Qed.

Lemma index_nth_error (x : pystr) (l : list pystr) (i : nat) :
  index x l = Some i -> nth_error l i = Some x.
Proof.
  revert i; induction l as [|y l IH]; simpl; intros i H; [discriminate|].
  destruct (eqb y x) eqn:E.
  - apply eqb_eq in E; inversion H; subst; reflexivity.
  - destruct (index x l) as [j|]; [|discriminate].
    inversion H; subst; simpl; auto.
Qed.

(** ** normalize_time *)

Lemma format_02d_two_digits (n : Z) :
  (0 <= n < 100)%Z -> PyInt.format_02d n = two_digits n.
Proof.
  intros H.
  assert (A : forallb (fun k => eqb (PyInt.format_02d (Z.of_nat k))
                                    (two_digits (Z.of_nat k)))
                      (seq 0 100) = true) by (vm_compute; reflexivity).
  rewrite forallb_forall in A.
  specialize (A (Z.to_nat n)).
  rewrite Z2Nat.id in A by lia.
  apply eqb_eq, A, in_seq; lia.
Qed.

Lemma normalize_time_pm (time_str : pystr) (hour minute : Z) :
  split_hour_minute time_str = Some (hour, minute) ->
  normalize_time time_str (Some Lit.pm)
  = PyInt.format_02d (if (hour <? 12)%Z then (hour + 12)%Z else hour)
      ++ [Lit.colon] ++ PyInt.format_02d minute.
Proof. intros H; unfold normalize_time; rewrite H; reflexivity. Qed.

Lemma normalize_time_am (time_str : pystr) (hour minute : Z) :
  split_hour_minute time_str = Some (hour, minute) ->
  normalize_time time_str (Some Lit.am)
  = PyInt.format_02d (if (hour =? 12)%Z then 0%Z else hour)
      ++ [Lit.colon] ++ PyInt.format_02d minute.
Proof. intros H; unfold normalize_time; rewrite H; reflexivity. Qed.

Lemma reads_as_spec (time_str : pystr) (hour minute : Z) :
  reads_as time_str hour minute = true ->
  split_hour_minute time_str = Some (hour, minute).
Proof.
  unfold reads_as. destruct (split_hour_minute time_str) as [[h m]|];
    [|discriminate].
  intros H. apply andb_true_iff in H as [Hh Hm].
  apply Z.eqb_eq in Hh, Hm. subst. reflexivity.
Qed.

Lemma clock_reads_back (hour minute : Z) :
  (0 <= hour < 24)%Z -> (0 <= minute < 60)%Z ->
  split_hour_minute (clock hour minute) = Some (hour, minute)
  /\ split_hour_minute (hhmm hour minute) = Some (hour, minute).
Proof.
  intros Hh Hm.
  assert (A : forallb (fun h =>
                forallb (fun m =>
                           reads_as (clock (Z.of_nat h) (Z.of_nat m))
                                    (Z.of_nat h) (Z.of_nat m)
                           && reads_as (hhmm (Z.of_nat h) (Z.of_nat m))
                                       (Z.of_nat h) (Z.of_nat m))
                        (seq 0 60))
                (seq 0 24) = true) by (vm_compute; reflexivity).
  rewrite forallb_forall in A.
  specialize (A (Z.to_nat hour)). rewrite forallb_forall in A.
  assert (Hin : In (Z.to_nat hour) (seq 0 24)) by (apply in_seq; lia).
  specialize (A Hin (Z.to_nat minute)).
  rewrite !Z2Nat.id in A by lia.
  assert (Hin' : In (Z.to_nat minute) (seq 0 60)) by (apply in_seq; lia).
  apply A, andb_true_iff in Hin' as [H1 H2].
  split; apply reads_as_spec; assumption.
Qed.

(** C6: [normalize_time] turns [H:MM] and a meridiem into 24-hour
    [HH:MM].  With ["오후"] the hours 1 to 11 get 12 added and hour 12
    stays; with ["오전"] hour 12 becomes 0 and the other hours stay; with
    no meridiem the string comes back as it is; and a string that is not
    two integers around a colon comes back as it is, whatever the
    meridiem.  Every time of the clock, written [H:MM] or [HH:MM], is
    read as its hour and its minute.  The four examples of the
    specification are included. *)
Theorem normalize_time_spec :
  (forall time_str, normalize_time time_str None = time_str)
  /\ (forall time_str ampm,
         split_hour_minute time_str = None ->
         normalize_time time_str ampm = time_str)
  /\ (forall time_str hour minute,
         split_hour_minute time_str = Some (hour, minute) ->
         (0 <= minute < 60)%Z ->
         ((1 <= hour <= 11)%Z ->
          normalize_time time_str (Some Lit.pm) = hhmm (hour + 12) minute)
         /\ (hour = 12%Z ->
             normalize_time time_str (Some Lit.pm) = hhmm 12 minute)
         /\ (hour = 12%Z ->
             normalize_time time_str (Some Lit.am) = hhmm 0 minute)
         /\ ((0 <= hour < 24)%Z -> hour <> 12%Z ->
             normalize_time time_str (Some Lit.am) = hhmm hour minute))
  /\ (forall hour minute,
         (0 <= hour < 24)%Z -> (0 <= minute < 60)%Z ->
         split_hour_minute (clock hour minute) = Some (hour, minute)
         /\ split_hour_minute (hhmm hour minute) = Some (hour, minute))
  /\ normalize_time (lit "12:00") (Some Lit.pm) = lit "12:00"
  /\ normalize_time (lit "12:30") (Some Lit.am) = lit "00:30"
  /\ normalize_time (lit "3:00") (Some Lit.pm) = lit "15:00"
  /\ normalize_time (lit "7:00") None = lit "7:00".
Proof.
  split; [reflexivity|].
  split.
  { intros time_str [[|c ap]|] H; simpl; try reflexivity.
    unfold normalize_time; rewrite H; reflexivity. }
  split.
  { intros time_str hour minute H Hm.
    rewrite (normalize_time_pm time_str H), (normalize_time_am time_str H).
    unfold hhmm.
    repeat split.
    - intros Hh. destruct (Z.ltb_spec hour 12); [|lia].
      rewrite !format_02d_two_digits by lia; reflexivity.
    - intros ->. change (12 <? 12)%Z with false. cbv iota.
      rewrite !format_02d_two_digits by lia; reflexivity.
    - intros ->. change (12 =? 12)%Z with true. cbv iota.
      rewrite !format_02d_two_digits by lia; reflexivity.
    - intros Hh Hne. destruct (Z.eqb_spec hour 12); [lia|].
      rewrite !format_02d_two_digits by lia; reflexivity. }
  split; [exact clock_reads_back|].
  repeat split; vm_compute; reflexivity.
Qed.

Lemma normalize_time_spec_witness :
  normalize_time (lit "3:00") (Some Lit.pm) = hhmm 15 0
  /\ normalize_time (lit "12:30") (Some Lit.am) = hhmm 0 30
  /\ normalize_time (lit "9:05") (Some Lit.am) = hhmm 9 5
  /\ normalize_time (lit "12:05") (Some Lit.pm) = hhmm 12 5
  /\ normalize_time (lit "미정") (Some Lit.pm) = lit "미정"
  /\ split_hour_minute (clock 7 30) = Some (7%Z, 30%Z).
Proof.
  destruct normalize_time_spec as (_ & Hbad & Hgood & Hclock & _).
  split; [|split; [|split; [|split; [|split]]]].
  - apply (Hgood (lit "3:00") 3%Z 0%Z); [vm_compute; reflexivity | lia | lia].
  - apply (Hgood (lit "12:30") 12%Z 30%Z); [vm_compute; reflexivity | lia | lia].
  - apply (Hgood (lit "9:05") 9%Z 5%Z); [vm_compute; reflexivity | lia | lia | lia].
  - apply (Hgood (lit "12:05") 12%Z 5%Z); [vm_compute; reflexivity | lia | lia].
  - apply Hbad; vm_compute; reflexivity.
  - apply (Hclock 7%Z 30%Z); lia.
Defined.

(** ** expand_days *)

Lemma cycle_pos_cases (d : pystr) (i : nat) :
  cycle_pos d = Some i ->
  In (d, i) [(Lit.mon, 0); (Lit.tue, 1); (Lit.wed, 2); (Lit.thu, 3);
             (Lit.fri, 4); (Lit.sat, 5); (Lit.juil, 6); (Lit.il, 6)].
Proof.
  unfold cycle_pos; intros H.
  destruct (eqb d Lit.il) eqn:E.
  - apply eqb_eq in E; subst d.
    vm_compute in H; inversion H; subst; simpl; tauto.
  - apply index_nth_error in H.
    do 7 (destruct i as [|i];
          [inversion H; subst; simpl; tauto|]).
    destruct i; discriminate.
Qed.

(** C4 (counterexample): for Friday to Monday, a range whose start comes
    after its end, [expand_days] returns the empty list and not the
    expression itself. *)
Lemma expand_days_reversed_not_passthrough :
  expand_days (range_expr Lit.fri Lit.mon) = []
  /\ expand_days (range_expr Lit.fri Lit.mon) <> [range_expr Lit.fri Lit.mon].
Proof. split; [vm_compute; reflexivity | vm_compute; discriminate]. Qed.

(** C4 (amended): for a range [a-b] of two day symbols, [expand_days]
    returns the inclusive slice of the seven-day cycle from [a] to [b]
    when [a] does not come after [b] and [b] is not Sunday (or [a] is
    Sunday too), and the empty list when [a] comes after [b].  The
    expression comes back as a one-element list exactly when the [try]
    raises (not two fields around the hyphen, or a field that is no day
    symbol), so that no exception leaves the function. *)
Theorem expand_days_range :
  (forall a b i j,
      cycle_pos a = Some i -> cycle_pos b = Some j ->
      (i <= j -> j < 6 \/ i = 6 ->
       expand_days (range_expr a b) = slice cycle i (j + 1))
      /\ (j < i -> expand_days (range_expr a b) = []))
  /\ (forall e,
         contains Lit.daily e = false ->
         contains [Lit.hyphen] e = true ->
         expand_range e = None ->
         expand_days e = [e]).
Proof.
  split.
  - intros a b i j Ha Hb.
    apply cycle_pos_cases in Ha; apply cycle_pos_cases in Hb.
    simpl in Ha, Hb.
    repeat match goal with
           | H : _ \/ _ |- _ => destruct H as [H|H]
           | H : (_, _) = (_, _) |- _ => inversion H; clear H; subst
           | H : False |- _ => destruct H
           end;
      (split; intros; try lia; vm_compute; reflexivity).
  - intros e Hd Hh He. unfold expand_days. rewrite Hd, Hh, He. reflexivity.
Qed.

Lemma expand_days_range_witness :
  expand_days (range_expr Lit.mon Lit.fri) = slice cycle 0 5
  /\ expand_days (range_expr Lit.sat Lit.tue) = []
  /\ expand_days (lit "주-일") = [lit "주-일"].
Proof.
  destruct expand_days_range as (Hr & He).
  split; [|split].
  - apply (Hr Lit.mon Lit.fri 0 4); [reflexivity | reflexivity | lia | lia].
  - apply (Hr Lit.sat Lit.tue 5 1); [reflexivity | reflexivity | lia].
  - apply He; vm_compute; reflexivity.
Defined.

(** A range that ends on Sunday goes through both spellings of Sunday in
    [weekdays]. *)
Example expand_days_to_sunday :
  expand_days (range_expr Lit.sat Lit.il) = [Lit.sat; Lit.il; Lit.juil].
Proof. vm_compute; reflexivity. Qed.

(** C5 (counterexample): the expansion of ["매일"] has Sunday in it and
    is not the list of the six days Monday to Saturday. *)
Lemma expand_days_daily_has_sunday :
  In Lit.juil (expand_days Lit.daily)
  /\ expand_days Lit.daily
     <> [Lit.mon; Lit.tue; Lit.wed; Lit.thu; Lit.fri; Lit.sat].
Proof.
  split; [vm_compute; tauto | vm_compute; discriminate].
Qed.

(** C5 (amended): for every expression that contains ["매일"],
    [expand_days] returns the seven days of the cycle: Monday to Saturday
    and then Sunday, ["주일"]. *)
Theorem expand_days_daily (e : pystr) :
  contains Lit.daily e = true ->
  expand_days e
  = [Lit.mon; Lit.tue; Lit.wed; Lit.thu; Lit.fri; Lit.sat; Lit.juil].
Proof. intros H; unfold expand_days; rewrite H; reflexivity. Qed.

Lemma expand_days_daily_witness :
  expand_days (lit "매일 미사")
  = [Lit.mon; Lit.tue; Lit.wed; Lit.thu; Lit.fri; Lit.sat; Lit.juil].
Proof. apply expand_days_daily; vm_compute; reflexivity. Defined.

(** ** Strategy A on the first scenario *)

Lemma time_without_day_adds_nothing (st : Daegu.State) (time_str : pystr) :
  Daegu.current_section st <> Sunday ->
  Daegu.current_days st = [] ->
  Daegu.objects (Daegu.on_token st (Re.TTime time_str)) = Daegu.objects st
  /\ Daegu.result (Daegu.on_token st (Re.TTime time_str)) = Daegu.result st.
Proof.
  intros Hs Hd. unfold Daegu.on_token. rewrite Hd.
  destruct (Daegu.current_section st); [congruence | | |];
    simpl; split; reflexivity.
Qed.

(** C2 (counterexample): on the text of the scenario, a Sunday section
    with ["오전 10:00"] and a weekday section with ["오후 7:00"], the
    result of Strategy A has no ["평일미사"] key at all. *)
Lemma scenario_has_no_weekday_entry :
  dict_get (_parse_daegu_style
              (lit "[주일미사] 오전 10:00 [평일미사] 오후 7:00"))
           (category_key Weekday)
  = None.
Proof. vm_compute; reflexivity. Qed.

(** C2 (amended): on the text of the scenario Strategy A returns the raw
    text and a ["주일미사"] category with the one entry of time ["10:00"],
    the Sunday section giving its day to a time that has none, and no
    ["평일미사"] category: outside the Sunday section a time with no day
    before it on its line adds no entry.  With a day in front, as in
    ["월 오후 7:00"], the ["평일미사"] category holds the entry of time
    ["19:00"].  The same text with each marker and each time on a line
    of its own gives the same categories. *)
Theorem scenario_sunday_only :
  _parse_daegu_style (lit "[주일미사] 오전 10:00 [평일미사] 오후 7:00")
  = [(raw_text_key, VStr (lit "[주일미사] 오전 10:00 [평일미사] 오후 7:00"));
     (category_key Sunday, VEntries [{| time := lit "10:00"; desc := [] |}])]
  /\ (forall st time_str,
         Daegu.current_section st <> Sunday ->
         Daegu.current_days st = [] ->
         Daegu.objects (Daegu.on_token st (Re.TTime time_str))
         = Daegu.objects st
         /\ Daegu.result (Daegu.on_token st (Re.TTime time_str))
            = Daegu.result st)
  /\ Daegu.category_items
       (Daegu.read_lines
          (lit "[주일미사]" ++ [Lit.newline] ++ lit "오전 10:00" ++ [Lit.newline]
           ++ lit "[평일미사]" ++ [Lit.newline] ++ lit "오후 7:00"))
     = [(category_key Sunday, VEntries [{| time := lit "10:00"; desc := [] |}])]
  /\ dict_get (_parse_daegu_style
                 (lit "[주일미사] 오전 10:00 [평일미사] 월 오후 7:00"))
              (category_key Weekday)
     = Some (VEntries [{| time := lit "19:00"; desc := lit "월" |}]).
Proof.
  split; [vm_compute; reflexivity|].
  split; [exact time_without_day_adds_nothing|].
  split; vm_compute; reflexivity.
Qed.

Lemma scenario_sunday_only_witness :
  let st := Daegu.enter Daegu.initial Weekday in
  Daegu.result (Daegu.on_token st (Re.TTime (lit "7:00"))) = Daegu.result st.
Proof.
  destruct scenario_sunday_only as (_ & H & _ & _).
  apply (H (Daegu.enter Daegu.initial Weekday) (lit "7:00"));
    [simpl; discriminate | reflexivity].
Defined.

(** ** The orchestrator on a parser-failure marker *)

Lemma dict_set_length (d : pydict) (k : pystr) (v : value) :
  length d <= length (dict_set d k v).
Proof.
  induction d as [|[k' v'] d IH]; simpl; [lia|].
  destruct (eqb k' k); simpl; lia.
Qed.

Lemma valid_data_length (d : pydict) :
  1 < length d -> valid_data (Some d) = true.
Proof.
  intros H. unfold valid_data. destruct d as [|kv d]; [simpl in H; lia|].
  apply Nat.ltb_lt. assumption.
Qed.

Lemma seoul_result_valid (lower : pystr -> pystr) (text church : pystr) :
  match seoul_result lower text church with
  | Some d => valid_data (Some d) = true
  | None => True
  end.
Proof.
  unfold seoul_result.
  destruct (negb _ && negb _); [exact I|].
  destruct (parse_mass_times_from_text lower text) as [[|kv r]|] eqn:E;
    try reflexivity.
  apply valid_data_length.
  unfold parse_mass_times_from_text in E.
  destruct (_ || _).
  - unfold _parse_daegu_style in E.
    assert (Hkv : kv = (raw_text_key, VStr (firstn 500 text))) by congruence.
    subst kv. cbn [dict_set].
    change (eqb raw_text_key search_term_key) with false. cbv iota.
    pose proof (dict_set_length r search_term_key (VStr church)) as Hl.
    destruct r; simpl in *; lia.
  - unfold parse_flat in E.
    destruct (Nat.ltb_spec 1 (length (drop_empty (deduplicated lower text))))
      as [Hlt|]; [|discriminate].
    assert (Hd : drop_empty (deduplicated lower text) = kv :: r) by congruence.
    rewrite Hd in Hlt.
    pose proof (dict_set_length (kv :: r) search_term_key (VStr church)).
    lia.
Qed.

(** C1 (the code at the failing input): a record of 서울대교구 for which
    [handle_seoul] finds a page of results with no schedule on it.  The
    handler returns its fallback, a parser-failure marker of three keys;
    the orchestrator takes it for valid data: the record gets the three
    repair fields, goes to the repaired list and is counted a success.
    Whatever the page, a dict that [handle_seoul] returns passes the
    orchestrator's test, and so does the fallback of [handle_incheon]. *)
Theorem failure_marker_counted_success :
  seoul_result ascii_lower no_schedule_page (lit "명동")
  = Some [(raw_text_key, VStr no_schedule_page);
          (search_term_key, VStr (lit "명동"));
          (parsing_failed_key, VBool true)]
  /\ failure_marker [(raw_text_key, VStr no_schedule_page);
                     (search_term_key, VStr (lit "명동"));
                     (parsing_failed_key, VBool true)]
     = true
  /\ failed_posts (process_post seoul_without_schedule stub_now fresh_run 0
                                myeongdong)
     = []
  /\ repaired_posts (process_post seoul_without_schedule stub_now fresh_run 0
                                  myeongdong)
     = [{| church_name := lit "명동성당"; diocese := lit "서울대교구";
           address := [];
           repaired_mass_times :=
             seoul_result ascii_lower no_schedule_page (lit "명동");
           repair_source := Some repair_source_name;
           repair_timestamp := Some (stub_now 0) |}]
  /\ stats (process_post seoul_without_schedule stub_now fresh_run 0
                         myeongdong)
     = {| total := 1; success := 1; failed := 0 |}
  /\ (forall lower text church,
         match seoul_result lower text church with
         | Some d => valid_data (Some d) = true
         | None => True
         end)
  /\ (forall body church,
         failure_marker (incheon_fallback body church) = true
         /\ valid_data (Some (incheon_fallback body church)) = true).
Proof.
  split; [vm_compute; reflexivity|].
  split; [vm_compute; reflexivity|].
  split; [vm_compute; reflexivity|].
  split; [vm_compute; reflexivity|].
  split; [vm_compute; reflexivity|].
  split; [exact seoul_result_valid|].
  intros body church. split; reflexivity.
Qed.

(** ** infer_diocese *)







(** ** The statistics *)

Section Bookkeeping.

Variable browse : nat -> handler -> pystr -> Post -> outcome.
Variable now : nat -> pystr.

Lemma process_post_stats (run : Run) (idx : nat) (post : Post) :
  stats_le (stats run) (stats (process_post browse now run idx post))
  /\ (balanced (stats run) ->
      balanced (stats (process_post browse now run idx post))).
Proof.
  unfold process_post, stats_le, balanced, count_failed.
  destruct (negb (nonempty _) || negb (nonempty _)); [lia|].
  destruct (get_handler _); [|simpl; lia].
  destruct (browse _ _ _ _) as [|r]; [simpl; lia|].
  destruct (valid_data r); simpl; lia.
Qed.

Lemma process_posts_stats (posts : list Post) (run : Run) (idx : nat) :
  stats_le (stats run) (stats (process_posts browse now run idx posts))
  /\ (balanced (stats run) ->
      balanced (stats (process_posts browse now run idx posts))).
Proof.
  revert run idx; induction posts as [|post posts IH]; intros run idx; simpl.
  - unfold stats_le; split; [lia | auto].
  - destruct (process_post_stats run idx post) as [Hle Hbal].
    destruct (IH (process_post browse now run idx post) (S idx)) as [Hle' Hbal'].
    split; [|auto].
    unfold stats_le in *; lia.
Qed.

End Bookkeeping.

(** C10: the counters start balanced, [total = success + failed]; every
    record leaves them balanced and lets none of them go down, and so
    does every batch.  A record that is skipped (no church name, or no
    diocese, given or inferred) changes nothing at all; a record whose
    diocese has no handler changes no counter, and is appended to the
    failed list. *)
Theorem stats_balanced :
  balanced initial_stats
  /\ (forall browse now run idx post,
         stats_le (stats run) (stats (process_post browse now run idx post))
         /\ (balanced (stats run) ->
             balanced (stats (process_post browse now run idx post))))
  /\ (forall browse now st posts limit,
         let run := fst (process_single_file browse now st posts limit) in
         stats_le st (stats run) /\ (balanced st -> balanced (stats run)))
  /\ (forall browse now run idx post,
         nonempty (search_name post) = false
         \/ nonempty (resolve_diocese post) = false ->
         process_post browse now run idx post = run)
  /\ (forall browse now run idx post,
         nonempty (search_name post) = true ->
         nonempty (resolve_diocese post) = true ->
         get_handler (resolve_diocese post) = None ->
         stats (process_post browse now run idx post) = stats run
         /\ failed_posts (process_post browse now run idx post)
            = failed_posts run ++ [post]
         /\ repaired_posts (process_post browse now run idx post)
            = repaired_posts run).
Proof.
  split; [reflexivity|].
  split; [intros; apply process_post_stats|].
  split.
  { intros browse now st posts limit. unfold process_single_file; simpl.
    apply (process_posts_stats browse now (posts_to_process posts limit)
             {| stats := st; repaired_posts := []; failed_posts := [] |} 0). }
  split.
  { intros browse now run idx post H. unfold process_post.
    fold (search_name post).
    destruct H as [H|H]; rewrite H; simpl; rewrite ?orb_true_r; reflexivity. }
  intros browse now run idx post Hn Hd Hh. unfold process_post.
  fold (search_name post). rewrite Hn, Hd, Hh. simpl. auto.
Qed.

Lemma stats_balanced_witness :
  balanced (stats (fst (process_single_file
                          nothing_found stub_now initial_stats
                          [myeongdong; nameless; jungnimdong] None)))
  /\ process_post nothing_found stub_now fresh_run 1 nameless = fresh_run
  /\ failed_posts (process_post nothing_found stub_now fresh_run 2 jungnimdong)
     = [jungnimdong].
Proof.
  destruct stats_balanced as (Hinit & _ & Hfile & Hskip & Hnone).
  split; [|split].
  - apply (Hfile nothing_found stub_now initial_stats
                 [myeongdong; nameless; jungnimdong] None).
    exact Hinit.
  - apply Hskip. left. vm_compute. reflexivity.
  - apply (Hnone nothing_found stub_now fresh_run 2 jungnimdong);
      vm_compute; reflexivity.
Defined.

(** ** The two strategies and [None] *)

(** C9: when the text has a section marker, [parse_mass_times_from_text]
    returns what Strategy A returns, a dict that always has ["raw_text"]
    and so is never empty, even when no entry was recognised; only the
    flat Strategy B returns [None]. *)
Theorem sectioned_text_never_none :
  (forall lower text,
      has_marker text = true ->
      parse_mass_times_from_text lower text = Some (_parse_daegu_style text)
      /\ dict_get (_parse_daegu_style text) raw_text_key
         = Some (VStr (firstn 500 text))
      /\ _parse_daegu_style text <> [])
  /\ (forall lower text,
         parse_mass_times_from_text lower text = None ->
         has_marker text = false
         /\ parse_flat lower text = None)
  /\ _parse_daegu_style (lit "[주일미사] 추후 공지")
     = [(raw_text_key, VStr (lit "[주일미사] 추후 공지"))]
  /\ parse_mass_times_from_text ascii_lower (lit "추후 공지") = None.
Proof.
  split.
  { intros lower text H. unfold parse_mass_times_from_text.
    fold (has_marker text). rewrite H.
    split; [reflexivity|]. split; [|discriminate].
    unfold _parse_daegu_style. cbn [dict_get]. rewrite eqb_refl. reflexivity. }
  split.
  { intros lower text. unfold parse_mass_times_from_text.
    fold (has_marker text). destruct (has_marker text); [discriminate|auto]. }
  split; vm_compute; reflexivity.
Qed.

Lemma sectioned_text_never_none_witness :
  parse_mass_times_from_text ascii_lower (lit "[평일미사] 추후 공지")
  = Some [(raw_text_key, VStr (lit "[평일미사] 추후 공지"))]
  /\ has_marker (lit "추후 공지") = false.
Proof.
  destruct sectioned_text_never_none as (Hsome & Hnone & _).
  split.
  - destruct (Hsome ascii_lower (lit "[평일미사] 추후 공지")) as (-> & _ & _);
      vm_compute; reflexivity.
  - apply (Hnone ascii_lower). vm_compute. reflexivity.
Defined.

(** ** Strategy B and the number of categories *)

Lemma flat_result_length (lower : pystr -> pystr) (text : pystr) :
  length (drop_empty (deduplicated lower text))
  = nonempty_categories lower text + (if nonempty text then 1 else 0).
Proof.
  unfold drop_empty, deduplicated, nonempty_categories.
  rewrite filter_app, length_app. f_equal.
  - unfold categories. cbn [map filter fst snd].
    repeat match goal with
           | |- context [truthy ?v] => destruct (truthy v)
           end; reflexivity.
  - destruct text; reflexivity.
Qed.

Lemma no_category_of_empty_text (lower : pystr -> pystr) :
  nonempty_categories lower [] = 0.
Proof. reflexivity. Qed.

(** C3 (counterexample): the text ["10:00 (교중)"] has no section marker
    and leaves one category non-empty, fewer than two, and Strategy B
    returns that category and the raw text, not [None]. *)
Lemma single_category_is_returned :
  has_marker (lit "10:00 (교중)") = false
  /\ nonempty_categories ascii_lower (lit "10:00 (교중)") = 1
  /\ parse_mass_times_from_text ascii_lower (lit "10:00 (교중)")
     = Some [(category_key Sunday,
              VEntries [{| time := lit "10:00"; desc := lit "교중" |}]);
             (raw_text_key, VStr (lit "10:00 (교중)"))].
Proof. repeat split; vm_compute; reflexivity. Qed.

Lemma startswith_app_l (d t s : pystr) :
  startswith s (d ++ t) = true -> startswith s d = true.
Proof.
  revert s; induction d as [|c d IH]; intros s Hs; [destruct s; reflexivity|].
  destruct s as [|x s]; [discriminate|].
  cbn [app startswith] in *. apply andb_true_iff in Hs as [-> Hs].
  cbn [andb]. apply IH. assumption.
Qed.

Lemma classify_line_no_time (lower : pystr -> pystr)
      (result : Buckets Entry) (line : pystr) :
  day_line_times line = [] -> classify_line lower result line = result.
Proof.
  unfold day_line_times, classify_line. cbv zeta.
  destruct (negb (nonempty (strip_by is_space line))); [reflexivity|].
  destruct (existsb (fun d => startswith (strip_by is_space line) d) Flat.days)
    eqn:E1.
  - intros H. rewrite H. reflexivity.
  - intros _. cbn [orb].
    destruct (existsb
                (fun d => startswith (strip_by is_space line) (d ++ Flat.yoil))
                Flat.days) eqn:E2; [|reflexivity].
    exfalso. apply existsb_exists in E2 as (d & Hd & Hs).
    apply startswith_app_l in Hs.
    assert (E : existsb (fun d => startswith (strip_by is_space line) d)
                        Flat.days = true)
      by (apply existsb_exists; exists d; split; assumption).
    congruence.
Qed.

Lemma classified_no_match (lower : pystr -> pystr) (text : pystr) :
  no_timed_desc text = true -> no_day_line_time text = true ->
  classified lower text = no_buckets.
Proof.
  unfold no_timed_desc, no_day_line_time, classified. cbv zeta.
  destruct (Re.findall Re.timed_desc_at text); [|discriminate].
  intros _. cbn [fold_left].
  induction (split Lit.newline text) as [|line lines IH]; cbn [fold_left forallb];
    [reflexivity|].
  intros H. apply andb_true_iff in H as [Hl H].
  rewrite classify_line_no_time; [apply IH; assumption|].
  destruct (day_line_times line); [reflexivity | discriminate].
Qed.

Lemma mem_char_tail (c x : N) (s : pystr) :
  mem_char c (x :: s) = false -> mem_char c s = false.
Proof.
  unfold mem_char. cbn [existsb]. intros H.
  apply orb_false_iff in H as [_ H]. exact H.
Qed.

Lemma mem_char_skipn (c : N) (n : nat) (s : pystr) :
  mem_char c s = false -> mem_char c (skipn n s) = false.
Proof.
  revert s; induction n as [|n IH]; intros s H; [exact H|].
  destruct s as [|x s]; [reflexivity|].
  cbn [skipn]. apply IH. exact (@mem_char_tail c x s H).
Qed.

Lemma mem_char_lstrip (c : N) (p : N -> bool) (s : pystr) :
  mem_char c s = false -> mem_char c (lstrip_by p s) = false.
Proof.
  induction s as [|x s IH]; intros H; [reflexivity|].
  cbn [lstrip_by]. destruct (p x); [|exact H].
  apply IH. exact (@mem_char_tail c x s H).
Qed.

Lemma timed_desc_needs_paren (s : pystr) :
  mem_char Lit.lparen s = false -> Re.timed_desc_at s = None.
Proof.
  intros H. unfold Re.timed_desc_at.
  destruct (Re.time_at s) as [[time_str n]|]; [|reflexivity]. cbv zeta.
  pose proof (@mem_char_lstrip Lit.lparen is_space (skipn n s)
                               (@mem_char_skipn Lit.lparen n s H)) as Hp.
  destruct (lstrip_by is_space (skipn n s)) as [|c tl]; [reflexivity|].
  unfold mem_char in Hp. cbn [existsb] in Hp.
  apply orb_false_iff in Hp as [Hc _].
  cbn [Re.paren_at]. rewrite N.eqb_sym, Hc. reflexivity.
Qed.

Lemma no_paren_no_timed_desc (text : pystr) :
  mem_char Lit.lparen text = false -> no_timed_desc text = true.
Proof.
  intros H. unfold no_timed_desc, Re.findall.
  assert (E : forall skip, Re.scan Re.timed_desc_at skip text = []).
  { induction text as [|c text IH]; intros skip; cbn [Re.scan]; [reflexivity|].
    pose proof (@mem_char_tail Lit.lparen c text H) as H'.
    destruct skip as [|k]; [|apply IH; assumption].
    rewrite (@timed_desc_needs_paren (c :: text) H). apply IH. assumption. }
  rewrite E. reflexivity.
Qed.

Lemma no_day_line_no_time (text : pystr) :
  no_day_line text = true -> no_day_line_time text = true.
Proof.
  unfold no_day_line, no_day_line_time.
  induction (split Lit.newline text) as [|line lines IH]; cbn [forallb];
    [reflexivity|].
  intros H. apply andb_true_iff in H as [Hl H].
  rewrite (IH H), andb_true_r. unfold day_line_times. cbv zeta.
  apply negb_true_iff in Hl. rewrite Hl. reflexivity.
Qed.

Lemma single_category_dict (lower : pystr -> pystr) (text : pystr) :
  nonempty text = true ->
  nonempty_categories lower text = 1 ->
  exists cat entries,
    entries <> []
    /\ dedup [] (bucket (classified lower text) cat) = entries
    /\ drop_empty (deduplicated lower text)
       = [(category_key cat, VEntries entries);
          (raw_text_key, VStr (firstn 500 text))].
Proof.
  intros Hne H1. unfold drop_empty, deduplicated. rewrite filter_app.
  assert (Hraw : filter (fun kv : pystr * value => truthy (snd kv))
                        [(raw_text_key, VStr (firstn 500 text))]
                 = [(raw_text_key, VStr (firstn 500 text))]).
  { destruct text; [discriminate|]. reflexivity. }
  rewrite Hraw. clear Hraw Hne.
  unfold nonempty_categories in H1. unfold categories in *.
  cbn [map filter snd] in *. revert H1.
  destruct (dedup [] (bucket (classified lower text) Sunday))
    as [|e1 l1] eqn:E1;
    destruct (dedup [] (bucket (classified lower text) Weekday))
      as [|e2 l2] eqn:E2;
    destruct (dedup [] (bucket (classified lower text) Saturday))
      as [|e3 l3] eqn:E3;
    destruct (dedup [] (bucket (classified lower text) Other))
      as [|e4 l4] eqn:E4;
    cbn [truthy length app]; intros H1; try discriminate H1;
    match goal with
    | E : dedup [] (bucket _ ?cat) = ?e :: ?l |- _ =>
      exists cat, (e :: l);
        split; [discriminate | split; [exact E | reflexivity]]
    end.
Qed.

(** C3 (amended): for a text without section markers,
    [parse_mass_times_from_text] returns [None] exactly when none of the
    four categories is non-empty after classification and deduplication.
    A schedule with one non-empty category is returned, as the dict of
    exactly two keys: that category with its deduplicated entries, and
    ["raw_text"] with the first 500 characters of the text.  Every text
    in which no time is followed by a description in parentheses and no
    line that starts with a day name holds a time gives [None], whatever
    else it holds; so does, in particular, every text with no opening
    parenthesis and no line that starts with a day name, such as a text
    that is one bare [HH:MM]. *)
Theorem flat_none_iff_no_category :
  (forall lower text,
      has_marker text = false ->
      (parse_mass_times_from_text lower text = None
       <-> nonempty_categories lower text = 0))
  /\ (forall lower text,
         has_marker text = false ->
         nonempty_categories lower text = 1 ->
         exists cat entries,
           entries <> []
           /\ dedup [] (bucket (classified lower text) cat) = entries
           /\ parse_mass_times_from_text lower text
              = Some [(category_key cat, VEntries entries);
                      (raw_text_key, VStr (firstn 500 text))])
  /\ (forall lower text,
         has_marker text = false ->
         no_timed_desc text = true ->
         no_day_line_time text = true ->
         parse_mass_times_from_text lower text = None)
  /\ (forall lower text,
         has_marker text = false ->
         mem_char Lit.lparen text = false ->
         no_day_line text = true ->
         parse_mass_times_from_text lower text = None).
Proof.
  assert (Hlen : forall lower text,
             has_marker text = false ->
             parse_mass_times_from_text lower text
             = if (1 <? nonempty_categories lower text
                        + (if nonempty text then 1 else 0))%nat
               then Some (drop_empty (deduplicated lower text)) else None).
  { intros lower text H. unfold parse_mass_times_from_text.
    fold (has_marker text). rewrite H. unfold parse_flat.
    rewrite flat_result_length. reflexivity. }
  assert (Hiff : forall lower text,
             has_marker text = false ->
             (parse_mass_times_from_text lower text = None
              <-> nonempty_categories lower text = 0)).
  { intros lower text H. rewrite (Hlen lower text H).
    destruct text as [|c text].
    - rewrite no_category_of_empty_text. simpl. tauto.
    - simpl nonempty. cbv iota.
      destruct (Nat.ltb_spec 1 (nonempty_categories lower (c :: text) + 1));
        split; intros; try discriminate; try reflexivity; lia. }
  assert (Hbare : forall lower text,
             has_marker text = false ->
             no_timed_desc text = true ->
             no_day_line_time text = true ->
             parse_mass_times_from_text lower text = None).
  { intros lower text H Ht Hd. apply (Hiff lower text H).
    unfold nonempty_categories.
    rewrite (@classified_no_match lower text Ht Hd). reflexivity. }
  split; [exact Hiff|].
  split.
  { intros lower text H H1. rewrite (Hlen lower text H).
    assert (Hne : nonempty text = true).
    { destruct text; [|reflexivity].
      rewrite no_category_of_empty_text in H1. discriminate. }
    rewrite H1, Hne. change (1 <? 1 + 1)%nat with true. cbv iota.
    destruct (@single_category_dict lower text Hne H1)
      as (cat & entries & Hn & He & Hd).
    exists cat, entries. split; [assumption|]. split; [assumption|].
    rewrite Hd. reflexivity. }
  split; [exact Hbare|].
  intros lower text H Hp Hd.
  apply (Hbare lower text H);
    [apply no_paren_no_timed_desc | apply no_day_line_no_time]; assumption.
Qed.

Lemma flat_none_iff_no_category_witness :
  parse_mass_times_from_text ascii_lower (lit "사무실 운영 09:00") = None
  /\ (exists cat entries,
         entries <> []
         /\ dedup [] (bucket (classified ascii_lower (lit "18:00 (특전)")) cat)
            = entries
         /\ parse_mass_times_from_text ascii_lower (lit "18:00 (특전)")
            = Some [(category_key cat, VEntries entries);
                    (raw_text_key, VStr (firstn 500 (lit "18:00 (특전)")))])
  /\ parse_mass_times_from_text ascii_lower (lit "미사 수 10:00") = None
  /\ parse_mass_times_from_text ascii_lower (lit "10:00") = None.
Proof.
  destruct flat_none_iff_no_category as (Hnone & Hone & Hbare & Hplain).
  split; [apply Hnone; vm_compute; reflexivity|].
  split; [apply Hone; vm_compute; reflexivity|].
  split; [apply Hbare; vm_compute; reflexivity|].
  apply Hplain; vm_compute; reflexivity.
Defined.

(** ** No entry twice *)

Lemma mem_str_In (x : pystr) (l : list pystr) : mem_str x l = true <-> In x l.
Proof.
  unfold mem_str. rewrite existsb_exists. split.
  - intros (y & Hy & E). apply eqb_eq in E. subst. assumption.
  - intros H. exists x. split; [assumption | apply eqb_refl].
Qed.

Lemma mem_str_not_In (x : pystr) (l : list pystr) :
  mem_str x l = false <-> ~ In x l.
Proof.
  rewrite <- mem_str_In. destruct (mem_str x l); split; congruence.
Qed.

Lemma NoDup_keys_pairs (l : list Entry) :
  NoDup (map key_of l) -> NoDup (map pair_of l).
Proof.
  intros H.
  apply (NoDup_map_inv (fun p => entry_key (fst p) (snd p))).
  rewrite map_map. exact H.
Qed.

(** One more entry in front of a list whose keys are all new. *)
Lemma keep_first (e : Entry) (l : list Entry) (seen : list pystr) :
  ~ In (key_of e) seen ->
  NoDup (map key_of l) ->
  (forall x, In x l -> ~ In (key_of x) (key_of e :: seen)) ->
  NoDup (map key_of (e :: l))
  /\ forall x, In x (e :: l) -> ~ In (key_of x) seen.
Proof.
  intros Hnew Hnd Hfresh. split.
  - cbn [map]. constructor; [|assumption].
    intros Hin. apply in_map_iff in Hin as (x & Hx & Hin).
    apply (Hfresh x Hin). left. symmetry. assumption.
  - intros x [<-|Hin]; [assumption|].
    intros Hs. apply (Hfresh x Hin). right. assumption.
Qed.

Lemma dedup_fresh (items : list Entry) (seen : list pystr) :
  NoDup (map key_of (dedup seen items))
  /\ forall e, In e (dedup seen items) -> ~ In (key_of e) seen.
Proof.
  revert seen; induction items as [|item items IH]; intros seen;
    cbn [dedup].
  - split; [constructor | intros e []].
  - fold (key_of item).
    destruct (mem_str (key_of item) seen) eqn:M; [apply IH|].
    apply mem_str_not_In in M.
    destruct (IH (key_of item :: seen)) as [Hnd Hfresh].
    apply keep_first; assumption.
Qed.

Lemma clean_fresh (cat : category) (entries : list Daegu.DayEntry)
      (seen : list pystr) :
  NoDup (map key_of (Daegu.clean cat seen entries))
  /\ forall e, In e (Daegu.clean cat seen entries) -> ~ In (key_of e) seen.
Proof.
  revert seen; induction entries as [|entry entries IH]; intros seen;
    cbn [Daegu.clean].
  - split; [constructor | intros e []].
  - destruct (existsb _ Daegu.filter_keywords); [apply IH|].
    match goal with
    | |- context [mem_str (entry_key _ ?x) seen] => set (d := x)
    end.
    destruct (mem_str (entry_key (Daegu.d_time entry) d) seen) eqn:M;
      [apply IH|].
    apply mem_str_not_In in M.
    destruct (IH (entry_key (Daegu.d_time entry) d :: seen)) as [Hnd Hfresh].
    apply (keep_first {| time := Daegu.d_time entry; desc := d |});
      assumption.
Qed.

Lemma daegu_well_formed (text : pystr) : well_formed (_parse_daegu_style text).
Proof.
  intros k l [H|H]; [discriminate|].
  unfold Daegu.category_items in H.
  apply in_flat_map in H as (cat & _ & H).
  unfold Daegu.clean_entries in H.
  destruct (clean_fresh cat (Daegu.deref (Daegu.objects (Daegu.read_lines text))
                               (bucket (Daegu.result (Daegu.read_lines text)) cat))
                        []) as [Hnd _].
  destruct (Daegu.clean _ _ _) as [|e es] eqn:E; [destruct H|].
  destruct H as [[= _ <-]|[]].
  split; [discriminate | apply NoDup_keys_pairs; assumption].
Qed.

Lemma flat_well_formed (lower : pystr -> pystr) (text : pystr) (d : pydict) :
  parse_flat lower text = Some d -> well_formed d.
Proof.
  unfold parse_flat. destruct (1 <? _)%nat; [|discriminate].
  intros H.
  assert (E : d = drop_empty (deduplicated lower text)) by congruence.
  subst d; clear H.
  intros k l Hin. unfold drop_empty in Hin.
  apply filter_In in Hin as [Hin Ht].
  split; [destruct l; [discriminate Ht | discriminate]|].
  unfold deduplicated in Hin. apply in_app_or in Hin as [Hin|[Hin|[]]];
    [|discriminate].
  apply in_map_iff in Hin as (cat & [= _ <-] & _).
  apply NoDup_keys_pairs, dedup_fresh.
Qed.

(** C7: in every result of the parser, from Strategy A and from
    Strategy B alike, no list of entries holds the same pair of time and
    description twice, and a category is there only with a non-empty
    list. *)
Theorem results_well_formed :
  (forall text, well_formed (_parse_daegu_style text))
  /\ (forall lower text d,
         parse_flat lower text = Some d -> well_formed d)
  /\ (forall lower text d,
         parse_mass_times_from_text lower text = Some d -> well_formed d).
Proof.
  split; [exact daegu_well_formed|].
  split; [exact flat_well_formed|].
  intros lower text d. unfold parse_mass_times_from_text.
  destruct (_ || _).
  - intros [= <-]. apply daegu_well_formed.
  - apply flat_well_formed.
Qed.

Lemma results_well_formed_witness :
  well_formed
    [(category_key Sunday,
      VEntries [{| time := lit "10:00"; desc := lit "교중" |}]);
     (raw_text_key, VStr (lit "10:00 (교중) 10:00 (교중)"))]
  /\ well_formed
       [(raw_text_key, VStr (lit "[주일미사] 10:00 10:00 (a) 11:00"));
        (category_key Sunday,
         VEntries [{| time := lit "10:00"; desc := [] |};
                   {| time := lit "10:00"; desc := lit "a" |};
                   {| time := lit "11:00"; desc := [] |}])].
Proof.
  destruct results_well_formed as (_ & _ & H).
  split.
  - apply (H ascii_lower (lit "10:00 (교중) 10:00 (교중)")).
    vm_compute. reflexivity.
  - apply (H ascii_lower (lit "[주일미사] 10:00 10:00 (a) 11:00")).
    vm_compute. reflexivity.
Defined.

(* ================================================================== *)
(** * Further properties *)
(* ================================================================== *)

(** ** get_chosung and the tabs of handle_busan *)

Lemma chosung_class_bound (text : pystr) (i : nat) :
  chosung_class text = Some i -> i < 19.
Proof.
  unfold chosung_class. destruct text as [|char rest]; [discriminate|].
  destruct (Z.ltb_spec (Z.of_N char - 44032) 0); [discriminate|].
  destruct (Z.ltb_spec 11171 (Z.of_N char - 44032)); [discriminate|].
  cbn [orb]. intros [= <-].
  assert ((Z.of_N char - 44032) / 588 < 19)%Z
    by (apply Z.div_lt_upper_bound; lia).
  assert (0 <= (Z.of_N char - 44032) / 588)%Z
    by (apply Z.div_pos; lia).
  lia.
Qed.

Lemma chosung_class_hangul (text : pystr) :
  chosung_class text = None <-> hangul_first text = false.
Proof.
  unfold chosung_class, hangul_first. destruct text as [|char rest];
    [tauto|].
  destruct (Z.ltb_spec (Z.of_N char - 44032) 0);
    destruct (Z.ltb_spec 11171 (Z.of_N char - 44032));
    destruct (N.leb_spec 44032 char); destruct (N.leb_spec char 55203);
    cbn [orb andb]; split; intros; try reflexivity; try discriminate; lia.
Qed.

(** X1: [get_chosung] gives a consonant exactly when the text starts
    with a Hangul syllable; the lookup in [CHOSUNG] stays inside the
    list, the consonant is the leading consonant of the syllable, and
    the mapping of [handle_busan] has a tab below 14 for it.  So
    [handle_busan] gives up at this step exactly for a name that, with
    ["성당"] removed and stripped, is empty or starts with another
    character. *)
Theorem chosung_tabs :
  (forall text, get_chosung text = None <-> hangul_first text = false)
  /\ (forall l v t rest,
         l < 19 -> v < 21 -> t < 28 ->
         get_chosung (syllable l v t :: rest) = nth_error CHOSUNG l)
  /\ (forall text c,
         get_chosung text = Some c ->
         exists tab, mapping_get busan_mapping (Some c) = Some tab /\ tab < 14)
  /\ (forall church_name,
         busan_index church_name = None
         <-> hangul_first (strip_by is_space (replace church_name church_word []))
             = false).
Proof.
  assert (Hget : forall text i,
             chosung_class text = Some i ->
             exists c tab, get_chosung text = Some c
                           /\ mapping_get busan_mapping (Some c) = Some tab
                           /\ tab < 14).
  { intros text i H. pose proof (chosung_class_bound text H) as Hi.
    unfold get_chosung. rewrite H.
    do 19 (destruct i as [|i];
           [eexists; eexists; split; [reflexivity|];
            split; [vm_compute; reflexivity | lia]|]).
    lia. }
  assert (Hnone : forall text, get_chosung text = None
                               <-> hangul_first text = false).
  { intros text. rewrite <- chosung_class_hangul.
    destruct (chosung_class text) as [i|] eqn:E.
    - destruct (Hget text i E) as (c & tab & Hc & _). rewrite Hc.
      split; discriminate.
    - unfold get_chosung. rewrite E. tauto. }
  split; [exact Hnone|].
  split.
  { intros l v t rest Hl Hv Ht. unfold get_chosung, chosung_class, syllable.
    assert (E : (Z.of_N (44032 + (N.of_nat l * 21 + N.of_nat v) * 28
                         + N.of_nat t) - 44032
                 = Z.of_nat l * 588 + Z.of_nat (v * 28 + t))%Z) by lia.
    rewrite E.
    destruct (Z.ltb_spec (Z.of_nat l * 588 + Z.of_nat (v * 28 + t)) 0);
      [lia|].
    destruct (Z.ltb_spec 11171 (Z.of_nat l * 588 + Z.of_nat (v * 28 + t)));
      [lia|].
    cbn [orb].
    rewrite Z.div_add_l by lia.
    rewrite Z.div_small by lia.
    rewrite Z.add_0_r, Nat2Z.id. reflexivity. }
  split.
  { intros text c H. destruct (chosung_class text) as [i|] eqn:E.
    - destruct (Hget text i E) as (c' & tab & Hc & Hm & Hlt).
      exists tab. split; [congruence | assumption].
    - unfold get_chosung in H. rewrite E in H. discriminate. }
  intros church_name. unfold busan_index.
  rewrite <- Hnone.
  destruct (get_chosung _) as [c|] eqn:E.
  - destruct (chosung_class (strip_by is_space (replace church_name church_word [])))
      as [i|] eqn:Ec.
    + destruct (Hget _ i Ec) as (c' & tab & Hc & Hm & _).
      assert (c' = c) by congruence. subst c'. rewrite Hm.
      split; discriminate.
    + unfold get_chosung in E. rewrite Ec in E. discriminate.
  - split; reflexivity.
Qed.

Lemma chosung_tabs_witness :
  get_chosung (lit "광안") = Some (lit "ㄱ")
  /\ (exists tab, mapping_get busan_mapping (Some (lit "ㅆ")) = Some tab /\ tab < 14)
  /\ busan_index (lit "St. Mary 성당") = None.
Proof.
  destruct chosung_tabs as (_ & Hsyl & Htab & Hidx).
  split; [|split].
  - apply (Hsyl 0 9 21 (lit "안")); lia.
  - apply (Htab (lit "쌍문")). vm_compute. reflexivity.
  - apply Hidx. vm_compute. reflexivity.
Defined.

(** ** normalize_time applied again *)

Lemma hhmm_format (hour minute : Z) :
  (0 <= hour < 100)%Z -> (0 <= minute < 100)%Z ->
  PyInt.format_02d hour ++ [Lit.colon] ++ PyInt.format_02d minute
  = hhmm hour minute.
Proof.
  intros Hh Hm. unfold hhmm. rewrite !format_02d_two_digits by lia.
  reflexivity.
Qed.

(** X2: for a string read as an hour of the day and a minute, the
    output of [normalize_time] with ["오후"] is read back as an hour from
    12 on (the hours before noon moved by twelve, the others kept) and
    the same minute, the output with ["오전"] as the same hour with 12
    turned into 0; and normalizing the output once more with the same
    meridiem changes nothing. *)
Theorem normalize_time_stable (time_str : pystr) (hour minute : Z) :
  split_hour_minute time_str = Some (hour, minute) ->
  (0 <= hour < 24)%Z -> (0 <= minute < 60)%Z ->
  split_hour_minute (normalize_time time_str (Some Lit.pm))
  = Some (pm_hour hour, minute)
  /\ (12 <= pm_hour hour < 24)%Z
  /\ split_hour_minute (normalize_time time_str (Some Lit.am))
     = Some (am_hour hour, minute)
  /\ am_hour hour <> 12%Z
  /\ normalize_time (normalize_time time_str (Some Lit.pm)) (Some Lit.pm)
     = normalize_time time_str (Some Lit.pm)
  /\ normalize_time (normalize_time time_str (Some Lit.am)) (Some Lit.am)
     = normalize_time time_str (Some Lit.am).
Proof.
  intros H Hh Hm.
  assert (Hpm : (12 <= pm_hour hour < 24)%Z)
    by (unfold pm_hour; destruct (Z.ltb_spec hour 12); lia).
  assert (Ham : (0 <= am_hour hour < 24)%Z /\ am_hour hour <> 12%Z)
    by (unfold am_hour; destruct (Z.eqb_spec hour 12); lia).
  destruct Ham as [Ham Ham'].
  assert (Epm : normalize_time time_str (Some Lit.pm) = hhmm (pm_hour hour) minute).
  { rewrite (normalize_time_pm time_str H). apply hhmm_format; lia. }
  assert (Eam : normalize_time time_str (Some Lit.am) = hhmm (am_hour hour) minute).
  { rewrite (normalize_time_am time_str H). apply hhmm_format; lia. }
  destruct (clock_reads_back (hour := pm_hour hour) (minute := minute))
    as [_ Rpm]; [lia | lia |].
  destruct (clock_reads_back (hour := am_hour hour) (minute := minute))
    as [_ Ram]; [lia | lia |].
  rewrite Epm, Eam.
  split; [exact Rpm|]. split; [exact Hpm|].
  split; [exact Ram|]. split; [exact Ham'|].
  split.
  - rewrite (normalize_time_pm _ Rpm).
    destruct (Z.ltb_spec (pm_hour hour) 12); [lia|].
    apply hhmm_format; lia.
  - rewrite (normalize_time_am _ Ram).
    destruct (Z.eqb_spec (am_hour hour) 12); [lia|].
    apply hhmm_format; lia.
Qed.

Lemma normalize_time_stable_witness :
  split_hour_minute (normalize_time (lit "7:30") (Some Lit.pm))
  = Some (19%Z, 30%Z)
  /\ normalize_time (normalize_time (lit "12:10") (Some Lit.am)) (Some Lit.am)
     = normalize_time (lit "12:10") (Some Lit.am).
Proof.
  split.
  - apply (normalize_time_stable (lit "7:30") (hour := 7) (minute := 30));
      [vm_compute; reflexivity | lia | lia].
  - apply (normalize_time_stable (lit "12:10") (hour := 12) (minute := 10));
      [vm_compute; reflexivity | lia | lia].
Defined.

(** ** Ranges that end on Sunday *)

(** X3: a range from a day before Sunday to Sunday, whichever way
    Sunday is written, expands to the days from its start to Saturday and
    then to both spellings of Sunday, ["일"] and ["주일"]: one element
    more than the slice of the cycle. *)
Theorem expand_days_to_sunday_twice (a sunday : pystr) (i : nat) :
  cycle_pos a = Some i -> i < 6 ->
  sunday = Lit.il \/ sunday = Lit.juil ->
  expand_days (range_expr a sunday) = slice cycle i 6 ++ [Lit.il; Lit.juil]
  /\ length (expand_days (range_expr a sunday))
     = S (length (slice cycle i 7)).
Proof.
  intros Ha Hi Hs. apply cycle_pos_cases in Ha. simpl in Ha.
  repeat match goal with
         | H : _ \/ _ |- _ => destruct H as [H|H]
         | H : (_, _) = (_, _) |- _ => inversion H; clear H; subst
         | H : False |- _ => destruct H
         end;
    try lia; split; vm_compute; reflexivity.
Qed.

Lemma expand_days_to_sunday_twice_witness :
  expand_days (range_expr Lit.fri Lit.il)
  = [Lit.fri; Lit.sat; Lit.il; Lit.juil].
Proof.
  apply (@expand_days_to_sunday_twice Lit.fri Lit.il 4);
    [reflexivity | lia | left; reflexivity].
Defined.

(** ** What the removal of duplicates keeps *)

Lemma dedup_In (items : list Entry) (seen : list pystr) (e : Entry) :
  In e (dedup seen items) -> In e items.
Proof.
  revert seen; induction items as [|item items IH]; intros seen;
    cbn [dedup]; [tauto|].
  destruct (mem_str _ seen).
  - intros H. right. eapply IH; eassumption.
  - intros [H|H]; [left; assumption | right; eapply IH; eassumption].
Qed.

Lemma dedup_covers (items : list Entry) (seen : list pystr) (e : Entry) :
  In e items ->
  In (key_of e) seen
  \/ exists e', In e' (dedup seen items) /\ key_of e' = key_of e.
Proof.
  revert seen; induction items as [|item items IH]; intros seen;
    cbn [dedup]; [intros []|].
  fold (key_of item).
  intros [<-|Hin].
  - destruct (mem_str (key_of item) seen) eqn:M.
    + left. apply mem_str_In. assumption.
    + right. exists item. split; [left; reflexivity | reflexivity].
  - destruct (mem_str (key_of item) seen) eqn:M.
    + apply IH. assumption.
    + destruct (IH (key_of item :: seen) Hin) as [[Hk|Hs]|(e' & He' & Hk)].
      * right. exists item. split; [left; reflexivity | assumption].
      * left. assumption.
      * right. exists e'. split; [right; assumption | assumption].
Qed.

Lemma dedup_fixed (items : list Entry) (seen : list pystr) :
  NoDup (map key_of items) ->
  (forall e, In e items -> ~ In (key_of e) seen) ->
  dedup seen items = items.
Proof.
  revert seen; induction items as [|item items IH]; intros seen Hnd Hfresh;
    cbn [dedup]; [reflexivity|].
  fold (key_of item).
  assert (M : mem_str (key_of item) seen = false)
    by (apply mem_str_not_In, Hfresh; left; reflexivity).
  rewrite M. f_equal.
  cbn [map] in Hnd. apply NoDup_cons_iff in Hnd as [Hnot Hnd].
  apply IH; [assumption|].
  intros e He [Hk|Hs].
  - apply Hnot. rewrite Hk. apply in_map. assumption.
  - apply (Hfresh e); [right; assumption | assumption].
Qed.

(** X4: the loop that removes duplicates only drops entries: what it
    returns was in the list, every entry of the list has an entry of the
    same key in what it returns, a list without repeated keys comes back
    as it is, and running the loop on its own output changes nothing. *)
Theorem dedup_keeps_schedule :
  (forall items e, In e (dedup [] items) -> In e items)
  /\ (forall items e,
         In e items ->
         exists e', In e' (dedup [] items) /\ key_of e' = key_of e)
  /\ (forall items, NoDup (map key_of items) -> dedup [] items = items)
  /\ (forall items, dedup [] (dedup [] items) = dedup [] items).
Proof.
  split; [intros items e; apply dedup_In|].
  split.
  { intros items e H. destruct (dedup_covers items [] e H) as [[]|H']; exact H'. }
  split.
  { intros items H. apply dedup_fixed; [assumption | intros e _ []]. }
  intros items. apply dedup_fixed; [apply dedup_fresh | intros e _ []].
Qed.

Lemma dedup_keeps_schedule_witness :
  dedup [] [{| time := lit "10:00"; desc := lit "교중" |};
            {| time := lit "11:00"; desc := lit "교중" |}]
  = [{| time := lit "10:00"; desc := lit "교중" |};
     {| time := lit "11:00"; desc := lit "교중" |}]
  /\ exists e', In e' (dedup [] [{| time := lit "10:00"; desc := lit "a" |};
                                 {| time := lit "10:00"; desc := lit "a" |}])
                /\ key_of e' = lit "10:00|a".
Proof.
  destruct dedup_keeps_schedule as (_ & Hcover & Hfixed & _).
  split.
  - apply Hfixed. vm_compute.
    constructor; [intros [H|[]]; discriminate H|].
    constructor; [intros []|constructor].
  - apply (Hcover _ {| time := lit "10:00"; desc := lit "a" |}).
    left. reflexivity.
Defined.

(** ** The raw text of a result *)

Lemma raw_text_first (text : pystr) (rest : pydict) :
  dict_get ((raw_text_key, VStr (firstn 500 text)) :: rest) raw_text_key
  = Some (VStr (firstn 500 text)).
Proof. cbn [dict_get]. rewrite eqb_refl. reflexivity. Qed.

Lemma flat_raw_text (lower : pystr -> pystr) (text : pystr) (d : pydict) :
  parse_flat lower text = Some d ->
  dict_get d raw_text_key = Some (VStr (firstn 500 text)).
Proof.
  unfold parse_flat. rewrite flat_result_length.
  destruct text as [|c text].
  - rewrite no_category_of_empty_text. discriminate.
  - destruct (_ <? _)%nat; [|discriminate].
    intros H.
    assert (E : d = drop_empty (deduplicated lower (c :: text))) by congruence.
    subst d; clear H.
    unfold drop_empty, deduplicated, categories.
    cbn [map filter app fst snd category_key].
    repeat match goal with
           | |- context [truthy (VEntries ?l)] => destruct (truthy (VEntries l))
           end;
      reflexivity.
Qed.

(** X5: every result of the parser, from either strategy, has under
    ["raw_text"] the first 500 characters of the text it parsed: a prefix
    of the text, never longer than 500, and the whole text when the text
    is that short. *)
Theorem raw_text_excerpt (lower : pystr -> pystr) (text : pystr) (d : pydict) :
  parse_mass_times_from_text lower text = Some d ->
  exists raw rest,
    dict_get d raw_text_key = Some (VStr raw)
    /\ text = raw ++ rest
    /\ length raw <= 500
    /\ (length text <= 500 -> raw = text).
Proof.
  intros H. exists (firstn 500 text), (skipn 500 text).
  split.
  - unfold parse_mass_times_from_text in H. destruct (_ || _).
    + assert (E : d = _parse_daegu_style text) by congruence.
      subst d. apply raw_text_first.
    + apply (flat_raw_text lower). assumption.
  - split; [symmetry; apply firstn_skipn|].
    split; [apply firstn_le_length|].
    apply firstn_all2.
Qed.

Lemma raw_text_excerpt_witness :
  exists raw rest,
    dict_get [(category_key Saturday,
               VEntries [{| time := lit "18:00"; desc := lit "특전" |}]);
              (raw_text_key, VStr (lit "18:00 (특전)"))]
             raw_text_key
    = Some (VStr raw)
    /\ lit "18:00 (특전)" = raw ++ rest
    /\ length raw <= 500
    /\ (length (lit "18:00 (특전)") <= 500 -> raw = lit "18:00 (특전)").
Proof.
  apply (@raw_text_excerpt ascii_lower (lit "18:00 (특전)")).
  vm_compute. reflexivity.
Defined.

(** ** Strategy B: where the lines that start with a day go *)

Lemma fold_left_pointwise {A B} (f g : A -> B -> A) (l : list B) (a : A) :
  (forall x y, In y l -> f x y = g x y) ->
  fold_left f l a = fold_left g l a.
Proof.
  revert a; induction l as [|y l IH]; intros a H; [reflexivity|].
  cbn [fold_left]. rewrite (H a y) by (left; reflexivity).
  apply IH. intros x z Hz. apply H. right. assumption.
Qed.

Lemma classify_by_day (lower : pystr -> pystr) (d : pystr)
      (result : Buckets Entry) (entry : Entry) :
  lower d = d -> In d Flat.days ->
  _classify_mass lower result entry d
  = bucket_append result (day_category d) entry.
Proof.
  intros Hl Hd. unfold _classify_mass. rewrite Hl.
  cbn [Flat.days In] in Hd.
  repeat match goal with
         | H : _ \/ _ |- _ => destruct H as [H|H]
         | H : False |- _ => destruct H
         end; subst d; reflexivity.
Qed.

(** X6: pattern 2 of the flat parser, on a line whose first matching day
    of [days] is [d], appends one entry for every time on the line, all
    to the category of [d]: the weekday category for ["월"] to ["금"],
    Saturday for ["토"], Sunday for ["주일"], and for ["일"], so for a
    line that starts with ["일요일"], the category ["기타"].  ([lower]
    is taken to leave the day names as they are.) *)
Theorem day_lines_by_day (lower : pystr -> pystr) (result : Buckets Entry)
        (line d : pystr) :
  (forall w, In w Flat.days -> lower w = w) ->
  find (fun d => startswith (strip_by is_space line) d) Flat.days = Some d ->
  classify_line lower result line
  = fold_left (fun r t => bucket_append r (day_category d) (line_entry d t))
              (Re.findall Re.time_at (strip_by is_space line)) result
  /\ (d = Lit.il -> day_category d = Other).
Proof.
  intros Hlower Hfind. split; [|intros ->; reflexivity].
  pose proof (find_some _ _ Hfind) as [Hin Hstart].
  unfold classify_line. cbv zeta. rewrite Hfind.
  assert (Hne : nonempty (strip_by is_space line) = true).
  { destruct (strip_by is_space line); [|reflexivity].
    cbn [Flat.days In] in Hin.
    repeat match goal with
           | H : _ \/ _ |- _ => destruct H as [H|H]
           | H : False |- _ => destruct H
           end; subst d; discriminate Hstart. }
  rewrite Hne. cbn [negb].
  assert (Hex : existsb (fun d0 => startswith (strip_by is_space line) d0)
                        Flat.days = true)
    by (apply existsb_exists; exists d; split; assumption).
  rewrite Hex. cbn [orb].
  destruct (Re.findall Re.time_at (strip_by is_space line)) as [|t ts] eqn:E;
    [reflexivity|].
  apply fold_left_pointwise. intros r t' _.
  apply classify_by_day; [apply Hlower|]; assumption.
Qed.

Lemma day_lines_by_day_witness :
  classify_line ascii_lower no_buckets (lit "일요일 9:00 11:00")
  = fold_left (fun r t => bucket_append r Other (line_entry Lit.il t))
              [lit "9:00"; lit "11:00"] no_buckets.
Proof.
  refine (proj1 (@day_lines_by_day ascii_lower no_buckets
                   (lit "일요일 9:00 11:00") Lit.il _ _)).
  - intros w Hw. cbn [Flat.days In] in Hw.
    repeat match goal with
           | H : _ \/ _ |- _ => destruct H as [H|H]
           | H : False |- _ => destruct H
           end; subst w; reflexivity.
  - vm_compute. reflexivity.
Defined.

(** ** Strategy B: no time lost before the duplicates go *)

Lemma bucket_append_count {A} (b : Buckets A) (c : category) (x : A) :
  entry_count (bucket_append b c x) = S (entry_count b).
Proof.
  unfold entry_count. destruct c; cbn [bucket_append sunday weekday saturday other];
    rewrite length_app; simpl; lia.
Qed.

Lemma classify_mass_count (lower : pystr -> pystr) (b : Buckets Entry)
      (e : Entry) (k : pystr) :
  entry_count (_classify_mass lower b e k) = S (entry_count b).
Proof.
  unfold _classify_mass.
  repeat match goal with
         | |- context [if ?c then _ else _] => destruct c
         end; apply bucket_append_count.
Qed.

Lemma fold_left_count {B} (f : Buckets Entry -> B -> Buckets Entry)
      (l : list B) (b : Buckets Entry) :
  (forall r y, entry_count (f r y) = S (entry_count r)) ->
  entry_count (fold_left f l b) = entry_count b + length l.
Proof.
  intros H. revert b; induction l as [|y l IH]; intros b; cbn [fold_left length].
  - lia.
  - rewrite IH, H. lia.
Qed.

Lemma classify_line_count (lower : pystr -> pystr) (b : Buckets Entry)
      (line : pystr) :
  entry_count (classify_line lower b line)
  = entry_count b + length (day_line_times line).
Proof.
  unfold classify_line, day_line_times. cbv zeta.
  set (l := strip_by is_space line).
  assert (Hor : existsb (fun d => startswith l (d ++ Flat.yoil)) Flat.days = true ->
                existsb (fun d => startswith l d) Flat.days = true).
  { rewrite !existsb_exists. intros (d & Hd & Hs). exists d.
    split; [assumption | eapply startswith_app_l; eassumption]. }
  destruct (nonempty l) eqn:Hne; cbn [negb].
  - destruct (existsb (fun d => startswith l d) Flat.days) eqn:E1; cbn [orb].
    + destruct (Re.findall Re.time_at l) as [|t ts] eqn:Et;
        [cbn [length]; lia|].
      apply fold_left_count. intros r y. apply classify_mass_count.
    + destruct (existsb (fun d => startswith l (d ++ Flat.yoil)) Flat.days);
        [specialize (Hor eq_refl); discriminate | cbn [length]; lia].
  - destruct l; [|discriminate].
    destruct (existsb _ Flat.days); cbn [length]; [|lia].
    cbn. lia.
Qed.

(** X7: before the duplicates are removed, the four lists of the flat
    parser hold one entry for every match of pattern 1 in the text and
    one for every time on a line that starts with a day: each is
    classified once and none is dropped. *)
Theorem flat_entries_counted (lower : pystr -> pystr) (text : pystr) :
  entry_count (classified lower text)
  = length (Re.findall Re.timed_desc_at text)
    + length (flat_map day_line_times (split Lit.newline text)).
Proof.
  unfold classified.
  assert (H1 : entry_count
                 (fold_left (classify_timed lower)
                            (Re.findall Re.timed_desc_at text) no_buckets)
               = length (Re.findall Re.timed_desc_at text)).
  { rewrite fold_left_count; [reflexivity|].
    intros r [t d]. apply classify_mass_count. }
  revert H1.
  generalize (fold_left (classify_timed lower)
                        (Re.findall Re.timed_desc_at text) no_buckets).
  generalize (length (Re.findall Re.timed_desc_at text)).
  induction (split Lit.newline text) as [|line lines IH]; intros n b Hb;
    cbn [fold_left flat_map].
  - cbn [length]. lia.
  - rewrite length_app.
    rewrite (IH (n + length (day_line_times line))).
    + lia.
    + rewrite classify_line_count. lia.
Qed.

(** ** Which inferred dioceses have a handler *)

Ltac pick_row :=
  cbn [In]; repeat first [left; reflexivity | right].

(** X8: whatever the address, [infer_diocese] gives one of thirteen
    dioceses or the empty string, and the dispatcher has a handler for
    five of them only: 서울, 대구, 부산, 인천 and 수원. *)
Theorem inferred_dispatch (address : pystr) :
  In (infer_diocese address, get_handler (infer_diocese address))
     dispatch_table.
Proof.
  unfold infer_diocese.
  repeat match goal with
         | |- context [if ?c then _ else _] => destruct c
         end;
    unfold dispatch_table; pick_row.
Qed.

(** ** The two lists of a batch *)

Section Lists.

Variable browse : nat -> handler -> pystr -> Post -> outcome.
Variable now : nat -> pystr.

Lemma process_post_extends (run : Run) (idx : nat) (post : Post) :
  exists rs fs,
    extends_by [post] run (process_post browse now run idx post) rs fs.
Proof.
  unfold process_post, extends_by, count_failed.
  destruct (negb (nonempty _) || negb (nonempty _)).
  { exists [], []. rewrite !app_nil_r. cbn [length].
    repeat split; try lia; [intros x [] | constructor]. }
  destruct (get_handler _).
  2:{ exists [], [post]. cbn [repaired_posts failed_posts stats length].
      rewrite app_nil_r.
      repeat split; try lia; [apply incl_refl | constructor]. }
  assert (Hfail : forall st,
             exists rs fs,
               repaired_posts run = repaired_posts run ++ rs
               /\ failed_posts run ++ [post] = failed_posts run ++ fs
               /\ success st = success st + length rs
               /\ failed st + 1 <= failed st + length fs
               /\ total st + 1 <= total st + length [post]
               /\ length rs + length fs <= length [post]
               /\ incl fs [post]
               /\ Forall (fun r => exists p, In p [post] /\ repaired_from p r) rs).
  { intros st. exists [], [post]. rewrite app_nil_r. cbn [length].
    repeat split; try lia; [apply incl_refl | constructor]. }
  destruct (browse _ _ _ _) as [|result_data];
    cbn [repaired_posts failed_posts stats total success failed];
    [apply Hfail|].
  destruct (valid_data result_data) eqn:V;
    cbn [repaired_posts failed_posts stats total success failed];
    [|apply Hfail].
  eexists [_], []. rewrite app_nil_r. cbn [length].
  repeat split; try lia; [intros x [] |].
  constructor; [|constructor].
  exists post. split; [left; reflexivity|].
  unfold repaired_from.
  cbn [church_name diocese address repaired_mass_times repair_source
       repair_timestamp].
  repeat split; try assumption; discriminate.
Qed.

Lemma process_posts_extends (posts : list Post) (run : Run) (idx : nat) :
  exists rs fs,
    extends_by posts run (process_posts browse now run idx posts) rs fs.
Proof.
  revert run idx; induction posts as [|post posts IH]; intros run idx;
    cbn [process_posts].
  - exists [], []. unfold extends_by. rewrite !app_nil_r. cbn [length].
    repeat split; try lia; [intros x [] | constructor].
  - destruct (process_post_extends run idx post)
      as (rs1 & fs1 & R1 & F1 & S1 & C1 & T1 & L1 & I1 & P1).
    destruct (IH (process_post browse now run idx post) (S idx))
      as (rs2 & fs2 & R2 & F2 & S2 & C2 & T2 & L2 & I2 & P2).
    exists (rs1 ++ rs2), (fs1 ++ fs2). unfold extends_by.
    rewrite R2, R1, F2, F1, !app_assoc, !length_app.
    cbn [length] in *.
    repeat split; try lia.
    + intros x Hx. apply in_app_or in Hx as [Hx|Hx].
      * left. destruct (I1 x Hx) as [<-|[]]. reflexivity.
      * right. apply I2. assumption.
    + apply Forall_app. split.
      * eapply Forall_impl; [|exact P1].
        intros r (p & [<-|[]] & Hp). exists post.
        split; [left; reflexivity | assumption].
      * eapply Forall_impl; [|exact P2].
        intros r (p & Hin & Hp). exists p. split; [right; assumption | assumption].
Qed.

End Lists.

(** X9: in the course of a batch every record ends in at most one of
    the two lists.  The failed list grows by records of the batch, as
    they were; the repaired list grows by records of the batch with
    the repair fields set and data the orchestrator took for valid;
    [success] counts exactly the records added to the repaired list,
    [failed] at most those added to the failed list, and [total] at most
    the records of the batch. *)
Theorem batch_lists (browse : nat -> handler -> pystr -> Post -> outcome)
        (now : nat -> pystr) (posts : list Post) (run : Run) (idx : nat) :
  exists rs fs,
    extends_by posts run (process_posts browse now run idx posts) rs fs.
Proof. apply process_posts_extends. Qed.

(** ** What a batch writes *)

Lemma posts_to_process_prefix (posts : list Post) (limit : option Z) :
  exists n, posts_to_process posts limit = firstn n posts
            /\ (forall l, limit = Some l -> (0 < l)%Z -> n = Z.to_nat l).
Proof.
  unfold posts_to_process. destruct limit as [l|].
  - destruct (Z.eqb_spec l 0).
    + exists (length posts). rewrite firstn_all. split; [reflexivity|].
      intros l' [= <-] H. lia.
    + destruct (Z.ltb_spec 0 l).
      * exists (Z.to_nat l). split; [reflexivity|]. intros l' [= <-] _. reflexivity.
      * exists (length posts - Z.to_nat (- l)). split; [reflexivity|].
        intros l' [= <-] H'. lia.
  - exists (length posts). rewrite firstn_all. split; [reflexivity|].
    intros l [=].
Qed.

(** X10: [process_single_file] writes a batch exactly when a record of
    the file succeeded; the batch written is the list of the records
    repaired in this file, as many as [success] went up, each a record
    of the file with the repair fields set.  With a positive [limit],
    [total] goes up by at most [limit] and the two lists together hold
    at most [limit] records. *)
Theorem batch_output (browse : nat -> handler -> pystr -> Post -> outcome)
        (now : nat -> pystr) (st : Stats) (posts : list Post)
        (limit : option Z) :
  let run := fst (process_single_file browse now st posts limit) in
  let saved := snd (process_single_file browse now st posts limit) in
  (saved = None <-> success (stats run) = success st)
  /\ (forall batch,
         saved = Some batch ->
         batch = repaired_posts run
         /\ length batch = success (stats run) - success st
         /\ Forall (fun r => exists p, In p posts /\ repaired_from p r) batch)
  /\ (forall l, limit = Some l -> (0 < l)%Z ->
                total (stats run) <= total st + Z.to_nat l
                /\ length (repaired_posts run) + length (failed_posts run)
                   <= Z.to_nat l).
Proof.
  unfold process_single_file. cbn [fst snd].
  destruct (process_posts_extends browse now (posts_to_process posts limit)
              {| stats := st; repaired_posts := []; failed_posts := [] |} 0)
    as (rs & fs & R & F & S & C & T & L & I & P).
  cbn [repaired_posts failed_posts stats app] in R, F, S, C, T.
  set (run := process_posts browse now _ 0 (posts_to_process posts limit))
    in *.
  destruct (posts_to_process_prefix posts limit) as (n & Hn & Hlimit).
  assert (Hsub : forall p, In p (posts_to_process posts limit) -> In p posts).
  { intros p Hp. rewrite Hn in Hp.
    rewrite <- (firstn_skipn n posts). apply in_or_app. left. assumption. }
  split.
  { rewrite R, S. destruct rs; cbn [length]; split; intros H;
      try reflexivity; try discriminate; lia. }
  split.
  { intros batch Hb.
    assert (E : batch = repaired_posts run)
      by (destruct (repaired_posts run); [discriminate | congruence]).
    subst batch. split; [reflexivity|]. rewrite R.
    split; [lia|].
    eapply Forall_impl; [|exact P].
    intros r (p & Hp & Hr). exists p. split; [apply Hsub|]; assumption. }
  intros l Hl Hpos. specialize (Hlimit l Hl Hpos). subst n.
  assert (Hlen : length (posts_to_process posts limit) <= Z.to_nat l)
    by (rewrite Hn; apply firstn_le_length).
  rewrite R, F. split; lia.
Qed.

(** ** A whole run *)

Section WholeRun.

Variable browse_in : nat -> nat -> handler -> pystr -> Post -> outcome.
Variable now_in : nat -> nat -> pystr.
Variable limit : option Z.

Lemma process_file_step (st : Stats) (written : list (list Post)) (n : nat)
      (file : option (list Post)) :
  let '(st', written', n') :=
    process_file browse_in now_in limit (st, written, n) file in
  stats_le st st'
  /\ (balanced st -> balanced st')
  /\ total st' <= total st + match file with
                             | Some posts => length posts
                             | None => 0
                             end
  /\ (exists new, written' = new ++ written
                  /\ length new <= match file with Some _ => 1 | None => 0 end
                  /\ Forall (fun batch => batch <> []) new)
  /\ (file = None -> st' = st /\ written' = written).
Proof.
  unfold process_file. destruct file as [posts|].
  - destruct (process_single_file (browse_in n) (now_in n) st posts limit)
      as [run saved] eqn:E.
    assert (Hstats : stats_le st (stats run)
                     /\ (balanced st -> balanced (stats run))).
    { pose proof (process_posts_stats (browse_in n) (now_in n)
                    (posts_to_process posts limit)
                    {| stats := st; repaired_posts := []; failed_posts := [] |}
                    0) as H.
      unfold process_single_file in E. injection E as <- _. exact H. }
    assert (Htotal : total (stats run) <= total st + length posts).
    { destruct (process_posts_extends (browse_in n) (now_in n)
                  (posts_to_process posts limit)
                  {| stats := st; repaired_posts := []; failed_posts := [] |}
                  0) as (rs & fs & _ & _ & _ & _ & T & _).
      unfold process_single_file in E. injection E as <- _.
      cbn [stats] in T.
      destruct (posts_to_process_prefix posts limit) as (k & Hk & _).
      rewrite Hk in *. rewrite length_firstn in T. lia. }
    destruct Hstats as [Hle Hbal].
    split; [exact Hle|]. split; [exact Hbal|]. split; [exact Htotal|].
    split; [|discriminate].
    destruct saved as [batch|].
    + exists [batch]. split; [reflexivity|]. split; [cbn; lia|].
      constructor; [|constructor].
      unfold process_single_file in E. injection E as <- Hs.
      destruct (repaired_posts _); [discriminate|]. injection Hs as <-.
      discriminate.
    + exists []. split; [reflexivity|]. split; [cbn; lia | constructor].
  - unfold stats_le. split; [lia|]. split; [tauto|]. split; [lia|].
    split; [|tauto].
    exists []. split; [reflexivity|]. split; [cbn; lia | constructor].
Qed.

Lemma process_files_fold (files : list (option (list Post))) (st : Stats)
      (written : list (list Post)) (n : nat) :
  let '(st', written', _) :=
    fold_left (process_file browse_in now_in limit) files (st, written, n) in
  stats_le st st'
  /\ (balanced st -> balanced st')
  /\ total st' <= total st + records_read files
  /\ (exists new, written' = new ++ written
                  /\ length new <= length (filter (fun f => match f with
                                                            | Some _ => true
                                                            | None => false
                                                            end) files)
                  /\ Forall (fun batch => batch <> []) new)
  /\ (Forall (fun f => f = None) files -> st' = st /\ written' = written).
Proof.
  revert st written n; induction files as [|file files IH];
    intros st written n; cbn [fold_left].
  - unfold stats_le, records_read. cbn [map list_sum filter length].
    split; [lia|]. split; [tauto|]. split; [lia|]. split; [|tauto].
    exists []. split; [reflexivity|]. split; [cbn; lia | constructor].
  - pose proof (process_file_step st written n file) as Hstep.
    destruct (process_file browse_in now_in limit (st, written, n) file)
      as [[st1 written1] n1].
    destruct Hstep as (Hle1 & Hbal1 & Ht1 & (new1 & Hw1 & Hl1 & Hn1) & Hnone1).
    specialize (IH st1 written1 n1).
    destruct (fold_left _ files (st1, written1, n1)) as [[st2 written2] n2].
    destruct IH as (Hle2 & Hbal2 & Ht2 & (new2 & Hw2 & Hl2 & Hn2) & Hnone2).
    split; [unfold stats_le in *; lia|].
    split; [auto|].
    split.
    { unfold records_read in *. cbn [map]. unfold list_sum in *.
      cbn [fold_right]. lia. }
    split.
    { exists (new2 ++ new1). rewrite Hw2, Hw1, app_assoc.
      split; [reflexivity|]. rewrite length_app.
      split; [|apply Forall_app; split; assumption].
      cbn [filter]. destruct file; cbn [length]; lia. }
    intros Hall. apply Forall_cons_iff in Hall as [Hf Hall].
    destruct (Hnone1 Hf) as [-> ->]. apply Hnone2. assumption.
Qed.

End WholeRun.

(** X11: over a whole run of [process_files], the files that failed
    before first, the counters stay balanced and never go down, [total]
    goes up by at most the number of records read, at most one batch is
    written for each file that could be read and none of them is empty;
    files that cannot be read change nothing and write nothing. *)
Theorem whole_run
        (browse_in : nat -> nat -> handler -> pystr -> Post -> outcome)
        (now_in : nat -> nat -> pystr) (limit : option Z) (st : Stats)
        (failed_batches fresh_batches : list (option (list Post))) :
  let st' := fst (process_files browse_in now_in st failed_batches
                                fresh_batches limit) in
  let written := snd (process_files browse_in now_in st failed_batches
                                    fresh_batches limit) in
  stats_le st st'
  /\ (balanced st -> balanced st')
  /\ total st' <= total st + records_read (failed_batches ++ fresh_batches)
  /\ length written
     <= length (filter (fun f => match f with Some _ => true | None => false end)
                       (failed_batches ++ fresh_batches))
  /\ Forall (fun batch => batch <> []) written
  /\ (Forall (fun f => f = None) (failed_batches ++ fresh_batches) ->
      st' = st /\ written = []).
Proof.
  unfold process_files.
  pose proof (process_files_fold browse_in now_in limit
                (failed_batches ++ fresh_batches) st [] 0) as H.
  destruct (fold_left _ (failed_batches ++ fresh_batches) (st, [], 0))
    as [[st' written] n].
  cbn [fst snd].
  destruct H as (Hle & Hbal & Ht & (new & Hw & Hl & Hn) & Hnone).
  rewrite app_nil_r in Hw. subst new.
  split; [exact Hle|]. split; [exact Hbal|]. split; [exact Ht|].
  split; [exact Hl|]. split; [exact Hn | exact Hnone].
Qed.

Lemma whole_run_witness :
  balanced (fst (process_files (fun _ => nothing_found) (fun _ => stub_now)
                               initial_stats [None; Some [myeongdong]]
                               [Some [nameless; jungnimdong]] None))
  /\ fst (process_files (fun _ => nothing_found) (fun _ => stub_now)
                        initial_stats [None] [None; None] None)
     = initial_stats.
Proof.
  split.
  - apply (whole_run (fun _ => nothing_found) (fun _ => stub_now) None
                     initial_stats [None; Some [myeongdong]]
                     [Some [nameless; jungnimdong]]).
    reflexivity.
  - apply (whole_run (fun _ => nothing_found) (fun _ => stub_now) None
                     initial_stats [None] [None; None]).
    repeat constructor.
Defined.

Lemma batch_output_witness :
  length (repaired_posts
            (fst (process_single_file seoul_without_schedule stub_now
                    initial_stats [myeongdong; jungnimdong] (Some 1%Z))))
  + length (failed_posts
              (fst (process_single_file seoul_without_schedule stub_now
                      initial_stats [myeongdong; jungnimdong] (Some 1%Z))))
  <= 1
  /\ snd (process_single_file nothing_found stub_now initial_stats
                              [myeongdong] None)
     = None
  /\ Forall (fun r => exists p, In p [myeongdong] /\ repaired_from p r)
            (repaired_posts
               (fst (process_single_file seoul_without_schedule stub_now
                       initial_stats [myeongdong] None))).
Proof.
  split; [|split].
  - apply (batch_output seoul_without_schedule stub_now initial_stats
                        [myeongdong; jungnimdong] (Some 1%Z) : _ /\ _ /\ _)
      with (l := 1%Z); [reflexivity | lia].
  - apply (batch_output nothing_found stub_now initial_stats
                        [myeongdong] None : _ /\ _ /\ _).
    vm_compute. reflexivity.
  - apply (batch_output seoul_without_schedule stub_now initial_stats
                        [myeongdong] None : _ /\ _ /\ _).
    vm_compute. reflexivity.
Defined.

(** ** What the handlers hand back *)

Lemma dict_get_set_same (d : pydict) (k : pystr) (v : value) :
  dict_get (dict_set d k v) k = Some v.
Proof.
  induction d as [|[k' v'] d IH]; cbn [dict_set dict_get].
  - rewrite eqb_refl. reflexivity.
  - destruct (eqb k' k) eqn:E; cbn [dict_get]; rewrite E; [reflexivity | exact IH].
Qed.

Lemma dict_get_set_other (d : pydict) (k k' : pystr) (v : value) :
  eqb k k' = false -> dict_get (dict_set d k v) k' = dict_get d k'.
Proof.
  intros Hk. induction d as [|[k0 v0] d IH]; cbn [dict_set dict_get].
  - rewrite Hk. reflexivity.
  - destruct (eqb k0 k) eqn:E; cbn [dict_get].
    + apply eqb_eq in E. subst k0. rewrite Hk. reflexivity.
    + rewrite IH. reflexivity.
Qed.

Lemma parsed_raw_text (lower : pystr -> pystr) (text : pystr) (d : pydict) :
  parse_mass_times_from_text lower text = Some d ->
  dict_get d raw_text_key = Some (VStr (firstn 500 text)).
Proof.
  intros H. unfold parse_mass_times_from_text in H. destruct (_ || _).
  - assert (E : d = _parse_daegu_style text) by congruence.
    subst d. apply raw_text_first.
  - apply (flat_raw_text lower). assumption.
Qed.

Lemma with_search_term (d : pydict) (church raw : pystr) :
  dict_get d raw_text_key = Some (VStr raw) ->
  dict_get (dict_set d search_term_key (VStr church)) search_term_key
  = Some (VStr church)
  /\ dict_get (dict_set d search_term_key (VStr church)) raw_text_key
     = Some (VStr raw).
Proof.
  intros H. split; [apply dict_get_set_same|].
  rewrite dict_get_set_other by reflexivity. assumption.
Qed.

(** X12: [handle_seoul], once it holds the text of the page, returns
    [None] exactly when neither the name searched nor ["검색결과"] is on
    the page.  Every dict it returns has the name under
    ["search_term"] and, under ["raw_text"], a prefix of the page of at
    most 1000 characters. *)
Theorem seoul_result_shape (lower : pystr -> pystr)
        (text_content church_name : pystr) :
  (seoul_result lower text_content church_name = None
   <-> contains church_name text_content = false
       /\ contains search_results_word text_content = false)
  /\ (forall d,
         seoul_result lower text_content church_name = Some d ->
         dict_get d search_term_key = Some (VStr church_name)
         /\ exists raw rest,
             dict_get d raw_text_key = Some (VStr raw)
             /\ text_content = raw ++ rest
             /\ length raw <= 1000).
Proof.
  assert (Hin : forall d,
             match parse_mass_times_from_text lower text_content with
             | Some ((_ :: _) as result) =>
               Some (dict_set result search_term_key (VStr church_name))
             | _ =>
               Some [(raw_text_key, VStr (firstn 1000 text_content));
                     (search_term_key, VStr church_name);
                     (parsing_failed_key, VBool true)]
             end = Some d ->
             dict_get d search_term_key = Some (VStr church_name)
             /\ exists raw rest,
                 dict_get d raw_text_key = Some (VStr raw)
                 /\ text_content = raw ++ rest
                 /\ length raw <= 1000).
  { intros d Hd.
    assert (Hfall : dict_get [(raw_text_key, VStr (firstn 1000 text_content));
                              (search_term_key, VStr church_name);
                              (parsing_failed_key, VBool true)]
                             search_term_key = Some (VStr church_name)
                    /\ exists raw rest,
                        dict_get [(raw_text_key, VStr (firstn 1000 text_content));
                                  (search_term_key, VStr church_name);
                                  (parsing_failed_key, VBool true)]
                                 raw_text_key = Some (VStr raw)
                        /\ text_content = raw ++ rest
                        /\ length raw <= 1000).
    { split; [reflexivity|].
      exists (firstn 1000 text_content), (skipn 1000 text_content).
      split; [reflexivity|].
      split; [symmetry; apply firstn_skipn | apply firstn_le_length]. }
    destruct (parse_mass_times_from_text lower text_content)
      as [[|kv r]|] eqn:E.
    - assert (Ed : d = [(raw_text_key, VStr (firstn 1000 text_content));
                        (search_term_key, VStr church_name);
                        (parsing_failed_key, VBool true)]) by congruence.
      subst d. exact Hfall.
    - assert (Ed : d = dict_set (kv :: r) search_term_key (VStr church_name))
        by congruence.
      subst d.
      pose proof (parsed_raw_text lower text_content E) as Hraw.
      destruct (with_search_term (kv :: r) church_name Hraw) as [Hs Hr].
      split; [exact Hs|].
      exists (firstn 500 text_content), (skipn 500 text_content).
      split; [exact Hr|].
      split; [symmetry; apply firstn_skipn|].
      pose proof (firstn_le_length 500 text_content). lia.
    - assert (Ed : d = [(raw_text_key, VStr (firstn 1000 text_content));
                        (search_term_key, VStr church_name);
                        (parsing_failed_key, VBool true)]) by congruence.
      subst d. exact Hfall. }
  unfold seoul_result.
  destruct (contains church_name text_content);
    destruct (contains search_results_word text_content); cbn [negb andb].
  4:{ split; [tauto | discriminate]. }
  all: split; [|exact Hin].
  all: split; [|intros []; discriminate].
  all: destruct (parse_mass_times_from_text lower text_content) as [[|kv r]|];
    discriminate.
Qed.

Lemma seoul_result_shape_witness :
  seoul_result ascii_lower (lit "찾으시는 성당이 없습니다") (lit "명동") = None
  /\ dict_get [(raw_text_key, VStr no_schedule_page);
               (search_term_key, VStr (lit "명동"));
               (parsing_failed_key, VBool true)]
              search_term_key
     = Some (VStr (lit "명동")).
Proof.
  split.
  - apply (seoul_result_shape ascii_lower (lit "찾으시는 성당이 없습니다")
                              (lit "명동")).
    split; vm_compute; reflexivity.
  - apply (seoul_result_shape ascii_lower no_schedule_page (lit "명동")).
    vm_compute. reflexivity.
Defined.

(** ** The text handle_incheon gives to the parser *)

Lemma split_from_cons (sep : pystr) (skip : nat) (s : pystr) :
  exists w ws, split_from sep skip s = w :: ws.
Proof.
  revert skip; induction s as [|c s IH]; intros skip; cbn [split_from].
  - eauto.
  - destruct skip as [|k]; [|apply IH].
    destruct (startswith (c :: s) sep); [eauto|].
    destruct (IH 0) as (w & ws & ->). eauto.
Qed.

Lemma split_head_prefix (sep s first : pystr) (rest : list pystr) :
  split_str s sep = first :: rest -> exists tl, s = first ++ tl.
Proof.
  unfold split_str. revert first rest; induction s as [|c s IH];
    intros first rest; cbn [split_from].
  - intros [= <- _]. exists []. reflexivity.
  - destruct (startswith (c :: s) sep).
    + intros [= <- _]. exists (c :: s). reflexivity.
    + destruct (split_from sep 0 s) as [|w ws] eqn:E.
      * intros [= <- _]. destruct (split_from_cons sep 0 s) as (w & ws & E').
        congruence.
      * intros [= <- _]. destruct (IH w ws eq_refl) as (tl & ->).
        exists tl. reflexivity.
Qed.

Lemma startswith_app (p x q : pystr) :
  startswith p q = true -> startswith (p ++ x) q = true.
Proof.
  revert q; induction p as [|c p IH]; intros q H.
  - destruct q; [destruct x; reflexivity | discriminate].
  - destruct q as [|d q]; [reflexivity|].
    cbn [app startswith] in *. apply andb_true_iff in H as [-> H].
    cbn [andb]. apply IH. assumption.
Qed.

Lemma contains_app (sub p x : pystr) :
  contains sub p = true -> contains sub (p ++ x) = true.
Proof.
  induction p as [|c p IH]; cbn [contains app]; intros H.
  - rewrite orb_false_r in H.
    destruct sub; [|discriminate]. destruct x; reflexivity.
  - apply orb_true_iff in H as [H|H].
    + change (c :: p ++ x) with ((c :: p) ++ x).
      rewrite (startswith_app _ x _ H). reflexivity.
    + rewrite (IH H). apply orb_true_r.
Qed.

Lemma split_head_clean (sep s first : pystr) (rest : list pystr) :
  nonempty sep = true ->
  split_str s sep = first :: rest -> contains sep first = false.
Proof.
  intros Hsep. unfold split_str. revert first rest;
    induction s as [|c s IH]; intros first rest; cbn [split_from].
  - intros [= <- _]. destruct sep; [discriminate | reflexivity].
  - destruct (startswith (c :: s) sep) eqn:Hs.
    + intros [= <- _]. destruct sep; [discriminate | reflexivity].
    + destruct (split_from sep 0 s) as [|w ws] eqn:E.
      * destruct (split_from_cons sep 0 s) as (w & ws & E'). congruence.
      * intros [= <- _]. cbn [contains].
        rewrite (IH w ws eq_refl), orb_false_r.
        destruct (split_head_prefix sep s E) as (tl & Htl).
        destruct (startswith (c :: w) sep) eqn:Hw; [|reflexivity].
        apply (startswith_app _ tl) in Hw.
        cbn [app] in Hw. rewrite <- Htl in Hw. congruence.
Qed.

Lemma split_two_parts (sep s : pystr) :
  nonempty sep = true -> contains sep s = true ->
  exists a b rest, split_str s sep = a :: b :: rest.
Proof.
  intros Hsep. unfold split_str.
  induction s as [|c s IH]; cbn [contains split_from]; intros H.
  - destruct sep; discriminate.
  - destruct (startswith (c :: s) sep).
    + destruct (split_from_cons sep (length sep - 1) s) as (w & ws & ->). eauto.
    + cbn [orb] in H. destruct (IH H) as (a & b & rest & ->). eauto.
Qed.

Lemma cut_at_prefix (x t : pystr) : exists tl, x = cut_at x t ++ tl.
Proof.
  unfold cut_at. destruct (contains t x).
  - destruct (split_str x t) as [|first rest] eqn:E.
    + exists x. reflexivity.
    + apply (split_head_prefix t x E).
  - exists []. rewrite app_nil_r. reflexivity.
Qed.

Lemma cut_at_clean (x t : pystr) :
  nonempty t = true -> contains t (cut_at x t) = false.
Proof.
  intros Ht. unfold cut_at. destruct (contains t x) eqn:E; [|assumption].
  destruct (split_str x t) as [|first rest] eqn:Es.
  - destruct t; [discriminate | reflexivity].
  - apply (split_head_clean t x Ht Es).
Qed.

Lemma cut_at_keeps_clean (x t u : pystr) :
  contains u x = false -> contains u (cut_at x t) = false.
Proof.
  intros H. destruct (cut_at_prefix x t) as (tl & Hx).
  destruct (contains u (cut_at x t)) eqn:E; [|reflexivity].
  apply (contains_app _ _ tl) in E. rewrite <- Hx in E. congruence.
Qed.

Lemma cuts_clean (ts done : list pystr) (x : pystr) :
  Forall (fun t => nonempty t = true) ts ->
  Forall (fun t => contains t x = false) done ->
  Forall (fun t => contains t (fold_left cut_at ts x) = false) (done ++ ts).
Proof.
  revert done x; induction ts as [|t ts IH]; intros done x Hne Hdone;
    cbn [fold_left].
  - rewrite app_nil_r. assumption.
  - apply Forall_cons_iff in Hne as [Ht Hne].
    change (done ++ t :: ts) with (done ++ [t] ++ ts). rewrite app_assoc.
    apply IH; [assumption|].
    apply Forall_app. split.
    + eapply Forall_impl; [|exact Hdone].
      intros u Hu. apply cut_at_keeps_clean. assumption.
    + constructor; [apply cut_at_clean; assumption | constructor].
Qed.

(** X13: [handle_incheon] hands a text to the parser exactly when the
    page has ["미사안내"] on it, and that text contains none of the
    headings that end the section (["비고"], ["본당 소식"], ["수도회"],
    ["관할구역"]).  Whatever the page, the handler then returns a dict
    with the church name under ["search_term"] and a raw text, which the
    orchestrator takes for valid data. *)
Theorem incheon_section (lower : pystr -> pystr) (body_text church_name : pystr) :
  (incheon_target body_text = None <-> contains mass_guide body_text = false)
  /\ (forall target_text,
         incheon_target body_text = Some target_text ->
         Forall (fun t => contains t target_text = false) terminators)
  /\ dict_get (incheon_result lower body_text church_name) search_term_key
     = Some (VStr church_name)
  /\ (exists raw,
         dict_get (incheon_result lower body_text church_name) raw_text_key
         = Some (VStr raw))
  /\ valid_data (Some (incheon_result lower body_text church_name)) = true.
Proof.
  split.
  { unfold incheon_target. destruct (contains mass_guide body_text) eqn:E;
      [|tauto].
    destruct (split_two_parts mass_guide body_text eq_refl E)
      as (a & b & rest & ->).
    split; discriminate. }
  split.
  { intros target_text. unfold incheon_target.
    destruct (contains mass_guide body_text); [|discriminate].
    destruct (split_str body_text mass_guide) as [|a [|b rest]];
      try discriminate.
    intros [= <-].
    apply (@cuts_clean terminators [] b); [|constructor].
    repeat constructor. }
  assert (Hfall : dict_get (incheon_fallback body_text church_name)
                           search_term_key = Some (VStr church_name)
                  /\ (exists raw,
                         dict_get (incheon_fallback body_text church_name)
                                  raw_text_key = Some (VStr raw))
                  /\ valid_data (Some (incheon_fallback body_text church_name))
                     = true).
  { split; [reflexivity|]. split; [eexists; reflexivity | reflexivity]. }
  unfold incheon_result.
  destruct (incheon_target body_text) as [target_text|]; [|exact Hfall].
  destruct (parse_mass_times_from_text lower target_text) as [[|kv r]|] eqn:E;
    try exact Hfall.
  pose proof (parsed_raw_text lower target_text E) as Hraw.
  destruct (with_search_term (kv :: r) church_name Hraw) as [Hs Hr].
  split; [exact Hs|]. split; [eexists; exact Hr|].
  apply valid_data_length.
  pose proof (dict_set_length (kv :: r) search_term_key (VStr church_name)) as Hl.
  destruct r as [|kv' r]; [|cbn [length] in *; lia].
  destruct kv as [k v]. cbn [dict_get] in Hraw.
  destruct (eqb k raw_text_key) eqn:Ek; [|discriminate].
  apply eqb_eq in Ek. subst k. cbn. lia.
Qed.

Lemma incheon_section_witness :
  Forall (fun t => contains t (lit " 주일 10:00 ")  = false) terminators.
Proof.
  apply (incheon_section ascii_lower
           (lit "성당정보 미사안내 주일 10:00 비고 없음 관할구역 연수동")
           (lit "연수")).
  vm_compute. reflexivity.
Defined.

(** ** Strategy A: the entries that are filtered out *)

Lemma contains_app_r (sub pre x : pystr) :
  contains sub x = true -> contains sub (pre ++ x) = true.
Proof.
  intros H. induction pre as [|c pre IH]; [assumption|].
  cbn [app contains]. rewrite IH. apply orb_true_r.
Qed.

Lemma lstrip_suffix (p : N -> bool) (s : pystr) :
  exists pre, s = pre ++ lstrip_by p s.
Proof.
  induction s as [|c s IH]; cbn [lstrip_by].
  - exists []. reflexivity.
  - destruct (p c).
    + destruct IH as (pre & IH). exists (c :: pre). cbn [app]. congruence.
    + exists []. reflexivity.
Qed.

Lemma contains_strip (p : N -> bool) (sub s : pystr) :
  contains sub (strip_by p s) = true -> contains sub s = true.
Proof.
  unfold strip_by. intros H.
  destruct (lstrip_suffix p s) as (pre & Hs).
  destruct (lstrip_suffix p (rev (lstrip_by p s))) as (pre' & Hr).
  rewrite Hs. apply contains_app_r.
  apply (f_equal (@rev N)) in Hr. rewrite rev_involutive, rev_app_distr in Hr.
  rewrite Hr. apply contains_app. assumption.
Qed.

Lemma startswith_through (a b kw : pystr) (c : N) :
  startswith (a ++ c :: b) kw = true -> mem_char c kw = false ->
  startswith a kw = true.
Proof.
  revert kw; induction a as [|x a IH]; intros kw H Hc.
  - destruct kw as [|d kw]; [reflexivity|].
    cbn [app startswith] in H. apply andb_true_iff in H as [H _].
    apply N.eqb_eq in H. subst d.
    unfold mem_char in Hc. cbn [existsb] in Hc. rewrite N.eqb_refl in Hc.
    discriminate.
  - destruct kw as [|d kw]; [reflexivity|].
    cbn [app startswith] in *. apply andb_true_iff in H as [-> H].
    cbn [andb]. apply IH; [assumption|].
    unfold mem_char in *. cbn [existsb] in Hc.
    apply orb_false_iff in Hc as [_ Hc]. assumption.
Qed.

Lemma contains_through (a b kw : pystr) (c : N) :
  contains kw (a ++ c :: b) = true -> mem_char c kw = false ->
  contains kw a = true \/ contains kw b = true.
Proof.
  intros H Hc. induction a as [|x a IH].
  - cbn [app contains] in H. apply orb_true_iff in H as [H|H].
    + left. change (c :: b) with ([] ++ c :: b) in H.
      cbn [contains]. rewrite (startswith_through _ _ _ _ H Hc). reflexivity.
    + right. assumption.
  - cbn [app contains] in H. apply orb_true_iff in H as [H|H].
    + left. change (x :: a ++ c :: b) with ((x :: a) ++ c :: b) in H.
      cbn [contains]. rewrite (startswith_through _ _ _ _ H Hc). reflexivity.
    + destruct (IH H) as [Ha|Hb]; [left | right; assumption].
      cbn [contains]. rewrite Ha. apply orb_true_r.
Qed.

Lemma keyword_free_spec (d kw : pystr) :
  keyword_free d = true -> In kw Daegu.filter_keywords ->
  contains kw d = false.
Proof.
  unfold keyword_free. rewrite forallb_forall. intros H Hin.
  apply negb_true_iff, H, Hin.
Qed.

Lemma prefixed_keyword_free (day d kw : pystr) :
  In kw Daegu.filter_keywords ->
  keyword_free day = true -> contains kw d = false ->
  contains kw (strip_by is_space (day ++ [Lit.blank] ++ d)) = false.
Proof.
  intros Hin Hday Hd.
  destruct (contains kw (strip_by is_space (day ++ [Lit.blank] ++ d))) eqn:E;
    [|reflexivity].
  apply contains_strip in E. cbn [app] in E.
  apply contains_through in E.
  - destruct E as [E|E]; [|congruence].
    rewrite (@keyword_free_spec day kw Hday Hin) in E. discriminate.
  - cbn [Daegu.filter_keywords In] in Hin.
    repeat match goal with
           | H : _ \/ _ |- _ => destruct H as [H|H]
           | H : False |- _ => destruct H
           end; subst kw; reflexivity.
Qed.

Lemma clean_keyword_free (cat : category) (entries : list Daegu.DayEntry)
      (seen : list pystr) (e : Entry) (kw : pystr) :
  Forall (fun de => keyword_free (Daegu.d_day de) = true) entries ->
  In e (Daegu.clean cat seen entries) ->
  In kw Daegu.filter_keywords ->
  contains kw (desc e) = false.
Proof.
  intros Hdays He Hkw. revert seen He.
  induction entries as [|de entries IH]; intros seen; cbn [Daegu.clean];
    [intros []|].
  apply Forall_cons_iff in Hdays as [Hday Hdays].
  destruct (existsb _ Daegu.filter_keywords) eqn:Hf; [apply IH; assumption|].
  assert (Hdesc : contains kw (Daegu.d_desc de) = false).
  { destruct (contains kw (Daegu.d_desc de)) eqn:E; [|reflexivity].
    assert (existsb (fun kw0 => contains kw0 (Daegu.d_desc de))
                    Daegu.filter_keywords = true)
      by (apply existsb_exists; exists kw; split; assumption).
    congruence. }
  match goal with
  | |- context [mem_str (entry_key _ ?x) seen] => set (d := x)
  end.
  assert (Hd : contains kw d = false).
  { unfold d. destruct (category_eqb cat Weekday && _); [|assumption].
    apply prefixed_keyword_free; assumption. }
  destruct (mem_str _ seen); [apply IH; assumption|].
  intros [<-|He]; [exact Hd | eapply IH; eassumption].
Qed.

Lemma scan_Forall {A} (P : A -> Prop) (m : pystr -> option (A * nat))
      (s : pystr) (skip : nat) :
  (forall t a n, m t = Some (a, n) -> P a) ->
  Forall P (Re.scan m skip s).
Proof.
  intros Hm. revert skip; induction s as [|c s IH]; intros skip;
    cbn [Re.scan]; [constructor|].
  destruct skip as [|k]; [|apply IH].
  destruct (m (c :: s)) as [[a n]|] eqn:E; [|apply IH].
  constructor; [eapply Hm; eassumption | apply IH].
Qed.

Lemma day_chars_free :
  forallb (fun a =>
             keyword_free [a]
             && forallb (fun b =>
                           forallb keyword_free
                                   (expand_days [a; Lit.hyphen; b]))
                        Re.day_chars)
          Re.day_chars = true.
Proof. vm_compute. reflexivity. Qed.

Lemma mem_char_In (c : N) (cs : pystr) : mem_char c cs = true -> In c cs.
Proof.
  unfold mem_char. rewrite existsb_exists. intros (d & Hd & E).
  apply N.eqb_eq in E. subst. assumption.
Qed.

Lemma token_at_days_free (s : pystr) (tok : Re.token) (n : nat) :
  Re.token_at s = Some (tok, n) -> token_days_free tok.
Proof.
  pose proof day_chars_free as Hall. rewrite forallb_forall in Hall.
  unfold Re.token_at, Re.or_else, Re.tagged.
  destruct (Re.ampm_at s) as [[a k]|]; [intros [= <- _]; exact I|].
  destruct (Re.day_range_at s) as [[r k]|] eqn:Er.
  { intros [= <- _]. cbn [token_days_free].
    unfold Re.day_range_at in Er.
    destruct s as [|a [|h [|b s]]]; try discriminate.
    destruct (Re.day_char a) eqn:Ha; [|discriminate].
    destruct (N.eqb_spec h Lit.hyphen); [|discriminate].
    destruct (Re.day_char b) eqn:Hb; [|discriminate].
    cbn [andb] in Er. injection Er as <- _. subst h.
    specialize (Hall a (mem_char_In _ _ Ha)).
    apply andb_true_iff in Hall as [_ Hall].
    rewrite forallb_forall in Hall.
    specialize (Hall b (mem_char_In _ _ Hb)).
    apply Forall_forall. rewrite forallb_forall in Hall. exact Hall. }
  destruct (Re.day_at s) as [[d k]|] eqn:Ed.
  { intros [= <- _]. cbn [token_days_free].
    unfold Re.day_at in Ed. destruct s as [|a s]; [discriminate|].
    destruct (Re.day_char a) eqn:Ha; [|discriminate].
    destruct (negb _); [|discriminate].
    cbn [andb] in Ed. injection Ed as <- _.
    specialize (Hall a (mem_char_In _ _ Ha)).
    apply andb_true_iff in Hall as [Hall _]. exact Hall. }
  destruct (Re.time_at s) as [[t k]|]; [intros [= <- _]; exact I|].
  destruct (Re.paren_at s) as [[t k]|]; [intros [= <- _]; exact I|].
  discriminate.
Qed.

Lemma set_desc_days (objs : list Daegu.DayEntry) (i : nat)
      (f : pystr -> pystr) :
  Forall (fun e => keyword_free (Daegu.d_day e) = true) objs ->
  Forall (fun e => keyword_free (Daegu.d_day e) = true)
         (Daegu.set_desc objs i f).
Proof.
  revert i; induction objs as [|e objs IH]; intros i H; cbn [Daegu.set_desc].
  - destruct i; constructor.
  - apply Forall_cons_iff in H as [He H].
    destruct i as [|j]; constructor; auto.
Qed.

Lemma add_entries_days (final_time : pystr) (days : list pystr)
      (acc : Daegu.State * list nat) :
  Forall (fun d => keyword_free d = true) days ->
  days_free (fst acc) ->
  days_free (fst (fold_left (Daegu.add_entry final_time) days acc)).
Proof.
  revert acc; induction days as [|d days IH]; intros acc Hd Hst;
    cbn [fold_left]; [assumption|].
  apply Forall_cons_iff in Hd as [Hd Hdays].
  apply IH; [assumption|].
  destruct acc as [st news]. destruct Hst as [Hc Ho].
  unfold Daegu.add_entry, days_free.
  cbn [fst Daegu.current_days Daegu.objects].
  split; [assumption|].
  apply Forall_app. split; [assumption|].
  constructor; [exact Hd | constructor].
Qed.

Lemma on_token_days (st : Daegu.State) (tok : Re.token) :
  token_days_free tok -> days_free st -> days_free (Daegu.on_token st tok).
Proof.
  intros Htok [Hc Ho]. destruct tok as [a|r|d|t|x];
    cbn [Daegu.on_token token_days_free] in *.
  - split; assumption.
  - split; assumption.
  - split; [constructor; [assumption | constructor] | assumption].
  - match goal with
    | |- context [fold_left _ ?d (st, [])] => set (days := d)
    end.
    assert (Hdays : Forall (fun d => keyword_free d = true) days).
    { unfold days. destruct (Daegu.current_days st); [|assumption].
      destruct (Daegu.current_section st); repeat constructor. }
    pose proof (@add_entries_days (normalize_time t (Daegu.current_ampm st))
                  days (st, []) Hdays (conj Hc Ho)) as H.
    destruct (fold_left _ days (st, [])) as [st' news].
    destruct H as [Hc' Ho']. split; assumption.
  - split; [assumption|]. cbn [Daegu.objects].
    generalize (Daegu.last_added_entries st).
    revert Ho. generalize (Daegu.objects st).
    intros objs Ho refs. revert objs Ho.
    induction refs as [|r refs IH]; intros objs Ho; cbn [fold_left];
      [assumption|].
    apply IH. apply set_desc_days. assumption.
Qed.

Lemma on_tokens_days (toks : list Re.token) (st : Daegu.State) :
  Forall token_days_free toks -> days_free st ->
  days_free (fold_left Daegu.on_token toks st).
Proof.
  revert st; induction toks as [|tok toks IH]; intros st Ht Hst;
    cbn [fold_left]; [assumption|].
  apply Forall_cons_iff in Ht as [Htok Ht].
  apply IH; [assumption|]. apply on_token_days; assumption.
Qed.

Lemma on_line_days (st : Daegu.State) (line : pystr) :
  days_free st -> days_free (Daegu.on_line st line).
Proof.
  intros [Hc Ho]. unfold Daegu.on_line. cbv zeta.
  destruct (negb _); [split; assumption|].
  destruct (contains Daegu.sunday_marker _); [split; assumption|].
  destruct (contains Daegu.weekday_marker _); [split; assumption|].
  apply on_tokens_days.
  - apply scan_Forall. intros t a n. apply token_at_days_free.
  - split; [constructor | assumption].
Qed.

Lemma read_lines_days (text : pystr) : days_free (Daegu.read_lines text).
Proof.
  unfold Daegu.read_lines.
  assert (H : days_free Daegu.initial) by (split; constructor).
  revert H. generalize Daegu.initial.
  induction (split Lit.newline (Daegu.normalize text)) as [|line lines IH];
    intros st H; cbn [fold_left]; [assumption|].
  apply IH, on_line_days, H.
Qed.

Lemma deref_In (objs : list Daegu.DayEntry) (refs : list nat)
      (e : Daegu.DayEntry) :
  In e (Daegu.deref objs refs) -> In e objs.
Proof.
  unfold Daegu.deref. rewrite in_flat_map. intros (r & _ & H).
  destruct (nth_error objs r) eqn:E; [|destruct H].
  destruct H as [<-|[]]. eapply nth_error_In; eassumption.
Qed.

(** X14: no entry of a result of Strategy A has one of the filtered
    words (["후원회"], ["교리"], ["교정사목"]) in its description, also
    after the day has been put in front of the description of a weekday
    entry. *)
Theorem daegu_filtered (text : pystr) (k : pystr) (l : list Entry)
        (e : Entry) (kw : pystr) :
  In (k, VEntries l) (_parse_daegu_style text) ->
  In e l ->
  In kw Daegu.filter_keywords ->
  contains kw (desc e) = false.
Proof.
  intros [H|H] He Hkw; [discriminate|].
  unfold Daegu.category_items in H.
  apply in_flat_map in H as (cat & _ & H).
  unfold Daegu.clean_entries in H.
  destruct (Daegu.clean _ _ _) as [|e0 es] eqn:E; [destruct H|].
  destruct H as [H|[]].
  assert (El : l = e0 :: es) by congruence. subst l. rewrite <- E in He.
  eapply clean_keyword_free; [|exact He | exact Hkw].
  destruct (read_lines_days text) as [_ Ho].
  apply Forall_forall. intros de Hde. apply deref_In in Hde.
  rewrite Forall_forall in Ho. apply Ho. assumption.
Qed.

Lemma daegu_filtered_witness :
  contains (lit "교리") (lit "월 새벽") = false.
Proof.
  apply (@daegu_filtered
           (lit "[평일미사] 월 오전 6:00 (새벽) 화 오후 8:00 (예비자 교리)")
           (category_key Weekday)
           [{| time := lit "06:00"; desc := lit "월 새벽" |}]
           {| time := lit "06:00"; desc := lit "월 새벽" |}
           (lit "교리")).
  - vm_compute. right. left. reflexivity.
  - left. reflexivity.
  - vm_compute. right. left. reflexivity.
Defined.

(** ** No digit, no schedule *)

Lemma digit_free_check (s : pystr) :
  forallb (fun c => negb (is_digit c)) s = true -> digit_free s.
Proof.
  rewrite forallb_forall. intros H. apply Forall_forall. intros c Hc.
  apply negb_true_iff, H, Hc.
Qed.

Lemma digit_free_tail (c : N) (s : pystr) : digit_free (c :: s) -> digit_free s.
Proof. intros H. apply Forall_cons_iff in H as [_ H]. exact H. Qed.

Lemma time_at_none (s : pystr) : digit_free s -> Re.time_at s = None.
Proof.
  intros H. destruct s as [|d1 s]; [reflexivity|].
  apply Forall_cons_iff in H as [H _]. unfold Re.time_at.
  destruct s as [|d2 [|c [|d3 [|d4 s]]]]; try reflexivity;
    rewrite H; reflexivity.
Qed.

Lemma scan_nil {A} (m : pystr -> option (A * nat)) (s : pystr) (skip : nat) :
  digit_free s ->
  (forall t, digit_free t -> m t = None) ->
  Re.scan m skip s = [].
Proof.
  intros Hs Hm. revert skip; induction s as [|c s IH]; intros skip;
    cbn [Re.scan]; [reflexivity|].
  pose proof (digit_free_tail Hs) as Hs'.
  destruct skip as [|k]; [|apply IH; assumption].
  rewrite (Hm (c :: s) Hs). apply IH. assumption.
Qed.

Lemma scan_Forall_on {A} (P : A -> Prop) (m : pystr -> option (A * nat))
      (s : pystr) (skip : nat) :
  digit_free s ->
  (forall t a n, digit_free t -> m t = Some (a, n) -> P a) ->
  Forall P (Re.scan m skip s).
Proof.
  intros Hs Hm. revert skip; induction s as [|c s IH]; intros skip;
    cbn [Re.scan]; [constructor|].
  pose proof (digit_free_tail Hs) as Hs'.
  destruct skip as [|k]; [|apply IH; assumption].
  destruct (m (c :: s)) as [[a n]|] eqn:E; [|apply IH; assumption].
  constructor; [exact (Hm (c :: s) a n Hs E) | apply IH; assumption].
Qed.

Lemma split_digit_free (sep : N) (s : pystr) :
  digit_free s -> Forall digit_free (split sep s).
Proof.
  induction s as [|c s IH]; intros H; cbn [split].
  - repeat constructor.
  - apply Forall_cons_iff in H as [Hc H]. specialize (IH H).
    destruct (c =? sep)%N.
    + constructor; [constructor | assumption].
    + destruct (split sep s) as [|w ws]; [repeat constructor; assumption|].
      apply Forall_cons_iff in IH as [Hw Hws].
      constructor; [constructor; assumption | assumption].
Qed.

Lemma lstrip_digit_free (p : N -> bool) (s : pystr) :
  digit_free s -> digit_free (lstrip_by p s).
Proof.
  induction s as [|c s IH]; intros H; cbn [lstrip_by]; [constructor|].
  destruct (p c); [apply IH, (digit_free_tail H) | assumption].
Qed.

Lemma strip_digit_free (p : N -> bool) (s : pystr) :
  digit_free s -> digit_free (strip_by p s).
Proof.
  intros H. unfold strip_by, digit_free.
  apply Forall_rev, lstrip_digit_free, Forall_rev, lstrip_digit_free, H.
Qed.

Lemma replace_digit_free (old new : pystr) (skip : nat) (s : pystr) :
  digit_free new -> digit_free s -> digit_free (replace_from old new skip s).
Proof.
  intros Hnew. revert skip; induction s as [|c s IH]; intros skip H;
    cbn [replace_from]; [constructor|].
  apply Forall_cons_iff in H as [Hc H].
  destruct skip as [|k]; [|apply IH; assumption].
  destruct (startswith (c :: s) old).
  - apply Forall_app. split; [assumption | apply IH; assumption].
  - constructor; [assumption | apply IH; assumption].
Qed.

Lemma break_digit_free (m : pystr -> option nat) (skip : nat) (s : pystr) :
  digit_free s -> digit_free (Re.break_before m skip s).
Proof.
  revert skip; induction s as [|c s IH]; intros skip H;
    cbn [Re.break_before]; [constructor|].
  apply Forall_cons_iff in H as [Hc H].
  destruct skip as [|k]; [|constructor; [assumption | apply IH; assumption]].
  destruct (m (c :: s)).
  - constructor; [reflexivity|].
    constructor; [assumption | apply IH; assumption].
  - constructor; [assumption | apply IH; assumption].
Qed.

Lemma normalize_digit_free (text : pystr) :
  digit_free text -> digit_free (Daegu.normalize text).
Proof.
  intros H. unfold Daegu.normalize. cbv zeta.
  apply break_digit_free, break_digit_free.
  unfold replace.
  apply replace_digit_free; [apply digit_free_check; reflexivity|].
  apply replace_digit_free; [apply digit_free_check; reflexivity | assumption].
Qed.

Lemma token_no_time (t : pystr) (tok : Re.token) (n : nat) :
  digit_free t -> Re.token_at t = Some (tok, n) ->
  match tok with Re.TTime _ => False | _ => True end.
Proof.
  intros Ht. unfold Re.token_at, Re.or_else, Re.tagged.
  rewrite (time_at_none Ht).
  destruct (Re.ampm_at t) as [[a k]|]; [intros [= <- _]; exact I|].
  destruct (Re.day_range_at t) as [[a k]|]; [intros [= <- _]; exact I|].
  destruct (Re.day_at t) as [[a k]|]; [intros [= <- _]; exact I|].
  destruct (Re.paren_at t) as [[a k]|]; [intros [= <- _]; exact I|].
  discriminate.
Qed.

Lemma on_token_nothing (st : Daegu.State) (tok : Re.token) :
  match tok with Re.TTime _ => False | _ => True end ->
  nothing_added st -> nothing_added (Daegu.on_token st tok).
Proof.
  intros Htok [Ho Hr]. destruct tok as [a|r|d|t|x]; try destruct Htok;
    cbn [Daegu.on_token]; unfold nothing_added;
    cbn [Daegu.objects Daegu.result]; try (split; assumption).
  split; [|assumption]. rewrite Ho.
  induction (Daegu.last_added_entries st) as [|r refs IH]; cbn [fold_left];
    [reflexivity|].
  destruct r; exact IH.
Qed.

Lemma on_line_nothing (st : Daegu.State) (line : pystr) :
  digit_free line -> nothing_added st -> nothing_added (Daegu.on_line st line).
Proof.
  intros Hline [Ho Hr]. unfold Daegu.on_line. cbv zeta.
  destruct (negb _); [split; assumption|].
  destruct (contains Daegu.sunday_marker _); [split; assumption|].
  destruct (contains Daegu.weekday_marker _); [split; assumption|].
  assert (Htoks : Forall (fun tok => match tok with
                                     | Re.TTime _ => False
                                     | _ => True
                                     end)
                         (Re.findall Re.token_at
                            (replace (replace (strip_by is_space line)
                                              Re.saturday_word Lit.sat)
                                     Daegu.sunday_word Lit.juil))).
  { apply scan_Forall_on.
    - unfold replace. apply replace_digit_free; [apply digit_free_check; reflexivity|].
      apply replace_digit_free; [apply digit_free_check; reflexivity|].
      apply strip_digit_free. assumption.
    - intros t a n. apply token_no_time. }
  revert Htoks.
  generalize (Re.findall Re.token_at
                (replace (replace (strip_by is_space line)
                                  Re.saturday_word Lit.sat)
                         Daegu.sunday_word Lit.juil)).
  intros toks Htoks.
  match goal with
  | |- nothing_added (fold_left _ _ ?s) =>
    assert (Hs : nothing_added s) by (split; assumption);
      revert Hs; generalize s
  end.
  induction toks as [|tok toks IH]; intros s Hs; cbn [fold_left];
    [assumption|].
  apply Forall_cons_iff in Htoks as [Htok Htoks].
  apply IH; [assumption|]. apply on_token_nothing; assumption.
Qed.

Lemma read_lines_nothing (text : pystr) :
  digit_free text -> nothing_added (Daegu.read_lines text).
Proof.
  intros H. unfold Daegu.read_lines.
  pose proof (split_digit_free Lit.newline (normalize_digit_free H)) as Hlines.
  assert (Hi : nothing_added Daegu.initial) by (split; reflexivity).
  revert Hi. generalize Daegu.initial.
  induction (split Lit.newline (Daegu.normalize text)) as [|line lines IH];
    intros st Hst; cbn [fold_left]; [assumption|].
  apply Forall_cons_iff in Hlines as [Hl Hlines].
  apply IH; [assumption|]. apply on_line_nothing; assumption.
Qed.

Lemma classify_line_nothing (lower : pystr -> pystr)
      (result : Buckets Entry) (line : pystr) :
  digit_free line -> classify_line lower result line = result.
Proof.
  intros H. unfold classify_line, Re.findall. cbv zeta.
  rewrite (scan_nil Re.time_at 0 (strip_digit_free is_space H) time_at_none).
  destruct (negb _); [reflexivity|].
  destruct (_ || _); reflexivity.
Qed.

Lemma classified_nothing (lower : pystr -> pystr) (text : pystr) :
  digit_free text -> classified lower text = no_buckets.
Proof.
  intros H. unfold classified. cbv zeta.
  assert (E : Re.findall Re.timed_desc_at text = []).
  { apply scan_nil; [assumption|].
    intros t Ht. unfold Re.timed_desc_at. rewrite (time_at_none Ht).
    reflexivity. }
  rewrite E. cbn [fold_left].
  pose proof (split_digit_free Lit.newline H) as Hlines.
  induction (split Lit.newline text) as [|line lines IH]; cbn [fold_left];
    [reflexivity|].
  apply Forall_cons_iff in Hlines as [Hl Hlines].
  rewrite classify_line_nothing by assumption. apply IH. assumption.
Qed.

(** X15: a text without a decimal digit gives no schedule.  Strategy A
    returns the raw text alone, Strategy B returns [None]; so
    [parse_mass_times_from_text] returns [None] or, for a text with a
    section marker, the dict of the one key ["raw_text"]. *)
Theorem no_digit_no_schedule (lower : pystr -> pystr) (text : pystr) :
  digit_free text ->
  _parse_daegu_style text = [(raw_text_key, VStr (firstn 500 text))]
  /\ parse_flat lower text = None
  /\ parse_mass_times_from_text lower text
     = if has_marker text
       then Some [(raw_text_key, VStr (firstn 500 text))]
       else None.
Proof.
  intros H.
  assert (HA : _parse_daegu_style text
               = [(raw_text_key, VStr (firstn 500 text))]).
  { unfold _parse_daegu_style. f_equal.
    destruct (read_lines_nothing H) as [Ho Hr].
    unfold Daegu.category_items, Daegu.clean_entries.
    rewrite Ho, Hr. reflexivity. }
  assert (HB : parse_flat lower text = None).
  { unfold parse_flat. rewrite flat_result_length.
    unfold nonempty_categories. rewrite (classified_nothing lower H).
    destruct (nonempty text); reflexivity. }
  split; [exact HA|]. split; [exact HB|].
  unfold parse_mass_times_from_text. fold (has_marker text).
  rewrite HA, HB. reflexivity.
Qed.

Lemma no_digit_no_schedule_witness :
  _parse_daegu_style (lit "[주일미사] 추후 공지합니다")
  = [(raw_text_key, VStr (firstn 500 (lit "[주일미사] 추후 공지합니다")))].
Proof.
  apply (@no_digit_no_schedule ascii_lower (lit "[주일미사] 추후 공지합니다")).
  apply digit_free_check. vm_compute. reflexivity.
Defined.

(** ** Strategy A: a time and the annotation after it *)

Lemma add_entries_objects (final_time : pystr) (days : list pystr)
      (st : Daegu.State) (news : list nat) :
  Daegu.objects (fst (fold_left (Daegu.add_entry final_time) days (st, news)))
  = Daegu.objects st
      ++ map (fun d => {| Daegu.d_time := final_time; Daegu.d_desc := [];
                          Daegu.d_day := d |}) days
  /\ snd (fold_left (Daegu.add_entry final_time) days (st, news))
     = news ++ seq (length (Daegu.objects st)) (length days).
Proof.
  revert st news; induction days as [|d days IH]; intros st news;
    cbn [fold_left map length seq].
  - rewrite !app_nil_r. split; reflexivity.
  - unfold Daegu.add_entry at 2 4.
    match goal with
    | |- context [fold_left _ days (?s, ?n)] => destruct (IH s n) as [Ho Hn]
    end.
    rewrite Ho, Hn. cbn [Daegu.objects].
    rewrite length_app, <- !app_assoc. cbn [length app].
    rewrite Nat.add_1_r. split; reflexivity.
Qed.

Lemma set_desc_at (pre : list Daegu.DayEntry) (e : Daegu.DayEntry)
      (post : list Daegu.DayEntry) (f : pystr -> pystr) :
  Daegu.set_desc (pre ++ e :: post) (length pre) f
  = pre ++ {| Daegu.d_time := Daegu.d_time e; Daegu.d_desc := f (Daegu.d_desc e);
              Daegu.d_day := Daegu.d_day e |} :: post.
Proof.
  induction pre as [|x pre IH]; cbn [app length Daegu.set_desc];
    [reflexivity|].
  rewrite IH. reflexivity.
Qed.

Lemma set_desc_run (f : pystr -> pystr) (todo pre : list Daegu.DayEntry) :
  fold_left (fun objs ref => Daegu.set_desc objs ref f)
            (seq (length pre) (length todo)) (pre ++ todo)
  = pre ++ map (fun e => {| Daegu.d_time := Daegu.d_time e;
                            Daegu.d_desc := f (Daegu.d_desc e);
                            Daegu.d_day := Daegu.d_day e |}) todo.
Proof.
  revert pre; induction todo as [|e todo IH]; intros pre;
    cbn [length seq fold_left map]; [reflexivity|].
  rewrite set_desc_at.
  change (pre ++ ?x :: todo) with (pre ++ [x] ++ todo).
  rewrite app_assoc.
  replace (S (length pre)) with (length (pre ++ [ {|
             Daegu.d_time := Daegu.d_time e;
             Daegu.d_desc := f (Daegu.d_desc e);
             Daegu.d_day := Daegu.d_day e |} ]))
    by (rewrite length_app; cbn [length]; lia).
  rewrite IH, <- app_assoc. reflexivity.
Qed.

(** X16: in any state of Strategy A, a time token followed by an
    annotation in parentheses adds one entry for every day the time is
    applied to, each with the normalized time and with the annotation,
    stripped of its parentheses, as its description; the entries made
    before stay as they were. *)
Theorem time_then_annotation (st : Daegu.State) (time_str desc : pystr) :
  Daegu.objects
    (Daegu.on_token (Daegu.on_token st (Re.TTime time_str)) (Re.TDesc desc))
  = Daegu.objects st
      ++ map (fun d =>
                {| Daegu.d_time := normalize_time time_str (Daegu.current_ampm st);
                   Daegu.d_desc := clean_desc desc;
                   Daegu.d_day := d |})
             (days_to_apply st).
Proof.
  cbn [Daegu.on_token].
  fold (days_to_apply st).
  destruct (add_entries_objects (normalize_time time_str (Daegu.current_ampm st))
                                (days_to_apply st) st []) as [Ho Hn].
  destruct (fold_left _ (days_to_apply st) (st, [])) as [st' news].
  cbn [fst snd app] in Ho, Hn.
  cbn [Daegu.objects Daegu.last_added_entries].
  rewrite Ho, Hn.
  rewrite <- (length_map (fun d => {| Daegu.d_time :=
                                        normalize_time time_str
                                                       (Daegu.current_ampm st);
                                      Daegu.d_desc := [];
                                      Daegu.d_day := d |})
                         (days_to_apply st)).
  rewrite set_desc_run, map_map. reflexivity.
Qed.

(** ** The time tokens are always understood *)

Lemma digit_in_range (zs : list N) (c v : N) :
  digit_in zs c = Some v ->
  exists z, In z zs /\ (z <= c)%N /\ (c < z + 10)%N /\ v = (c - z)%N.
Proof.
  induction zs as [|z zs IH]; cbn [digit_in]; [discriminate|].
  destruct (N.leb_spec z c) as [Hl|Hl];
    destruct (N.ltb_spec c (z + 10)) as [Hu|Hu]; cbn [andb];
    try (intros Hd; destruct (IH Hd) as (z' & Hin & Hz); exists z';
         split; [right; assumption | assumption]).
  intros [= <-]. exists z. split; [left; reflexivity|]. repeat split; assumption.
Qed.

Lemma zeros_ascii_or_far :
  Forall (fun z => z = 48%N \/ (1632 <= z)%N) decimal_zeros.
Proof.
  unfold decimal_zeros.
  repeat (constructor; [first [left; reflexivity | right; apply N.leb_le; reflexivity]|]).
  constructor.
Qed.

Lemma digit_value_facts (c v : N) :
  digit_value c = Some v ->
  (v < 10)%N /\ ((c < 127)%N -> (48 <= c)%N /\ (c <= 57)%N).
Proof.
  unfold digit_value. intros H.
  destruct (digit_in_range _ _ H) as (z & Hin & Hle & Hlt & ->).
  split; [lia|]. intros Hc.
  pose proof zeros_ascii_or_far as Hz. rewrite Forall_forall in Hz.
  destruct (Hz z Hin) as [->|Hfar]; lia.
Qed.

Lemma space_not_digit (c : N) : is_space c = true -> is_digit c = false.
Proof.
  unfold is_space.
  rewrite !orb_true_iff, !andb_true_iff, !N.leb_le, !N.eqb_eq.
  intros H.
  assert (Hin : In c [9; 10; 11; 12; 13; 28; 29; 30; 31; 32; 133; 160; 5760;
                      8192; 8193; 8194; 8195; 8196; 8197; 8198; 8199; 8200;
                      8201; 8202; 8232; 8233; 8239; 8287; 12288]%N)
    by (cbn [In]; lia).
  cbn [In] in Hin.
  repeat match goal with
         | H : _ \/ _ |- _ => destruct H as [H|H]
         | H : False |- _ => destruct H
         end; subst c; reflexivity.
Qed.

Lemma to_ascii_digit (c : N) (rest r : pystr) :
  is_digit c = true -> PyInt.to_ascii rest = Some r ->
  exists a, (48 <= a)%N /\ (a <= 57)%N
            /\ PyInt.to_ascii (c :: rest) = Some (a :: r).
Proof.
  intros Hd Hr. cbn [PyInt.to_ascii]. rewrite Hr.
  unfold is_digit in Hd. destruct (digit_value c) as [v|] eqn:Ev;
    [|discriminate].
  destruct (digit_value_facts _ Ev) as [Hv Hc].
  destruct (N.ltb_spec c 127).
  - exists c. destruct (Hc H) as [H1 H2]. repeat split; assumption.
  - destruct (is_space c) eqn:Es.
    + apply space_not_digit in Es. unfold is_digit in Es. rewrite Ev in Es.
      discriminate.
    + exists (48 + v)%N. repeat split; lia.
Qed.

Lemma ascii_digit_cases (a : N) :
  (48 <= a)%N -> (a <= 57)%N ->
  In a [48; 49; 50; 51; 52; 53; 54; 55; 56; 57]%N.
Proof. intros H1 H2. cbn [In]. lia. Qed.

Ltac each_digit H :=
  cbn [In] in H;
  repeat match type of H with
         | _ \/ _ => destruct H as [H|H]
         end;
  try (exfalso; exact H).

Lemma int_digits (s : pystr) :
  Forall (fun c => is_digit c = true) s ->
  (length s = 1 \/ length s = 2) ->
  exists v, PyInt.int s = Some v /\ (0 <= v < 100)%Z.
Proof.
  intros Hs Hlen.
  destruct s as [|c1 [|c2 [|c3 s]]]; cbn [length] in Hlen; try lia.
  - apply Forall_cons_iff in Hs as [H1 _].
    destruct (@to_ascii_digit c1 [] [] H1 eq_refl) as (a1 & L1 & U1 & E1).
    unfold PyInt.int. rewrite E1.
    pose proof (ascii_digit_cases L1 U1) as C1.
    each_digit C1; subst a1; eexists; (split; [vm_compute; reflexivity | lia]).
  - apply Forall_cons_iff in Hs as [H1 Hs].
    apply Forall_cons_iff in Hs as [H2 _].
    destruct (@to_ascii_digit c2 [] [] H2 eq_refl) as (a2 & L2 & U2 & E2).
    destruct (@to_ascii_digit c1 [c2] [a2] H1 E2) as (a1 & L1 & U1 & E1).
    unfold PyInt.int. rewrite E1.
    pose proof (ascii_digit_cases L1 U1) as C1.
    pose proof (ascii_digit_cases L2 U2) as C2.
    each_digit C1; subst a1; each_digit C2; subst a2;
      eexists; (split; [vm_compute; reflexivity | lia]).
Qed.

Lemma digit_not_colon (c : N) : is_digit c = true -> (c =? Lit.colon)%N = false.
Proof.
  intros H. destruct (N.eqb_spec c Lit.colon); [|reflexivity].
  subst c. discriminate H.
Qed.

Lemma time_token_read (s tok : pystr) (n : nat) :
  Re.time_at s = Some (tok, n) ->
  exists hour minute,
    split_hour_minute tok = Some (hour, minute)
    /\ (0 <= hour < 100)%Z /\ (0 <= minute < 100)%Z.
Proof.
  assert (Hread : forall hs ms,
             Forall (fun c => is_digit c = true) hs ->
             Forall (fun c => is_digit c = true) ms ->
             (length hs = 1 \/ length hs = 2) -> length ms = 2 ->
             split Lit.colon (hs ++ Lit.colon :: ms) = [hs; ms] ->
             exists hour minute,
               split_hour_minute (hs ++ Lit.colon :: ms) = Some (hour, minute)
               /\ (0 <= hour < 100)%Z /\ (0 <= minute < 100)%Z).
  { intros hs ms Hh Hm Lh Lm Hsplit. unfold split_hour_minute. rewrite Hsplit.
    destruct (int_digits Hh Lh) as (h & Eh & Bh).
    destruct (int_digits Hm (or_intror Lm)) as (m & Em & Bm).
    rewrite Eh, Em. eauto. }
  unfold Re.time_at.
  destruct s as [|d1 [|d2 [|c [|d3 s]]]]; try discriminate.
  destruct s as [|d4 s].
  - destruct (is_digit d1) eqn:E1; [|discriminate].
    destruct (N.eqb_spec d2 Lit.colon); [|discriminate].
    destruct (is_digit c) eqn:E3; [|discriminate].
    destruct (is_digit d3) eqn:E4; [|discriminate].
    cbn [andb]. intros [= <- _]. subst d2.
    apply (Hread [d1] [c; d3]); auto.
    cbn [app split]. rewrite (digit_not_colon _ E1), N.eqb_refl.
    cbn [split]. rewrite (digit_not_colon _ E3), (digit_not_colon _ E4).
    reflexivity.
  - destruct (is_digit d1) eqn:E1; [|discriminate].
    destruct (is_digit d2) eqn:E2.
    + destruct (N.eqb_spec c Lit.colon).
      * destruct (is_digit d3) eqn:E4; [|cbn [andb];
          rewrite (digit_not_colon _ E2); discriminate].
        destruct (is_digit d4) eqn:E5; [|cbn [andb];
          rewrite (digit_not_colon _ E2); discriminate].
        cbn [andb]. intros [= <- _]. subst c.
        apply (Hread [d1; d2] [d3; d4]); auto.
        cbn [app split].
        rewrite (digit_not_colon _ E1), (digit_not_colon _ E2), N.eqb_refl.
        cbn [split]. rewrite (digit_not_colon _ E4), (digit_not_colon _ E5).
        reflexivity.
      * cbn [andb]. rewrite (digit_not_colon _ E2). discriminate.
    + cbn [andb].
      destruct (N.eqb_spec d2 Lit.colon); [|discriminate].
      destruct (is_digit c) eqn:E3; [|discriminate].
      destruct (is_digit d3) eqn:E4; [|discriminate].
      cbn [andb]. intros [= <- _]. subst d2.
      apply (Hread [d1] [c; d3]); auto.
      cbn [app split]. rewrite (digit_not_colon _ E1), N.eqb_refl.
      cbn [split]. rewrite (digit_not_colon _ E3), (digit_not_colon _ E4).
      reflexivity.
Qed.

(** X17: every time the patterns of the parser match, in any script of
    decimal digits, is read by [normalize_time] as an hour and a minute
    below 100: the [try] never falls back on a token.  With a meridiem
    the time that comes out is five characters, two ASCII digits, the
    colon and two ASCII digits. *)
Theorem time_tokens_understood (s tok : pystr) (n : nat) :
  Re.time_at s = Some (tok, n) ->
  exists hour minute,
    split_hour_minute tok = Some (hour, minute)
    /\ (0 <= hour < 100)%Z /\ (0 <= minute < 100)%Z
    /\ forall c ap,
        exists hour',
          normalize_time tok (Some (c :: ap)) = hhmm hour' minute
          /\ (0 <= hour' < 100)%Z.
Proof.
  intros H. destruct (time_token_read s H) as (hour & minute & E & Bh & Bm).
  exists hour, minute. repeat split; try lia; try assumption.
  intros c ap. unfold normalize_time. rewrite E.
  eexists. split; [apply hhmm_format|].
  - destruct (eqb (c :: ap) Lit.pm && (hour <? 12)%Z) eqn:E1.
    + apply andb_true_iff in E1 as [_ E1]. apply Z.ltb_lt in E1. lia.
    + destruct (eqb (c :: ap) Lit.am && (hour =? 12)%Z); lia.
  - lia.
  - destruct (eqb (c :: ap) Lit.pm && (hour <? 12)%Z) eqn:E1.
    + apply andb_true_iff in E1 as [_ E1]. apply Z.ltb_lt in E1. lia.
    + destruct (eqb (c :: ap) Lit.am && (hour =? 12)%Z); lia.
Qed.

Lemma time_tokens_understood_witness :
  exists hour minute,
    split_hour_minute (lit "٧:٣٠") = Some (hour, minute)
    /\ (0 <= hour < 100)%Z /\ (0 <= minute < 100)%Z
    /\ forall c ap,
        exists hour',
          normalize_time (lit "٧:٣٠") (Some (c :: ap)) = hhmm hour' minute
          /\ (0 <= hour' < 100)%Z.
Proof.
  apply (@time_tokens_understood (lit "٧:٣٠ 미사") (lit "٧:٣٠") 4).
  vm_compute. reflexivity.
Defined.
